(** * Tegra graphics host: automatic clock management (nvhost_acm.c)

    A shallow embedding of the reference-counted busy/idle engine, its
    deferred power-down handler, the per-module client rate registry and
    the suspend path, followed by the properties of the design document
    that are decided by this code.

    The C code runs against kernel services (mutexes, delayed work, the
    clock framework, the power-gating driver).  Calls into these services
    are recorded in a chronological trace; the few services that return a
    value the code looks at are parameters of the development.

    The last part embeds the GART driver of the same platform
    (iovmm-gart.c) in a module of its own. *)

From Stdlib Require Import ZArith String.
From stdpp Require Import gmap list.

Local Open Scope Z_scope.

(** ** Machine integers *)

(** [atomic_t] and [int] are 32-bit signed, [unsigned long] is 32-bit on
    this ARM platform. *)
Definition wrap_int (z : Z) : Z := (z + 2 ^ 31) mod 2 ^ 32 - 2 ^ 31.
Definition wrap_ulong (z : Z) : Z := z mod 2 ^ 32.

Definition EINVAL : Z := 22.
Definition ENOMEM : Z := 12.
Definition MAX_ERRNO : Z := 4095.

(** Pointers to [struct clk] are raw addresses. *)
Definition IS_ERR_OR_NULL (p : Z) : bool :=
  (p =? 0) || (2 ^ 32 - MAX_ERRNO <=? wrap_ulong p).

(** ** Calls into the kernel, as observed from outside *)

(** The value of the cursor [m] of a [list_for_each_entry] loop: either a
    real entry (by position), or, when the loop ran to its end, the
    pseudo-entry computed from the list head embedded in the module. *)
Inductive cursor :=
| CurEntry (i : nat)
| CurHead.

Global Instance cursor_eq_dec : EqDecision cursor.
Proof. solve_decision. Defined.

Inductive event :=
| MutexLock (md : nat)
| MutexUnlock (md : nat)
| ClientListLock
| ClientListUnlock
| CancelDelayedWork (md : nat)
| ScheduleDelayedWork (md : nat) (delay : Z)
| FlushDelayedWork (md : nat)
| WakeUp (md : nat)
| HookBusy (md : nat)
| HookIdle (md : nat)
| HookFinalizePoweron (md : nat)
| HookPreparePoweroff (md : nat) (ret : Z)
| HookSuspend (md : nat)
| HookDeinit (md : nat)
| ClkEnable (c : Z)
| ClkDisable (c : Z)
| ClkGetRate (c : Z) (r : Z)
| ClkSetRate (c : Z) (r : Z)
| ClkPut (c : Z)
| Unpowergate (id : Z)
| Powergate (id : Z)
| KFree (m : cursor)
| DebugNotIdle
| DebugDump.

Global Instance event_eq_dec : EqDecision event.
Proof. solve_decision. Defined.

(** ** Data model *)

(** [struct nvhost_clock] *)
Record nvhost_clock := {
  clock_name : string;
  default_rate : Z;
}.

(** [struct nvhost_moduledesc].  A hook that returns nothing is modelled by
    its presence: a call is recorded in the trace, and the hook is taken not
    to write to the fields of the module kept here.  [prepare_poweroff]
    returns an [int] that the code tests, so it is a function of what has
    happened so far. *)
Record nvhost_moduledesc := {
  busy : bool;
  idle : bool;
  finalize_poweron : bool;
  prepare_poweroff : option (list event -> Z);
  suspend : bool;
  deinit : bool;
  clocks : list nvhost_clock;
  powergate_ids : Z * Z;
  can_powergate : bool;
  powerdown_delay : Z;
}.

(** [struct nvhost_module_client] *)
Record nvhost_module_client := {
  rate : list Z;
  priv : Z;
}.

(** [struct nvhost_module].  [powerdown] is the delayed work: [Some d] when
    it is pending with a timer of [d] jiffies.  [lock] is the state of the
    module's mutex. *)
Record nvhost_module := {
  name : string;
  powerdown : option Z;
  num_clks : nat;
  clk : list Z;
  refcount : Z;
  powered : bool;
  client_list : list nvhost_module_client;
  desc : nvhost_moduledesc;
  parent : option nat;
  lock : bool;
}.

Definition set_powerdown (p : option Z) (m : nvhost_module) : nvhost_module :=
  {| name := name m; powerdown := p; num_clks := num_clks m; clk := clk m;
     refcount := refcount m; powered := powered m;
     client_list := client_list m; desc := desc m; parent := parent m;
     lock := lock m |}.

Definition set_refcount (r : Z) (m : nvhost_module) : nvhost_module :=
  {| name := name m; powerdown := powerdown m; num_clks := num_clks m;
     clk := clk m; refcount := r; powered := powered m;
     client_list := client_list m; desc := desc m; parent := parent m;
     lock := lock m |}.

Definition set_powered (b : bool) (m : nvhost_module) : nvhost_module :=
  {| name := name m; powerdown := powerdown m; num_clks := num_clks m;
     clk := clk m; refcount := refcount m; powered := b;
     client_list := client_list m; desc := desc m; parent := parent m;
     lock := lock m |}.

Definition set_client_list (l : list nvhost_module_client) (m : nvhost_module)
  : nvhost_module :=
  {| name := name m; powerdown := powerdown m; num_clks := num_clks m;
     clk := clk m; refcount := refcount m; powered := powered m;
     client_list := l; desc := desc m; parent := parent m;
     lock := lock m |}.

Definition set_lock (b : bool) (m : nvhost_module) : nvhost_module :=
  {| name := name m; powerdown := powerdown m; num_clks := num_clks m;
     clk := clk m; refcount := refcount m; powered := powered m;
     client_list := client_list m; desc := desc m; parent := parent m;
     lock := b |}.

(** The memory holding the modules (a module pointer is a key), the global
    [client_list_lock], and the trace of kernel calls so far. *)
Record world := {
  heap : gmap nat nvhost_module;
  client_list_lock : bool;
  trace : list event;
}.

Definition wput (md : nat) (m : nvhost_module) (w : world) : world :=
  {| heap := <[md := m]> (heap w);
     client_list_lock := client_list_lock w;
     trace := trace w |}.

Definition wlog (evs : list event) (w : world) : world :=
  {| heap := heap w;
     client_list_lock := client_list_lock w;
     trace := trace w ++ evs |}.

Definition wcll (b : bool) (w : world) : world :=
  {| heap := heap w; client_list_lock := b; trace := trace w |}.

(** ** The monad of kernel code

    A computation transforms the world and either returns, or stops: on a
    [BUG_ON], on an access through an invalid pointer or index, on taking a
    mutex that is already held (nothing else runs that could release it),
    or because the recursion budget of the model is spent. *)
Inductive stop := Bug | Fault | Deadlock | OutOfFuel.

Inductive outcome (A : Type) :=
| Ret (a : A)
| Stop (s : stop).
Arguments Ret {A} a.
Arguments Stop {A} s.

Definition M (A : Type) : Type := world -> outcome A * world.

Definition ret {A} (a : A) : M A := fun w => (Ret a, w).

Definition bind {A B} (c : M A) (f : A -> M B) : M B :=
  fun w =>
    match c w with
    | (Ret a, w') => f a w'
    | (Stop s, w') => (Stop s, w')
    end.

Definition halt {A} (s : stop) : M A := fun w => (Stop s, w).

Notation "'let*' x ':=' c 'in' k" := (bind c (fun x => k))
  (at level 10, x name, c at level 100, k at level 200).
Notation "c ;;; k" := (bind c (fun _ => k))
  (at level 100, k at level 200, right associativity).

Definition when (b : bool) (c : M unit) : M unit := if b then c else ret tt.

Definition emit (e : event) : M unit := fun w => (Ret tt, wlog [e] w).

Definition get_trace : M (list event) := fun w => (Ret (trace w), w).

(** [*mod] *)
Definition load (md : nat) : M nvhost_module :=
  fun w =>
    match heap w !! md with
    | Some m => (Ret m, w)
    | None => (Stop Fault, w)
    end.

Definition store (md : nat) (m : nvhost_module) : M unit :=
  fun w => (Ret tt, wput md m w).

Definition modify (md : nat) (f : nvhost_module -> nvhost_module) : M unit :=
  let* m := load md in store md (f m).

(** [a[i]] for a C array held as a list. *)
Definition index {A} (l : list A) (i : Z) : M A :=
  if i <? 0 then halt Fault
  else match l !! Z.to_nat i with
       | Some x => ret x
       | None => halt Fault
       end.

(** [for (i = from; i < from + n; i++) body(i)] *)
Fixpoint for_loop (from : nat) (n : nat) (body : nat -> M unit) : M unit :=
  match n with
  | O => ret tt
  | S n' => body from ;;; for_loop (S from) n' body
  end.

(** ** Kernel primitives on a module *)

Definition mutex_lock (md : nat) : M unit :=
  let* m := load md in
  if lock m then halt Deadlock
  else store md (set_lock true m) ;;; emit (MutexLock md).

Definition mutex_unlock (md : nat) : M unit :=
  modify md (set_lock false) ;;; emit (MutexUnlock md).

Definition cancel_delayed_work (md : nat) : M unit :=
  modify md (set_powerdown None) ;;; emit (CancelDelayedWork md).

(** Queueing a work that is already pending leaves its timer alone. *)
Definition schedule_delayed_work (md : nat) (delay : Z) : M unit :=
  let* m := load md in
  match powerdown m with
  | Some _ => ret tt
  | None => store md (set_powerdown (Some delay) m)
  end ;;;
  emit (ScheduleDelayedWork md delay).

Definition atomic_read (md : nat) : M Z :=
  let* m := load md in ret (refcount m).

Definition atomic_inc_return (md : nat) : M Z :=
  let* m := load md in
  let r := wrap_int (refcount m + 1) in
  store md (set_refcount r m) ;;; ret r.

Definition atomic_sub_return (refs : Z) (md : nat) : M Z :=
  let* m := load md in
  let r := wrap_int (refcount m - refs) in
  store md (set_refcount r m) ;;; ret r.

Definition BUG_ON (b : bool) : M unit := if b then halt Bug else ret tt.

(** [mutex_lock(&client_list_lock)] *)
Definition client_list_mutex_lock : M unit :=
  fun w =>
    if client_list_lock w then (Stop Deadlock, w)
    else (Ret tt, wlog [ClientListLock] (wcll true w)).

Definition client_list_mutex_unlock : M unit :=
  fun w => (Ret tt, wlog [ClientListUnlock] (wcll false w)).

(** [a[i] = v] for a C array held as a list. *)
Definition write_index {A} (l : list A) (i : Z) (v : A) : M (list A) :=
  index l i ;;; ret (<[Z.to_nat i := v]> l).

(** ** The driver *)

Section Acm.

(** Services whose result the driver uses.  [clk_get_rate], [clk_set_rate]
    and [kzalloc] depend on the state of the machine, which the driver
    does not see: they are functions of the history. *)
Variable NVHOST_MODULE_MAX_CLOCKS : nat.
Variable HZ : Z.
Variable msecs_to_jiffies : Z -> Z.
Variable clk_round_rate : Z -> Z -> Z.
Variable clk_get_rate : list event -> Z -> Z.
Variable clk_set_rate : list event -> Z -> Z -> Z.
Variable kzalloc : list event -> bool.

Definition ACM_SUSPEND_WAIT_FOR_IDLE_TIMEOUT : Z := 2 * HZ.

Definition clock_enable (md : nat) : M unit :=
  let* m := load md in
  for_loop 0 (num_clks m) (fun i =>
    let* c := index (clk m) (Z.of_nat i) in
    emit (ClkEnable c)).

Definition unpowergate (md : nat) : M unit :=
  let* m := load md in
  let d := desc m in
  when (can_powergate d)
    (when (negb (fst (powergate_ids d) =? -1))
       (emit (Unpowergate (fst (powergate_ids d)))) ;;;
     when (negb (snd (powergate_ids d) =? -1))
       (emit (Unpowergate (snd (powergate_ids d))))).

Fixpoint nvhost_module_busy (fuel : nat) (md : nat) : M unit :=
  match fuel with
  | O => halt OutOfFuel
  | S fuel' =>
      mutex_lock md ;;;
      cancel_delayed_work md ;;;
      let* m := load md in
      when (busy (desc m)) (emit (HookBusy md)) ;;;
      let* r := atomic_inc_return md in
      let* m := load md in
      when ((r =? 1) && negb (powered m))
        (match parent m with
         | Some p => nvhost_module_busy fuel' p
         | None => ret tt
         end ;;;
         unpowergate md ;;;
         clock_enable md ;;;
         let* m := load md in
         when (finalize_poweron (desc m)) (emit (HookFinalizePoweron md)) ;;;
         modify md (set_powered true)) ;;;
      mutex_unlock md
  end.

Definition clock_disable (md : nat) : M unit :=
  let* m := load md in
  for_loop 0 (num_clks m) (fun i =>
    let* c := index (clk m) (Z.of_nat i) in
    emit (ClkDisable c)).

Definition powergate (md : nat) : M unit :=
  let* m := load md in
  let d := desc m in
  when (can_powergate d)
    (when (negb (fst (powergate_ids d) =? -1))
       (emit (Powergate (fst (powergate_ids d)))) ;;;
     when (negb (snd (powergate_ids d) =? -1))
       (emit (Powergate (snd (powergate_ids d))))).

Definition nvhost_module_idle_mult (md : nat) (refs : Z) : M unit :=
  mutex_lock md ;;;
  let* r := atomic_sub_return refs md in
  let* kick :=
    (if r =? 0 then
       let* m := load md in
       BUG_ON (negb (powered m)) ;;;
       schedule_delayed_work md (msecs_to_jiffies (powerdown_delay (desc m))) ;;;
       ret true
     else ret false) in
  mutex_unlock md ;;;
  when kick
    (emit (WakeUp md) ;;;
     let* m := load md in
     when (idle (desc m)) (emit (HookIdle md))).

(** Modelled from the spec: [nvhost_module_idle] is declared in the header
    nvhost_acm.h, which is not part of the sources at hand; the design
    document describes the call made on the parent as [idle(1)]. *)
Definition nvhost_module_idle (md : nat) : M unit :=
  nvhost_module_idle_mult md 1.

(** The hook is consulted only when it is set; a non-zero result means
    the power-off is refused. *)
Definition call_prepare_poweroff (md : nat) (m : nvhost_module) : M bool :=
  match prepare_poweroff (desc m) with
  | Some hook =>
      let* tr := get_trace in
      emit (HookPreparePoweroff md (hook tr)) ;;;
      ret (negb (hook tr =? 0))
  | None => ret false
  end.

Definition powerdown_handler (md : nat) : M unit :=
  mutex_lock md ;;;
  let* r := atomic_read md in
  let* m := load md in
  if (r =? 0) && powered m then
    let* refused := call_prepare_poweroff md m in
    if refused then
      (* If poweroff fails, retry *)
      mutex_unlock md ;;;
      schedule_delayed_work md (msecs_to_jiffies (powerdown_delay (desc m)))
    else
      clock_disable md ;;;
      powergate md ;;;
      modify md (set_powered false) ;;;
      match parent m with
      | Some p => nvhost_module_idle p
      | None => ret tt
      end ;;;
      mutex_unlock md
  else mutex_unlock md.

(** The delayed work, as the workqueue runs it: when the timer of a
    pending work expires the work stops being pending and its function is
    called. *)
Definition delayed_work_timer_fn (md : nat) : M unit :=
  let* m := load md in
  match powerdown m with
  | Some _ => store md (set_powerdown None m) ;;; powerdown_handler md
  | None => ret tt
  end.

(** [flush_delayed_work]: a pending work is run at once, and the caller
    waits until it has finished. *)
Definition flush_delayed_work (md : nat) : M unit :=
  emit (FlushDelayedWork md) ;;;
  delayed_work_timer_fn md.

Definition nvhost_module_get_rate (fuel : nat) (md : nat) (idx : Z)
  : M (Z * option Z) :=
  let* m := load md in
  let* c := index (clk m) idx in
  if IS_ERR_OR_NULL c then ret (- EINVAL, None)
  else
    (* Need to enable client to get correct rate *)
    nvhost_module_busy fuel md ;;;
    let* tr := get_trace in
    emit (ClkGetRate c (clk_get_rate tr c)) ;;;
    nvhost_module_idle md ;;;
    ret (0, Some (clk_get_rate tr c)).

(** *** Client rate registry *)

(** [list_for_each_entry (m, ...) rate = max(m->rate[index], rate);] *)
Fixpoint max_rate (l : list nvhost_module_client) (idx : Z) (acc : Z) : M Z :=
  match l with
  | [] => ret acc
  | m :: l' =>
      let* v := index (rate m) idx in
      max_rate l' idx (Z.max v acc)
  end.

Definition nvhost_module_update_rate (md : nat) (idx : Z) : M Z :=
  let* m := load md in
  let* c := index (clk m) idx in
  if c =? 0 then ret (- EINVAL)
  else
    let* r := max_rate (client_list m) idx 0 in
    let* r :=
      (if r =? 0 then
         let* ck := index (clocks (desc m)) idx in
         ret (wrap_ulong (clk_round_rate c (default_rate ck)))
       else ret r) in
    let* tr := get_trace in
    emit (ClkSetRate c r) ;;;
    ret (clk_set_rate tr c r).

Definition set_rate_entry (m : nvhost_module_client) (l : list Z)
  : nvhost_module_client :=
  {| rate := l; priv := priv m |}.

(** The loop of [nvhost_module_set_rate]: the first record whose [priv]
    matches receives the rounded rate, and the loop stops there. *)
Fixpoint set_rate_loop (cl : list Z) (l : list nvhost_module_client)
    (p : Z) (r : Z) (idx : Z) : M (list nvhost_module_client) :=
  match l with
  | [] => ret []
  | m :: l' =>
      if priv m =? p then
        let* c := index cl idx in
        let* rs := write_index (rate m) idx (wrap_ulong (clk_round_rate c r)) in
        ret (set_rate_entry m rs :: l')
      else
        let* l'' := set_rate_loop cl l' p r idx in
        ret (m :: l'')
  end.

Definition nvhost_module_set_rate (md : nat) (p : Z) (r : Z) (idx : Z) : M Z :=
  client_list_mutex_lock ;;;
  let* m := load md in
  let* l := set_rate_loop (clk m) (client_list m) p r idx in
  store md (set_client_list l m) ;;;
  let* res := nvhost_module_update_rate md idx in
  client_list_mutex_unlock ;;;
  ret res.

(** The loop of [nvhost_module_add_client] filling [client->rate]. *)
Fixpoint add_client_rates (m : nvhost_module) (from n : nat) (rs : list Z)
  : M (list Z) :=
  match n with
  | O => ret rs
  | S n' =>
      let* c := index (clk m) (Z.of_nat from) in
      let* ck := index (clocks (desc m)) (Z.of_nat from) in
      let* rs' := write_index rs (Z.of_nat from)
                    (wrap_ulong (clk_round_rate c (default_rate ck))) in
      add_client_rates m (S from) n' rs'
  end.

Definition nvhost_module_add_client (md : nat) (p : Z) : M Z :=
  let* tr := get_trace in
  if negb (kzalloc tr) then ret (- ENOMEM)
  else
    let* m := load md in
    let* rs := add_client_rates m 0 (num_clks m)
                 (replicate NVHOST_MODULE_MAX_CLOCKS 0) in
    client_list_mutex_lock ;;;
    let* m := load md in
    store md (set_client_list (client_list m ++ [{| rate := rs; priv := p |}]) m) ;;;
    client_list_mutex_unlock ;;;
    ret 0.

(** The loop of [nvhost_module_remove_client]: the list without the first
    record whose [priv] matches, and the value of the cursor [m] when the
    loop is left. *)
Fixpoint remove_client_loop (l : list nvhost_module_client) (p : Z) (i : nat)
  : list nvhost_module_client * cursor :=
  match l with
  | [] => ([], CurHead)
  | m :: l' =>
      if p =? priv m then (l', CurEntry i)
      else
        let '(l'', cur) := remove_client_loop l' p (S i) in
        (m :: l'', cur)
  end.

(** [if (m)]: neither a record nor the pseudo-entry of the list head, which
    lies inside the module, is a null pointer. *)
Definition cursor_non_null (cur : cursor) : bool :=
  match cur with
  | CurEntry _ => true
  | CurHead => true
  end.

Definition nvhost_module_remove_client (md : nat) (p : Z) : M unit :=
  client_list_mutex_lock ;;;
  let* m := load md in
  let '(l, cur) := remove_client_loop (client_list m) p 0 in
  store md (set_client_list l m) ;;;
  when (cursor_non_null cur)
    (emit (KFree cur) ;;;
     for_loop 0 (num_clks m) (fun i =>
       nvhost_module_update_rate md (Z.of_nat i) ;;; ret tt)) ;;;
  client_list_mutex_unlock.

(** *** Suspend *)

Definition is_module_idle (md : nat) : M bool :=
  mutex_lock md ;;;
  let* count := atomic_read md in
  mutex_unlock md ;;;
  ret (count =? 0).

(** [wait_event_timeout (mod->idle, is_module_idle (mod), timeout)]: the
    condition is tested before sleeping and once more before the first
    sleep; with nobody else running, a sleep lasts until the timeout. *)
Definition wait_event_timeout_idle (md : nat) (timeout : Z) : M Z :=
  let* c := is_module_idle md in
  if c then ret timeout
  else
    let* c := is_module_idle md in
    if c then ret timeout else ret 0.

Definition nvhost_module_suspend (md : nat) (system_suspend : bool) : M unit :=
  when system_suspend
    (let* i := is_module_idle md in
     when (negb i) (emit DebugNotIdle)) ;;;
  let* r := wait_event_timeout_idle md ACM_SUSPEND_WAIT_FOR_IDLE_TIMEOUT in
  when (r =? 0) (emit DebugDump) ;;;
  flush_delayed_work md ;;;
  let* m := load md in
  when (suspend (desc m)) (emit (HookSuspend md)) ;;;
  let* m := load md in
  BUG_ON (powered m).

Definition nvhost_module_deinit (md : nat) : M unit :=
  let* m := load md in
  when (deinit (desc m)) (emit (HookDeinit md)) ;;;
  nvhost_module_suspend md false ;;;
  let* m := load md in
  for_loop 0 (num_clks m) (fun i =>
    let* c := index (clk m) (Z.of_nat i) in
    emit (ClkPut c)).


(** ** What runs report

    Pure descriptions of the events and of the memory that the operations
    above produce, used to state the properties below. *)

(** The timer of the delayed work after a call to [schedule_delayed_work]. *)
Definition armed (delay : Z) (m : nvhost_module) : option Z :=
  match powerdown m with
  | Some d => Some d
  | None => Some delay
  end.

Definition unpowergate_events (d : nvhost_moduledesc) : list event :=
  if can_powergate d then
    (if fst (powergate_ids d) =? -1 then [] else [Unpowergate (fst (powergate_ids d))])
    ++ (if snd (powergate_ids d) =? -1 then [] else [Unpowergate (snd (powergate_ids d))])
  else [].

Definition powergate_events (d : nvhost_moduledesc) : list event :=
  if can_powergate d then
    (if fst (powergate_ids d) =? -1 then [] else [Powergate (fst (powergate_ids d))])
    ++ (if snd (powergate_ids d) =? -1 then [] else [Powergate (snd (powergate_ids d))])
  else [].

(** The clock handles of a module: [clk[0] .. clk[num_clks - 1]]. *)
Definition clks (m : nvhost_module) : list Z := take (num_clks m) (clk m).

(** [num_clks] stays within the [clk] array. *)
Definition clks_ok (m : nvhost_module) : Prop :=
  (num_clks m <= length (clk m))%nat.

(** What [nvhost_module_idle_mult] reports when the count reaches zero. *)
Definition idle_events (md : nat) (m : nvhost_module) : list event :=
  [MutexLock md;
   ScheduleDelayedWork md (msecs_to_jiffies (powerdown_delay (desc m)));
   MutexUnlock md; WakeUp md]
  ++ (if idle (desc m) then [HookIdle md] else []).

(** The delay with which the power-down work is armed, in jiffies. *)
Definition powerdown_jiffies (m : nvhost_module) : Z :=
  msecs_to_jiffies (powerdown_delay (desc m)).

(** The answer of the [prepare_poweroff] hook when asked after the trace [tr]:
    a missing hook never refuses. *)
Definition prepare_poweroff_events (md : nat) (m : nvhost_module)
    (tr : list event) : list event :=
  match prepare_poweroff (desc m) with
  | Some hook => [HookPreparePoweroff md (hook tr)]
  | None => []
  end.

Definition prepare_poweroff_refuses (m : nvhost_module) (tr : list event)
  : bool :=
  match prepare_poweroff (desc m) with
  | Some hook => negb (hook tr =? 0)
  | None => false
  end.

(** The part of the handler that follows [mod->powered = false]. *)
Definition powerdown_tail (md : nat) (m : nvhost_module) : M unit :=
  match parent m with
  | Some p => nvhost_module_idle p
  | None => ret tt
  end ;;;
  mutex_unlock md.

(** What the handler has reported when it reaches that point. *)
Definition poweroff_events (md : nat) (m : nvhost_module) (tr : list event)
  : list event :=
  [MutexLock md] ++ prepare_poweroff_events md m (tr ++ [MutexLock md])
  ++ map ClkDisable (clks m) ++ powergate_events (desc m).

Definition retry_events (md : nat) (m : nvhost_module) (tr : list event)
  : list event :=
  [MutexLock md] ++ prepare_poweroff_events md m (tr ++ [MutexLock md])
  ++ [MutexUnlock md; ScheduleDelayedWork md (powerdown_jiffies m)].

Fixpoint count_events (p : event -> bool) (tr : list event) : nat :=
  match tr with
  | [] => O
  | e :: tr' => ((if p e then 1 else 0) + count_events p tr')%nat
  end.

(** [schedule_delayed_work (&mod->powerdown, ...)] on the module [md] *)
Definition is_schedule (md : nat) (e : event) : bool :=
  match e with
  | ScheduleDelayedWork a _ => Nat.eqb a md
  | _ => false
  end.

(** a call of the [prepare_poweroff] hook of the module [md] *)
Definition is_prepare_poweroff (md : nat) (e : event) : bool :=
  match e with
  | HookPreparePoweroff a _ => Nat.eqb a md
  | _ => false
  end.

(** a call that takes power or clocks away *)
Definition is_power_off (e : event) : bool :=
  match e with
  | ClkDisable _ | Powergate _ | HookPreparePoweroff _ _ => true
  | _ => false
  end.

Definition reschedules (md : nat) (tr : list event) : nat :=
  count_events (is_schedule md) tr.

Definition asked (md : nat) (tr : list event) : nat :=
  count_events (is_prepare_poweroff md) tr.

(** The timer of the power-down work expires [n] times in a row. *)
Fixpoint timer_fires (n : nat) (md : nat) : M unit :=
  match n with
  | O => ret tt
  | S n' => delayed_work_timer_fn md ;;; timer_fires n' md
  end.

Definition busy_hook_events (md : nat) (m : nvhost_module) : list event :=
  if busy (desc m) then [HookBusy md] else [].

Definition busy_entry_events (md : nat) (m : nvhost_module) : list event :=
  [MutexLock md; CancelDelayedWork md] ++ busy_hook_events md m.

(** Un-gate, enable the clocks, finalize. *)
Definition power_up_events (md : nat) (m : nvhost_module) : list event :=
  unpowergate_events (desc m) ++ map ClkEnable (clks m)
  ++ (if finalize_poweron (desc m) then [HookFinalizePoweron md] else []).

(** The test [atomic_inc_return (&mod->refcount) == 1 && !mod->powered]. *)
Definition powers_up (m : nvhost_module) : bool :=
  (wrap_int (refcount m + 1) =? 1) && negb (powered m).

(** The module after [nvhost_module_busy]. *)
Definition busy_counted (m : nvhost_module) : nvhost_module :=
  set_refcount (wrap_int (refcount m + 1)) (set_powerdown None m).

Definition busy_post (m : nvhost_module) : nvhost_module :=
  if powers_up m then set_powered true (busy_counted m) else busy_counted m.

Definition busy_parent_call (fuel : nat) (m : nvhost_module) : M unit :=
  match parent m with
  | Some p => nvhost_module_busy fuel p
  | None => ret tt
  end.

(** [chain h md l]: [l] lists the module [md] and its ancestors, all
    different, all present in memory with a free mutex and a clock count
    within bounds; the last one has no parent. *)
Inductive chain (h : gmap nat nvhost_module) : nat -> list nat -> Prop :=
| chain_root (md : nat) (m : nvhost_module) :
    h !! md = Some m -> lock m = false -> clks_ok m -> parent m = None ->
    chain h md [md]
| chain_parent (md : nat) (m : nvhost_module) (p : nat) (l : list nat) :
    h !! md = Some m -> lock m = false -> clks_ok m -> parent m = Some p ->
    md ∉ l -> chain h p l ->
    chain h md (md :: l).

(** What a call of [nvhost_module_busy] on the head of a chain reports. *)
Fixpoint busy_events (h : gmap nat nvhost_module) (l : list nat) : list event :=
  match l with
  | [] => []
  | md :: l' =>
      match h !! md with
      | None => []
      | Some m =>
          busy_entry_events md m
          ++ (if powers_up m then busy_events h l' ++ power_up_events md m
              else [])
          ++ [MutexUnlock md]
      end
  end.

(** The range of an [int]. *)
Definition int_range (z : Z) : Prop := - 2 ^ 31 <= z < 2 ^ 31.

(** [n] calls of [nvhost_module_busy] in a row. *)
Fixpoint busy_times (n : nat) (fuel : nat) (md : nat) : M unit :=
  match n with
  | O => ret tt
  | S n' => nvhost_module_busy fuel md ;;; busy_times n' fuel md
  end.

Definition remove_lock (a : nat) (held : list nat) : list nat :=
  List.filter (fun b => negb (Nat.eqb b a)) held.

Definition lock_step (held : list nat) (e : event) : list nat :=
  match e with
  | MutexLock a => a :: held
  | MutexUnlock a => remove_lock a held
  | _ => held
  end.

(** The module mutexes held after the events [tr], starting from [held]. *)
Definition locks_after (held : list nat) (tr : list event) : list nat :=
  fold_left lock_step tr held.

(** The largest number of module mutexes held at one time. *)
Fixpoint max_locks_held (held : list nat) (tr : list event) : nat :=
  match tr with
  | [] => length held
  | e :: tr' => Nat.max (length held) (max_locks_held (lock_step held e) tr')
  end.

Definition is_mutex_event (e : event) : bool :=
  match e with
  | MutexLock _ | MutexUnlock _ => true
  | _ => false
  end.

(** The vote of a client for a clock index. *)
Definition vote (c : nvhost_module_client) (idx : nat) : Z :=
  default 0 (rate c !! idx).

(** The largest vote for a clock index; 0 without clients. *)
Definition max_vote (l : list nvhost_module_client) (idx : nat) : Z :=
  fold_left (fun acc c => Z.max (vote c idx) acc) l 0.

(** The default rate of a clock index, rounded by the clock framework. *)
Definition rounded_default (m : nvhost_module) (idx : nat) (c : Z) : Z :=
  match clocks (desc m) !! idx with
  | Some ck => wrap_ulong (clk_round_rate c (default_rate ck))
  | None => 0
  end.

(** The rate [nvhost_module_update_rate] hands to [clk_set_rate]. *)
Definition effective_rate (m : nvhost_module)
    (l : list nvhost_module_client) (idx : nat) (c : Z) : Z :=
  if max_vote l idx =? 0 then rounded_default m idx c else max_vote l idx.

(** The rate last handed to [clk_set_rate] for the clock [c]. *)
Fixpoint applied_rate (tr : list event) (c : Z) : option Z :=
  match tr with
  | [] => None
  | e :: tr' =>
      match applied_rate tr' c with
      | Some r => Some r
      | None =>
          match e with
          | ClkSetRate c' r => if c' =? c then Some r else None
          | _ => None
          end
      end
  end.

(** The arrays of a module and of its clients have the same length (in the
    C code, [NVHOST_MODULE_MAX_CLOCKS]). *)
Definition arrays_ok (m : nvhost_module) : Prop :=
  length (clocks (desc m)) = length (clk m) /\
  Forall (fun c => length (rate c) = length (clk m)) (client_list m).

(** What one call of [nvhost_module_update_rate] reports. *)
Definition update_rate_events (m : nvhost_module)
    (l : list nvhost_module_client) (idx : nat) : list event :=
  match clk m !! idx with
  | Some c => if c =? 0 then [] else [ClkSetRate c (effective_rate m l idx c)]
  | None => []
  end.

(** The client list after the loop of [nvhost_module_set_rate]. *)
Fixpoint cast_vote (l : list nvhost_module_client) (p : Z) (idx : nat) (v : Z)
  : list nvhost_module_client :=
  match l with
  | [] => []
  | m :: l' =>
      if priv m =? p then set_rate_entry m (<[idx := v]> (rate m)) :: l'
      else m :: cast_vote l' p idx v
  end.

(** What [nvhost_module_suspend] reports on a module that is idle and off. *)
Definition suspend_off_events (md : nat) (m : nvhost_module)
    (system_suspend : bool) : list event :=
  (if system_suspend then [MutexLock md; MutexUnlock md] else [])
  ++ [MutexLock md; MutexUnlock md]
  ++ (if ACM_SUSPEND_WAIT_FOR_IDLE_TIMEOUT =? 0 then [DebugDump] else [])
  ++ [FlushDelayedWork md]
  ++ match powerdown m with
     | Some _ => [MutexLock md; MutexUnlock md]
     | None => []
     end
  ++ (if suspend (desc m) then [HookSuspend md] else []).

(** ** Further descriptions of runs *)

(** The module after [n] calls of [nvhost_module_busy] made while it is
    powered: the count has grown by [n] and no power-down is pending. *)
Definition busy_n (n : nat) (m : nvhost_module) : nvhost_module :=
  match n with
  | O => m
  | S _ => set_refcount (refcount m + Z.of_nat n) (set_powerdown None m)
  end.


(** What [nvhost_module_suspend] does once the wait is over. *)
Definition suspend_finish (md : nat) : M unit :=
  flush_delayed_work md ;;;
  let* m := load md in
  when (suspend (desc m)) (emit (HookSuspend md)) ;;;
  let* m := load md in
  BUG_ON (powered m).

(** What the wait of [nvhost_module_suspend] reports: on an idle module one
    test of the count (two for a system suspend); on a module in use the
    warning of a system suspend, two tests by the wait, and the dump. *)
Definition suspend_wait_events (md : nat) (m : nvhost_module)
    (system_suspend : bool) : list event :=
  if refcount m =? 0 then
    (if system_suspend then [MutexLock md; MutexUnlock md] else [])
    ++ [MutexLock md; MutexUnlock md]
    ++ (if ACM_SUSPEND_WAIT_FOR_IDLE_TIMEOUT =? 0 then [DebugDump] else [])
  else
    (if system_suspend
     then [MutexLock md; MutexUnlock md; DebugNotIdle] else [])
    ++ [MutexLock md; MutexUnlock md; MutexLock md; MutexUnlock md;
        DebugDump].

Definition suspend_hook_events (md : nat) (m : nvhost_module) : list event :=
  if suspend (desc m) then [HookSuspend md] else [].

(** The vote a new client starts with for a clock index: the rounded
    default rate of that clock. *)
Definition default_vote (m : nvhost_module) (idx : nat) : Z :=
  match clk m !! idx with
  | Some c => rounded_default m idx c
  | None => 0
  end.

(** *** Module reset

    [nvhost_module_reset] only talks to the memory controller and the reset
    controller; the calls it makes are its result here. *)










(** *** Module initialisation

    [clk_get_sys] looks a clock up by device and connection name.  The
    descriptor of these sources has no [init] member in its record here:
    the hook, when there is one, is handed to [nvhost_module_init] next to
    the descriptor.  A null [name] of a clock entry is the empty string. *)
Variable clk_get_sys : string -> string -> Z.

Definition MAX_DEVID_LENGTH : nat := 16.

(** [snprintf (devname, MAX_DEVID_LENGTH, "tegra_%s", name)]: the first
    [MAX_DEVID_LENGTH - 1] characters are kept. *)
Definition devname (nm : string) : string :=
  substring 0 (MAX_DEVID_LENGTH - 1) (String.append "tegra_" nm).

Definition name_is_null (s : string) : bool :=
  match s with
  | EmptyString => true
  | String _ _ => false
  end.

Definition set_clk (cs : list Z) (m : nvhost_module) : nvhost_module :=
  {| name := name m; powerdown := powerdown m; num_clks := num_clks m;
     clk := cs; refcount := refcount m; powered := powered m;
     client_list := client_list m; desc := desc m; parent := parent m;
     lock := lock m |}.

(** [mod->name = name; INIT_LIST_HEAD (&mod->client_list);] *)
Definition init_head (nm : string) (m : nvhost_module) : nvhost_module :=
  {| name := nm; powerdown := powerdown m; num_clks := num_clks m;
     clk := clk m; refcount := refcount m; powered := powered m;
     client_list := []; desc := desc m; parent := parent m;
     lock := lock m |}.

(** [mod->num_clks = i; mod->desc = desc; mod->parent = parent;
    mod->powered = false; mutex_init (&mod->lock);
    INIT_DELAYED_WORK (&mod->powerdown, powerdown_handler);]
    The count is not written. *)
Definition init_tail (i : nat) (d : nvhost_moduledesc) (par : option nat)
    (m : nvhost_module) : nvhost_module :=
  {| name := name m; powerdown := None; num_clks := i;
     clk := clk m; refcount := refcount m; powered := false;
     client_list := client_list m; desc := d; parent := par;
     lock := false |}.

(** [while (desc->clocks[i].name && i < NVHOST_MODULE_MAX_CLOCKS) { ... }]:
    the entry is read before the bound is tested; [n] counts the indices
    left below [NVHOST_MODULE_MAX_CLOCKS], so that [i < MAX] is [n <> 0].
    The result is the final [i]. *)
Fixpoint init_clocks (n : nat) (md : nat) (nm : string)
    (d : nvhost_moduledesc) (i : nat) : M nat :=
  let* ck := index (clocks d) (Z.of_nat i) in
  match n with
  | O => ret i
  | S n' =>
      if name_is_null (clock_name ck) then ret i
      else
        let c := clk_get_sys (devname nm) (clock_name ck) in
        let* m := load md in
        let* cs := write_index (clk m) (Z.of_nat i) c in
        store md (set_clk cs m) ;;;
        BUG_ON (IS_ERR_OR_NULL c) ;;;
        let rate := clk_round_rate c (default_rate ck) in
        emit (ClkEnable c) ;;;
        emit (ClkSetRate c (wrap_ulong rate)) ;;;
        emit (ClkDisable c) ;;;
        init_clocks n' md nm d (S i)
  end.

Definition nvhost_module_init (md : nat) (nm : string)
    (d : nvhost_moduledesc) (par : option nat)
    (init : option (nat -> M unit)) : M Z :=
  modify md (init_head nm) ;;;
  let* i := init_clocks NVHOST_MODULE_MAX_CLOCKS md nm d 0 in
  modify md (init_tail i d par) ;;;
  when (negb (can_powergate d))
    (when (negb (fst (powergate_ids d) =? -1))
       (emit (Unpowergate (fst (powergate_ids d)))) ;;;
     when (negb (snd (powergate_ids d) =? -1))
       (emit (Unpowergate (snd (powergate_ids d))))) ;;;
  match init with
  | Some hook => hook md
  | None => ret tt
  end ;;;
  ret 0.

(** The clock entries that [nvhost_module_init] takes: the named entries
    ahead of the first entry without a name, at most [n] of them. *)
Fixpoint named_clocks (n : nat) (l : list nvhost_clock) : list nvhost_clock :=
  match n, l with
  | S n', ck :: l' =>
      if name_is_null (clock_name ck) then [] else ck :: named_clocks n' l'
  | _, _ => []
  end.

Definition init_handle (nm : string) (ck : nvhost_clock) : Z :=
  clk_get_sys (devname nm) (clock_name ck).

(** What the loop reports for one clock entry. *)
Definition init_clock_events (nm : string) (ck : nvhost_clock) : list event :=
  let c := init_handle nm ck in
  [ClkEnable c;
   ClkSetRate c (wrap_ulong (clk_round_rate c (default_rate ck)));
   ClkDisable c].

(** Domains that cannot be gated are un-gated for good. *)
Definition init_unpowergate_events (d : nvhost_moduledesc) : list event :=
  if can_powergate d then []
  else (if fst (powergate_ids d) =? -1 then []
        else [Unpowergate (fst (powergate_ids d))])
       ++ (if snd (powergate_ids d) =? -1 then []
           else [Unpowergate (snd (powergate_ids d))]).

(** The module that a completed [nvhost_module_init] leaves. *)
Definition initialised (nm : string) (d : nvhost_moduledesc)
    (par : option nat) (m : nvhost_module) : nvhost_module :=
  let taken := named_clocks NVHOST_MODULE_MAX_CLOCKS (clocks d) in
  {| name := nm; powerdown := None; num_clks := length taken;
     clk := map (init_handle nm) taken ++ drop (length taken) (clk m);
     refcount := refcount m; powered := false;
     client_list := []; desc := d; parent := par;
     lock := false |}.

(** * Reasoning about runs *)

(** ** Worlds and records *)

Lemma world_eq (h1 h2 : gmap nat nvhost_module) (c1 c2 : bool)
    (t1 t2 : list event) :
  h1 = h2 -> c1 = c2 -> t1 = t2 ->
  {| heap := h1; client_list_lock := c1; trace := t1 |} =
  {| heap := h2; client_list_lock := c2; trace := t2 |}.
Proof. intros -> -> ->; reflexivity. Qed.

Lemma wlog_nil (w : world) : wlog [] w = w.
Proof. destruct w; unfold wlog; simpl. by rewrite app_nil_r. Qed.

Lemma wlog_wlog (e1 e2 : list event) (w : world) :
  wlog e2 (wlog e1 w) = wlog (e1 ++ e2) w.
Proof. unfold wlog; simpl. by rewrite app_assoc. Qed.

Lemma wput_wput (md : nat) (m1 m2 : nvhost_module) (w : world) :
  wput md m2 (wput md m1 w) = wput md m2 w.
Proof. unfold wput; simpl. by rewrite insert_insert_eq. Qed.

Lemma wput_wlog (md : nat) (m : nvhost_module) (evs : list event) (w : world) :
  wput md m (wlog evs w) = wlog evs (wput md m w).
Proof. reflexivity. Qed.

Lemma wput_id (md : nat) (m : nvhost_module) (w : world) :
  heap w !! md = Some m -> wput md m w = w.
Proof. intros H. destruct w; unfold wput; simpl in *. by rewrite insert_id. Qed.

Lemma heap_wput_eq (md : nat) (m : nvhost_module) (w : world) :
  heap (wput md m w) !! md = Some m.
Proof. apply lookup_insert_eq. Qed.

Lemma heap_wput_ne (md a : nat) (m : nvhost_module) (w : world) :
  md ≠ a -> heap (wput md m w) !! a = heap w !! a.
Proof. intros; by apply lookup_insert_ne. Qed.

Lemma set_lock_unlock (m : nvhost_module) :
  lock m = false -> set_lock false m = m.
Proof. destruct m; simpl; intros ->; reflexivity. Qed.

Lemma set_lock_set_lock (a b : bool) (m : nvhost_module) :
  set_lock a (set_lock b m) = set_lock a m.
Proof. reflexivity. Qed.

(** ** The monad *)

Lemma bind_run {A B} (c : M A) (k : A -> M B) (w w' : world) (a : A) :
  c w = (Ret a, w') -> bind c k w = k a w'.
Proof. unfold bind; intros ->; reflexivity. Qed.

Lemma bind_stop {A B} (c : M A) (k : A -> M B) (w w' : world) (s : stop) :
  c w = (Stop s, w') -> bind c k w = (Stop s, w').
Proof. unfold bind; intros ->; reflexivity. Qed.

Lemma load_run (md : nat) (m : nvhost_module) (w : world) :
  heap w !! md = Some m -> load md w = (Ret m, w).
Proof. unfold load; intros ->; reflexivity. Qed.

Lemma modify_run (md : nat) (f : nvhost_module -> nvhost_module)
    (m : nvhost_module) (w : world) :
  heap w !! md = Some m -> modify md f w = (Ret tt, wput md (f m) w).
Proof. intros H. unfold modify. by rewrite (bind_run _ _ _ _ _ (load_run _ _ _ H)). Qed.

Lemma index_run {A} (l : list A) (i : nat) (x : A) (w : world) :
  l !! i = Some x -> index l (Z.of_nat i) w = (Ret x, w).
Proof.
  intros H. unfold index.
  destruct (Z.ltb_spec (Z.of_nat i) 0); [lia|].
  by rewrite Nat2Z.id, H.
Qed.

Lemma index_Z_run {A} (l : list A) (i : Z) (x : A) (w : world) :
  0 <= i -> l !! Z.to_nat i = Some x -> index l i w = (Ret x, w).
Proof.
  intros Hi H. rewrite <- (Z2Nat.id i) by done. by apply index_run.
Qed.

(** A loop that calls one clock service on each handle in turn. *)
Lemma for_loop_clks (f : Z -> event) (l : list Z) (n from : nat) (w : world) :
  (from + n <= length l)%nat ->
  for_loop from n (fun i => let* c := index l (Z.of_nat i) in emit (f c)) w =
  (Ret tt, wlog (map f (take n (drop from l))) w).
Proof.
  revert from w. induction n as [|n IH]; intros from w Hlen; simpl.
  - by rewrite wlog_nil.
  - destruct (lookup_lt_is_Some_2 l from) as [c Hc]; [lia|].
    rewrite (drop_S _ _ _ Hc). simpl.
    rewrite (bind_run _ _ _ _ _
               (bind_run _ _ _ _ _ (index_run _ _ _ w Hc))).
    unfold emit at 1. rewrite IH by lia.
    by rewrite wlog_wlog.
Qed.

(** ** Primitives on a module that is present and whose mutex is free *)

Lemma mutex_lock_run (md : nat) (m : nvhost_module) (w : world) :
  heap w !! md = Some m -> lock m = false ->
  mutex_lock md w = (Ret tt, wlog [MutexLock md] (wput md (set_lock true m) w)).
Proof.
  intros H Hl. unfold mutex_lock.
  rewrite (bind_run _ _ _ _ _ (load_run _ _ _ H)). by rewrite Hl.
Qed.

Lemma mutex_lock_held (md : nat) (m : nvhost_module) (w : world) :
  heap w !! md = Some m -> lock m = true ->
  mutex_lock md w = (Stop Deadlock, w).
Proof.
  intros H Hl. unfold mutex_lock.
  rewrite (bind_run _ _ _ _ _ (load_run _ _ _ H)). by rewrite Hl.
Qed.

Lemma mutex_unlock_run (md : nat) (m : nvhost_module) (w : world) :
  heap w !! md = Some m ->
  mutex_unlock md w =
  (Ret tt, wlog [MutexUnlock md] (wput md (set_lock false m) w)).
Proof.
  intros H. unfold mutex_unlock.
  by rewrite (bind_run _ _ _ _ _ (modify_run _ _ _ _ H)).
Qed.

Lemma cancel_delayed_work_run (md : nat) (m : nvhost_module) (w : world) :
  heap w !! md = Some m ->
  cancel_delayed_work md w =
  (Ret tt, wlog [CancelDelayedWork md] (wput md (set_powerdown None m) w)).
Proof.
  intros H. unfold cancel_delayed_work.
  by rewrite (bind_run _ _ _ _ _ (modify_run _ _ _ _ H)).
Qed.

Lemma schedule_delayed_work_run (md : nat) (delay : Z) (m : nvhost_module)
    (w : world) :
  heap w !! md = Some m ->
  schedule_delayed_work md delay w =
  (Ret tt, wlog [ScheduleDelayedWork md delay]
             (wput md (set_powerdown (armed delay m) m) w)).
Proof.
  intros H. unfold schedule_delayed_work, armed.
  rewrite (bind_run _ _ _ _ _ (load_run _ _ _ H)).
  destruct (powerdown m) eqn:E; simpl; unfold bind, ret, store, emit; simpl.
  - f_equal. f_equal. symmetry. apply wput_id.
    rewrite H. f_equal. destruct m; simpl in *; by subst.
  - reflexivity.
Qed.

Lemma atomic_read_run (md : nat) (m : nvhost_module) (w : world) :
  heap w !! md = Some m -> atomic_read md w = (Ret (refcount m), w).
Proof.
  intros H. unfold atomic_read.
  by rewrite (bind_run _ _ _ _ _ (load_run _ _ _ H)).
Qed.

Lemma atomic_inc_return_run (md : nat) (m : nvhost_module) (w : world) :
  heap w !! md = Some m ->
  atomic_inc_return md w =
  (Ret (wrap_int (refcount m + 1)),
   wput md (set_refcount (wrap_int (refcount m + 1)) m) w).
Proof.
  intros H. unfold atomic_inc_return.
  by rewrite (bind_run _ _ _ _ _ (load_run _ _ _ H)).
Qed.

Lemma atomic_sub_return_run (refs : Z) (md : nat) (m : nvhost_module)
    (w : world) :
  heap w !! md = Some m ->
  atomic_sub_return refs md w =
  (Ret (wrap_int (refcount m - refs)),
   wput md (set_refcount (wrap_int (refcount m - refs)) m) w).
Proof.
  intros H. unfold atomic_sub_return.
  by rewrite (bind_run _ _ _ _ _ (load_run _ _ _ H)).
Qed.

(** ** Power coordinator *)

Lemma unpowergate_run (md : nat) (m : nvhost_module) (w : world) :
  heap w !! md = Some m ->
  unpowergate md w = (Ret tt, wlog (unpowergate_events (desc m)) w).
Proof.
  intros H. unfold unpowergate, unpowergate_events.
  rewrite (bind_run _ _ _ _ _ (load_run _ _ _ H)).
  destruct (can_powergate (desc m)); simpl; [|by rewrite wlog_nil].
  unfold bind, when, emit, ret.
  destruct (fst (powergate_ids (desc m)) =? -1),
           (snd (powergate_ids (desc m)) =? -1); simpl;
    rewrite ?wlog_wlog, ?wlog_nil; reflexivity.
Qed.

Lemma powergate_run (md : nat) (m : nvhost_module) (w : world) :
  heap w !! md = Some m ->
  powergate md w = (Ret tt, wlog (powergate_events (desc m)) w).
Proof.
  intros H. unfold powergate, powergate_events.
  rewrite (bind_run _ _ _ _ _ (load_run _ _ _ H)).
  destruct (can_powergate (desc m)); simpl; [|by rewrite wlog_nil].
  unfold bind, when, emit, ret.
  destruct (fst (powergate_ids (desc m)) =? -1),
           (snd (powergate_ids (desc m)) =? -1); simpl;
    rewrite ?wlog_wlog, ?wlog_nil; reflexivity.
Qed.

Lemma clock_enable_run (md : nat) (m : nvhost_module) (w : world) :
  heap w !! md = Some m -> clks_ok m ->
  clock_enable md w = (Ret tt, wlog (map ClkEnable (clks m)) w).
Proof.
  intros H Hok. unfold clock_enable.
  rewrite (bind_run _ _ _ _ _ (load_run _ _ _ H)).
  rewrite for_loop_clks by (unfold clks_ok in Hok; lia).
  by rewrite drop_0.
Qed.

Lemma clock_disable_run (md : nat) (m : nvhost_module) (w : world) :
  heap w !! md = Some m -> clks_ok m ->
  clock_disable md w = (Ret tt, wlog (map ClkDisable (clks m)) w).
Proof.
  intros H Hok. unfold clock_disable.
  rewrite (bind_run _ _ _ _ _ (load_run _ _ _ H)).
  rewrite for_loop_clks by (unfold clks_ok in Hok; lia).
  by rewrite drop_0.
Qed.

Ltac unfold_prims :=
  unfold mutex_lock, mutex_unlock, cancel_delayed_work, schedule_delayed_work,
    atomic_read, atomic_inc_return, atomic_sub_return, BUG_ON, modify, when,
    bind, load, store, emit, get_trace, ret, halt.

Ltac run_heap :=
  repeat (simpl; rewrite ?lookup_insert_eq, ?insert_insert_eq).

Ltac module_eq m :=
  destruct m; simpl in *; subst; reflexivity.

Ltac world_done m :=
  unfold wlog, wput; simpl; rewrite <- ?app_assoc, ?insert_insert_eq; simpl;
  first [ reflexivity
        | f_equal; apply world_eq; [f_equal; module_eq m | done | done] ].

Lemma nvhost_module_idle_mult_run (md : nat) (refs : Z) (m : nvhost_module)
    (w : world) :
  heap w !! md = Some m -> lock m = false ->
  nvhost_module_idle_mult md refs w =
  let r := wrap_int (refcount m - refs) in
  if r =? 0 then
    if powered m then
      (Ret tt,
       wlog (idle_events md m)
         (wput md
            (set_powerdown
               (armed (msecs_to_jiffies (powerdown_delay (desc m))) m)
               (set_refcount r m)) w))
    else
      (Stop Bug,
       wlog [MutexLock md] (wput md (set_lock true (set_refcount r m)) w))
  else
    (Ret tt, wlog [MutexLock md; MutexUnlock md] (wput md (set_refcount r m) w)).
Proof.
  intros Hm Hl.
  unfold nvhost_module_idle_mult, idle_events, armed; unfold_prims.
  simpl. rewrite Hm, Hl. run_heap.
  destruct (wrap_int (refcount m - refs) =? 0) eqn:Hr; run_heap.
  - destruct (powered m) eqn:Hp; run_heap.
    + destruct (powerdown m) eqn:Hpd; run_heap;
        destruct (idle (desc m)); run_heap; world_done m.
    + world_done m.
  - world_done m.
Qed.

Lemma call_prepare_poweroff_run (md : nat) (m : nvhost_module) (w : world) :
  call_prepare_poweroff md m w =
  (Ret (prepare_poweroff_refuses m (trace w)),
   wlog (prepare_poweroff_events md m (trace w)) w).
Proof.
  unfold call_prepare_poweroff, prepare_poweroff_refuses,
    prepare_poweroff_events.
  destruct (prepare_poweroff (desc m)); unfold_prims; simpl.
  - reflexivity.
  - by rewrite wlog_nil.
Qed.

Lemma powerdown_handler_run (md : nat) (m : nvhost_module) (w : world) :
  heap w !! md = Some m -> lock m = false -> clks_ok m ->
  powerdown_handler md w =
  if (refcount m =? 0) && powered m then
    if prepare_poweroff_refuses m (trace w ++ [MutexLock md]) then
      (Ret tt,
       wlog (retry_events md m (trace w))
         (wput md (set_powerdown (armed (powerdown_jiffies m) m) m) w))
    else
      powerdown_tail md m
        (wlog (poweroff_events md m (trace w))
           (wput md (set_powered false (set_lock true m)) w))
  else (Ret tt, wlog [MutexLock md; MutexUnlock md] w).
Proof.
  intros Hm Hl Hok. unfold powerdown_handler.
  rewrite (bind_run _ _ _ _ _ (mutex_lock_run _ _ _ Hm Hl)).
  set (w1 := wlog [MutexLock md] (wput md (set_lock true m) w)).
  assert (H1 : heap w1 !! md = Some (set_lock true m)) by apply heap_wput_eq.
  rewrite (bind_run _ _ _ _ _ (atomic_read_run _ _ _ H1)).
  rewrite (bind_run _ _ _ _ _ (load_run _ _ _ H1)).
  change (refcount (set_lock true m)) with (refcount m).
  change (powered (set_lock true m)) with (powered m).
  destruct ((refcount m =? 0) && powered m) eqn:Hc.
  - rewrite (bind_run _ _ _ _ _ (call_prepare_poweroff_run _ _ _)).
    change (prepare_poweroff_refuses (set_lock true m) (trace w1))
      with (prepare_poweroff_refuses m (trace w ++ [MutexLock md])).
    change (prepare_poweroff_events md (set_lock true m) (trace w1))
      with (prepare_poweroff_events md m (trace w ++ [MutexLock md])).
    set (hev := prepare_poweroff_events md m (trace w ++ [MutexLock md])).
    set (w2 := wlog hev w1).
    assert (H2 : heap w2 !! md = Some (set_lock true m)) by apply heap_wput_eq.
    destruct (prepare_poweroff_refuses m (trace w ++ [MutexLock md])).
    + rewrite (bind_run _ _ _ _ _ (mutex_unlock_run _ _ _ H2)).
      erewrite schedule_delayed_work_run by apply heap_wput_eq.
      unfold retry_events, armed, powerdown_jiffies, w2, w1. fold hev.
      simpl. world_done m.
    + assert (Hok' : clks_ok (set_lock true m)) by exact Hok.
      rewrite (bind_run _ _ _ _ _ (clock_disable_run _ _ _ H2 Hok')).
      erewrite bind_run by (apply powergate_run; apply H2).
      erewrite bind_run by (apply modify_run; apply H2).
      unfold powerdown_tail. simpl parent.
      f_equal. unfold poweroff_events, w2, w1, clks. fold hev.
      simpl. unfold wlog, wput; simpl.
      rewrite <- ?app_assoc, ?insert_insert_eq. reflexivity.
  - rewrite (mutex_unlock_run _ _ _ H1). unfold w1. f_equal.
    rewrite wput_wlog, wput_wput, set_lock_set_lock, (set_lock_unlock _ Hl),
      (wput_id _ _ _ Hm), wlog_wlog. reflexivity.
Qed.

(** ** Counting in traces *)

Lemma count_events_app (p : event -> bool) (t1 t2 : list event) :
  count_events p (t1 ++ t2) = (count_events p t1 + count_events p t2)%nat.
Proof. induction t1 as [|e t1 IH]; simpl; [done|]. rewrite IH. lia. Qed.

Lemma count_events_none (p : event -> bool) (tr : list event) :
  Forall (fun e => p e = false) tr -> count_events p tr = O.
Proof. induction 1 as [|e tr He _ IH]; simpl; [done|]. by rewrite He, IH. Qed.

Lemma timer_fires_S_r (n : nat) (md : nat) (w w' : world) :
  timer_fires n md w = (Ret tt, w') ->
  timer_fires (S n) md w = delayed_work_timer_fn md w'.
Proof.
  revert w. induction n as [|n IH]; intros w H.
  - simpl in H. unfold ret in H. inversion H; subst.
    simpl. unfold bind. destruct (delayed_work_timer_fn md w') as [[[]|s] w2];
      reflexivity.
  - change (timer_fires (S n) md w)
      with (bind (delayed_work_timer_fn md) (fun _ => timer_fires n md) w) in H.
    change (timer_fires (S (S n)) md w)
      with (bind (delayed_work_timer_fn md) (fun _ => timer_fires (S n) md) w).
    unfold bind in *.
    destruct (delayed_work_timer_fn md w) as [[[]|s] w1]; [|discriminate].
    by apply IH.
Qed.

Lemma load_fault (md : nat) (w : world) :
  heap w !! md = None -> load md w = (Stop Fault, w).
Proof. unfold load; intros ->; reflexivity. Qed.

(** Whatever happens to the parent, the tail of the handler leaves the
    power state of the module as it is and schedules nothing for it. *)
Lemma powerdown_tail_frame (md : nat) (m m1 : nvhost_module) (w1 : world) :
  heap w1 !! md = Some m1 -> lock m1 = true ->
  exists o w2 evs m2,
    powerdown_tail md m w1 = (o, w2) /\
    trace w2 = trace w1 ++ evs /\
    reschedules md evs = O /\
    heap w2 !! md = Some m2 /\
    powered m2 = powered m1 /\ refcount m2 = refcount m1 /\
    powerdown m2 = powerdown m1.
Proof.
  intros H1 Hl. unfold powerdown_tail.
  destruct (parent m) as [p|].
  - destruct (decide (p = md)) as [->|Hne].
    + exists (Stop Deadlock), w1, [], m1.
      rewrite app_nil_r. repeat split; try done.
      unfold nvhost_module_idle, nvhost_module_idle_mult.
      apply bind_stop. apply bind_stop. by eapply mutex_lock_held.
    + destruct (heap w1 !! p) as [mp|] eqn:Hp.
      * destruct (lock mp) eqn:Hlp.
        { exists (Stop Deadlock), w1, [], m1.
          rewrite app_nil_r. repeat split; try done.
          unfold nvhost_module_idle, nvhost_module_idle_mult.
          apply bind_stop. apply bind_stop. by eapply mutex_lock_held. }
        unfold nvhost_module_idle.
        pose proof (nvhost_module_idle_mult_run p 1 mp w1 Hp Hlp) as Hrun.
        cbv zeta in Hrun.
        assert (Hsched : forall d, is_schedule md (ScheduleDelayedWork p d) = false).
        { intros d. simpl. by apply Nat.eqb_neq. }
        destruct (wrap_int (refcount mp - 1) =? 0);
          [destruct (powered mp)|].
        -- erewrite bind_run by exact Hrun.
           erewrite mutex_unlock_run
             by (simpl; rewrite lookup_insert_ne by done; exact H1).
           eexists _, _, (idle_events p mp ++ [MutexUnlock md]), _.
           split; [reflexivity|].
           split; [cbn [trace wlog wput]; by rewrite <- ?app_assoc|].
           split.
           { unfold reschedules, idle_events. rewrite !count_events_app.
             simpl. rewrite (proj2 (Nat.eqb_neq p md)) by done.
             destruct (idle (desc mp)); reflexivity. }
           split; [apply lookup_insert_eq|done].
        -- exists (Stop Bug). eexists _, [MutexLock p], m1.
           split; [by apply bind_stop|].
           split; [reflexivity|]. split; [reflexivity|].
           split; [simpl; by rewrite lookup_insert_ne|done].
        -- erewrite bind_run by exact Hrun.
           erewrite mutex_unlock_run
             by (simpl; rewrite lookup_insert_ne by done; exact H1).
           eexists _, _, ([MutexLock p; MutexUnlock p] ++ [MutexUnlock md]), _.
           split; [reflexivity|].
           split; [cbn [trace wlog wput]; by rewrite <- ?app_assoc|].
           split; [reflexivity|].
           split; [apply lookup_insert_eq|done].
      * exists (Stop Fault), w1, [], m1.
        rewrite app_nil_r. repeat split; try done.
        unfold nvhost_module_idle, nvhost_module_idle_mult.
        apply bind_stop. apply bind_stop. unfold mutex_lock.
        apply bind_stop. by apply load_fault.
  - erewrite bind_run by reflexivity.
    erewrite mutex_unlock_run by exact H1.
    exists (Ret tt). eexists _, [MutexUnlock md], _.
    split; [reflexivity|].
    split; [reflexivity|]. split; [reflexivity|].
    split; [apply lookup_insert_eq|done].
Qed.

(** The handler finds the module in use again, or already off. *)
Lemma powerdown_handler_skip (md : nat) (m : nvhost_module) (w : world) :
  heap w !! md = Some m -> lock m = false ->
  (refcount m =? 0) && powered m = false ->
  powerdown_handler md w = (Ret tt, wlog [MutexLock md; MutexUnlock md] w).
Proof.
  intros Hm Hl Hc. unfold powerdown_handler.
  rewrite (bind_run _ _ _ _ _ (mutex_lock_run _ _ _ Hm Hl)).
  set (w1 := wlog [MutexLock md] (wput md (set_lock true m) w)).
  assert (H1 : heap w1 !! md = Some (set_lock true m)) by apply heap_wput_eq.
  rewrite (bind_run _ _ _ _ _ (atomic_read_run _ _ _ H1)).
  rewrite (bind_run _ _ _ _ _ (load_run _ _ _ H1)).
  change (refcount (set_lock true m)) with (refcount m).
  change (powered (set_lock true m)) with (powered m).
  rewrite Hc, (mutex_unlock_run _ _ _ H1). unfold w1. f_equal.
  rewrite wput_wlog, wput_wput, set_lock_set_lock, (set_lock_unlock _ Hl),
    (wput_id _ _ _ Hm), wlog_wlog. reflexivity.
Qed.

(** One expiry of the timer while the hook refuses. *)
Lemma timer_fn_refused (md : nat) (m : nvhost_module) (w : world) (d : Z) :
  heap w !! md = Some m -> lock m = false -> clks_ok m ->
  refcount m = 0 -> powered m = true -> powerdown m = Some d ->
  prepare_poweroff_refuses m (trace w ++ [MutexLock md]) = true ->
  delayed_work_timer_fn md w =
  (Ret tt,
   wlog (retry_events md m (trace w))
     (wput md (set_powerdown (Some (powerdown_jiffies m)) m) w)).
Proof.
  intros Hm Hl Hok Hr Hp Hd Href. unfold delayed_work_timer_fn.
  rewrite (bind_run _ _ _ _ _ (load_run _ _ _ Hm)), Hd.
  erewrite bind_run by reflexivity.
  erewrite powerdown_handler_run;
    [| apply heap_wput_eq | exact Hl | exact Hok].
  cbn [refcount powered set_powerdown trace wput].
  rewrite Hr, Hp. simpl andb. cbv iota.
  change (prepare_poweroff_refuses (set_powerdown None m))
    with (prepare_poweroff_refuses m).
  rewrite Href. by rewrite wput_wput.
Qed.

(** One expiry of the timer when the hook lets the power go. *)
Lemma timer_fn_accepted (md : nat) (m : nvhost_module) (w : world) (d : Z) :
  heap w !! md = Some m -> lock m = false -> clks_ok m ->
  refcount m = 0 -> powered m = true -> powerdown m = Some d ->
  prepare_poweroff_refuses m (trace w ++ [MutexLock md]) = false ->
  delayed_work_timer_fn md w =
  powerdown_tail md m
    (wlog (poweroff_events md m (trace w))
       (wput md (set_powered false (set_lock true (set_powerdown None m))) w)).
Proof.
  intros Hm Hl Hok Hr Hp Hd Href. unfold delayed_work_timer_fn.
  rewrite (bind_run _ _ _ _ _ (load_run _ _ _ Hm)), Hd.
  erewrite bind_run by reflexivity.
  erewrite powerdown_handler_run;
    [| apply heap_wput_eq | exact Hl | exact Hok].
  cbn [refcount powered set_powerdown trace wput].
  rewrite Hr, Hp. simpl andb. cbv iota.
  change (prepare_poweroff_refuses (set_powerdown None m))
    with (prepare_poweroff_refuses m).
  rewrite Href. by rewrite wput_wput.
Qed.

Lemma asked_retry_events (md : nat) (m : nvhost_module) (tr : list event)
    (hook : list event -> Z) :
  prepare_poweroff (desc m) = Some hook ->
  asked md (retry_events md m tr) = 1%nat /\
  reschedules md (retry_events md m tr) = 1%nat /\
  count_events is_power_off (retry_events md m tr) = 1%nat.
Proof.
  intros Hh. unfold asked, reschedules, retry_events, prepare_poweroff_events.
  rewrite Hh. simpl. by rewrite Nat.eqb_refl.
Qed.

(** While the hook keeps refusing, every expiry re-arms the work and leaves
    the memory as it was. *)
Lemma timer_fires_refused (md : nat) (m : nvhost_module)
    (hook : list event -> Z) (i : nat) :
  forall w : world,
    heap w !! md = Some m -> lock m = false -> clks_ok m ->
    refcount m = 0 -> powered m = true ->
    powerdown m = Some (powerdown_jiffies m) ->
    prepare_poweroff (desc m) = Some hook ->
    (forall tr, (asked md tr < asked md (trace w) + i)%nat -> hook tr <> 0) ->
    exists wi,
      timer_fires i md w = (Ret tt, wi) /\
      heap wi = heap w /\
      client_list_lock wi = client_list_lock w /\
      asked md (trace wi) = (asked md (trace w) + i)%nat /\
      reschedules md (trace wi) = (reschedules md (trace w) + i)%nat /\
      exists evs,
        trace wi = trace w ++ evs /\
        Forall (fun e => forall c id, e <> ClkDisable c /\ e <> Powergate id) evs.
Proof.
  induction i as [|i IH]; intros w Hm Hl Hok Hr Hp Hd Hh Hhook.
  - exists w. simpl. rewrite !Nat.add_0_r.
    repeat split; try done. exists []. by rewrite app_nil_r.
  - assert (Href : prepare_poweroff_refuses m (trace w ++ [MutexLock md]) = true).
    { unfold prepare_poweroff_refuses. rewrite Hh.
      apply negb_true_iff, Z.eqb_neq, Hhook.
      unfold asked. rewrite count_events_app. simpl. lia. }
    pose proof (timer_fn_refused md m w _ Hm Hl Hok Hr Hp Hd Href) as Hrun.
    rewrite <- Hd in Hrun.
    assert (Hsame : set_powerdown (powerdown m) m = m) by (by destruct m).
    rewrite Hsame, (wput_id _ _ _ Hm) in Hrun.
    destruct (asked_retry_events md m (trace w) hook Hh) as (Ha & Hs & _).
    destruct (IH (wlog (retry_events md m (trace w)) w)) as
      (wi & Hi & Hhp & Hcl & Hask & Hres & evs & Htr & Hev); try done.
    { intros tr Hlt. apply Hhook. simpl in Hlt. unfold asked in *.
      rewrite count_events_app, Ha in Hlt. lia. }
    exists wi. split.
    { change (timer_fires (S i) md w)
        with (bind (delayed_work_timer_fn md) (fun _ => timer_fires i md) w).
      by rewrite (bind_run _ _ _ _ _ Hrun). }
    split; [done|]. split; [done|].
    simpl in Hask, Hres. unfold asked, reschedules in *.
    rewrite count_events_app in Hask, Hres.
    rewrite Ha in Hask. rewrite Hs in Hres.
    split; [lia|]. split; [lia|].
    exists (retry_events md m (trace w) ++ evs). split.
    { rewrite Htr. cbn [trace wlog]. by rewrite <- app_assoc. }
    apply Forall_app. split; [|done].
    unfold retry_events, prepare_poweroff_events. rewrite Hh.
    repeat constructor; discriminate.
Qed.

Lemma reschedules_poweroff_events (md : nat) (m : nvhost_module)
    (tr : list event) :
  reschedules md (poweroff_events md m tr) = O.
Proof.
  unfold reschedules, poweroff_events, prepare_poweroff_events,
    powergate_events.
  rewrite !count_events_app. simpl.
  assert (count_events (is_schedule md) (map ClkDisable (clks m)) = O) as ->.
  { induction (clks m); simpl; auto. }
  destruct (prepare_poweroff (desc m)), (can_powergate (desc m)),
    (fst (powergate_ids (desc m)) =? -1), (snd (powergate_ids (desc m)) =? -1);
    reflexivity.
Qed.

(** ** [nvhost_module_busy] along the chain of parents *)

Lemma nvhost_module_busy_enter (fuel : nat) (md : nat) (m : nvhost_module)
    (w : world) :
  heap w !! md = Some m -> lock m = false ->
  nvhost_module_busy (S fuel) md w =
  (when (powers_up m)
     (busy_parent_call fuel m ;;;
      unpowergate md ;;;
      clock_enable md ;;;
      let* m' := load md in
      when (finalize_poweron (desc m')) (emit (HookFinalizePoweron md)) ;;;
      modify md (set_powered true)) ;;;
   mutex_unlock md)
    (wlog (busy_entry_events md m) (wput md (set_lock true (busy_counted m)) w)).
Proof.
  intros Hm Hl.
  change (nvhost_module_busy (S fuel) md w) with
    ((mutex_lock md ;;;
      cancel_delayed_work md ;;;
      let* m := load md in
      when (busy (desc m)) (emit (HookBusy md)) ;;;
      let* r := atomic_inc_return md in
      let* m := load md in
      when ((r =? 1) && negb (powered m))
        (busy_parent_call fuel m ;;;
         unpowergate md ;;;
         clock_enable md ;;;
         let* m := load md in
         when (finalize_poweron (desc m)) (emit (HookFinalizePoweron md)) ;;;
         modify md (set_powered true)) ;;;
      mutex_unlock md) w).
  rewrite (bind_run _ _ _ _ _ (mutex_lock_run _ _ _ Hm Hl)).
  erewrite bind_run by (apply cancel_delayed_work_run, heap_wput_eq).
  erewrite bind_run by (apply load_run, heap_wput_eq).
  cbn [desc set_powerdown set_lock].
  set (w1 := wlog [CancelDelayedWork md] _).
  assert (Hhook : when (busy (desc m)) (emit (HookBusy md)) w1 =
                  (Ret tt, wlog (busy_hook_events md m) w1)).
  { unfold when, busy_hook_events, emit, ret.
    destruct (busy (desc m)); [done|by rewrite wlog_nil]. }
  rewrite (bind_run _ _ _ _ _ Hhook).
  erewrite bind_run by (apply atomic_inc_return_run, heap_wput_eq).
  erewrite bind_run by (apply load_run, heap_wput_eq).
  cbn [refcount powered set_refcount set_powerdown set_lock parent].
  unfold w1, busy_entry_events, busy_counted, powers_up, busy_parent_call.
  cbn [parent set_refcount set_powerdown set_lock].
  f_equal. unfold wlog, wput; simpl.
  rewrite <- ?app_assoc, ?insert_insert_eq. reflexivity.
Qed.

(** The module is, and stays, powered: only the count changes. *)
Lemma nvhost_module_busy_nested (fuel : nat) (md : nat) (m : nvhost_module)
    (w : world) :
  heap w !! md = Some m -> lock m = false -> powers_up m = false ->
  nvhost_module_busy (S fuel) md w =
  (Ret tt,
   wlog (busy_entry_events md m ++ [MutexUnlock md])
     (wput md (busy_counted m) w)).
Proof.
  intros Hm Hl Hup. rewrite (nvhost_module_busy_enter _ _ _ _ Hm Hl), Hup.
  erewrite bind_run by reflexivity.
  erewrite mutex_unlock_run by apply heap_wput_eq.
  f_equal. rewrite wput_wlog, wput_wput, wlog_wlog, set_lock_set_lock.
  by rewrite set_lock_unlock.
Qed.

(** The module is powered up, once the call on the parent has returned. *)
Lemma nvhost_module_busy_power_up (fuel : nat) (md : nat) (m : nvhost_module)
    (w w2 : world) :
  heap w !! md = Some m -> lock m = false -> clks_ok m ->
  powers_up m = true ->
  busy_parent_call fuel m
    (wlog (busy_entry_events md m) (wput md (set_lock true (busy_counted m)) w))
  = (Ret tt, w2) ->
  heap w2 !! md = Some (set_lock true (busy_counted m)) ->
  nvhost_module_busy (S fuel) md w =
  (Ret tt,
   wlog (power_up_events md m ++ [MutexUnlock md])
     (wput md (set_powered true (busy_counted m)) w2)).
Proof.
  intros Hm Hl Hok Hup Hpar H2.
  rewrite (nvhost_module_busy_enter _ _ _ _ Hm Hl), Hup.
  unfold when at 1.
  set (body := (busy_parent_call fuel m ;;; _)).
  assert (Hbody : body
            (wlog (busy_entry_events md m)
               (wput md (set_lock true (busy_counted m)) w)) =
          (Ret tt, wlog (power_up_events md m)
                     (wput md (set_powered true (set_lock true (busy_counted m)))
                        w2))).
  { unfold body.
    rewrite (bind_run _ _ _ _ _ Hpar).
    rewrite (bind_run _ _ _ _ _ (unpowergate_run _ _ _ H2)).
    erewrite bind_run by (apply clock_enable_run; [exact H2 | exact Hok]).
    erewrite bind_run by (apply load_run; exact H2).
    cbn [desc set_lock busy_counted set_refcount set_powerdown clks num_clks clk].
    set (w3 := wlog (map ClkEnable _) _).
    assert (Hhook : when (finalize_poweron (desc m))
                      (emit (HookFinalizePoweron md)) w3 =
                    (Ret tt,
                     wlog (if finalize_poweron (desc m)
                           then [HookFinalizePoweron md] else []) w3)).
    { unfold when, emit, ret.
      destruct (finalize_poweron (desc m)); [done|by rewrite wlog_nil]. }
    rewrite (bind_run _ _ _ _ _ Hhook).
    erewrite modify_run by exact H2.
    f_equal. unfold w3, power_up_events, clks, wlog, wput; simpl.
    by rewrite <- ?app_assoc. }
  rewrite (bind_run _ _ _ _ _ Hbody).
  erewrite mutex_unlock_run by apply heap_wput_eq.
  f_equal. rewrite wput_wlog, wput_wput, wlog_wlog.
  f_equal. f_equal. by rewrite (set_lock_unlock m Hl) || module_eq m.
Qed.

Lemma chain_frame (h h' : gmap nat nvhost_module) (md : nat) (l : list nat) :
  chain h md l -> (forall a, a ∈ l -> h' !! a = h !! a) -> chain h' md l.
Proof.
  induction 1 as [md m Hm Hl Hok Hp | md m p l Hm Hl Hok Hp Hni Hc IH];
    intros Hagree.
  - apply (chain_root _ md m); try done.
    rewrite Hagree; [done|]. apply list_elem_of_here.
  - apply (chain_parent _ md m p l); try done.
    + rewrite Hagree; [done|]. apply list_elem_of_here.
    + apply IH. intros a Ha. apply Hagree. by apply list_elem_of_further.
Qed.

Lemma busy_events_frame (h h' : gmap nat nvhost_module) (l : list nat) :
  (forall a, a ∈ l -> h' !! a = h !! a) -> busy_events h' l = busy_events h l.
Proof.
  induction l as [|a l IH]; intros Hagree; simpl; [done|].
  rewrite Hagree by apply list_elem_of_here.
  rewrite IH; [done|].
  intros b Hb. apply Hagree. by apply list_elem_of_further.
Qed.

Lemma nvhost_module_busy_chain (l : list nat) :
  forall (md : nat) (w : world) (fuel : nat),
    chain (heap w) md l -> (length l <= fuel)%nat ->
    exists w',
      nvhost_module_busy fuel md w = (Ret tt, w') /\
      client_list_lock w' = client_list_lock w /\
      trace w' = trace w ++ busy_events (heap w) l /\
      (forall a, a ∉ l -> heap w' !! a = heap w !! a) /\
      (forall m, heap w !! md = Some m -> heap w' !! md = Some (busy_post m)).
Proof.
  induction l as [|a l IH]; intros md w fuel Hc Hf; [inversion Hc|].
  destruct fuel as [|fuel]; [simpl in Hf; lia|].
  assert (Hfuel : (length l <= fuel)%nat) by (simpl in Hf; lia).
  assert (Hhead : exists m, heap w !! md = Some m /\ lock m = false /\
                            clks_ok m /\ a = md /\ (md ∉ l) /\
                            match parent m with
                            | Some p => chain (heap w) p l
                            | None => l = []
                            end).
  { inversion Hc as [? m Hm Hl Hok Hp | ? m p ? Hm Hl Hok Hp Hni Hcp]; subst;
      exists m; rewrite Hp; repeat split; try done. apply not_elem_of_nil. }
  destruct Hhead as (m & Hm & Hl & Hok & -> & Hni & Hpar).
  destruct (powers_up m) eqn:Hup.
  - set (w1 := wlog (busy_entry_events md m)
                 (wput md (set_lock true (busy_counted m)) w)).
    assert (Hagree : forall b, b ∈ l -> heap w1 !! b = heap w !! b).
    { intros b Hb. simpl. apply lookup_insert_ne. intros ->. by apply Hni. }
    assert (Hcall : exists w2,
               busy_parent_call fuel m w1 = (Ret tt, w2) /\
               client_list_lock w2 = client_list_lock w1 /\
               trace w2 = trace w1 ++ busy_events (heap w) l /\
               (forall b, b ∉ l -> heap w2 !! b = heap w1 !! b)).
    { unfold busy_parent_call. destruct (parent m) as [p|].
      - destruct (IH p w1 fuel) as (w2 & Hrun & Hcl & Htr & Hfr & _);
          [by apply (chain_frame (heap w)) | done |].
        exists w2. rewrite Htr, (busy_events_frame (heap w)) by done.
        by repeat split.
      - exists w1. subst l. simpl. by rewrite app_nil_r. }
    destruct Hcall as (w2 & Hrun & Hcl & Htr & Hfr).
    assert (H2 : heap w2 !! md = Some (set_lock true (busy_counted m))).
    { rewrite Hfr by done. apply heap_wput_eq. }
    rewrite (nvhost_module_busy_power_up fuel md m w w2 Hm Hl Hok Hup Hrun H2).
    eexists. split; [reflexivity|].
    split; [cbn [client_list_lock wlog wput]; by rewrite Hcl|].
    split.
    { cbn [trace wlog wput busy_events]. rewrite Htr, Hm, Hup.
      unfold w1. cbn [trace wlog wput]. by rewrite <- !app_assoc. }
    split.
    { intros b Hb. apply not_elem_of_cons in Hb as [Hne Hb].
      cbn [heap wlog wput]. rewrite lookup_insert_ne by done.
      rewrite Hfr by done. unfold w1. cbn [heap wlog wput].
      by rewrite lookup_insert_ne. }
    intros m' Hm'. rewrite Hm in Hm'. inversion Hm'; subst m'.
    cbn [heap wlog wput]. rewrite lookup_insert_eq.
    unfold busy_post. by rewrite Hup.
  - rewrite (nvhost_module_busy_nested fuel md m w Hm Hl Hup).
    eexists. split; [reflexivity|]. split; [done|].
    split.
    { cbn [trace wlog wput busy_events]. rewrite Hm, Hup. done. }
    split.
    { intros b Hb. apply not_elem_of_cons in Hb as [Hne Hb].
      cbn [heap wlog wput]. by rewrite lookup_insert_ne. }
    intros m' Hm'. rewrite Hm in Hm'. inversion Hm'; subst m'.
    cbn [heap wlog wput]. rewrite lookup_insert_eq.
    unfold busy_post. by rewrite Hup.
Qed.

Lemma wrap_int_id (z : Z) : int_range z -> wrap_int z = z.
Proof.
  unfold int_range, wrap_int. intros H.
  rewrite Z.mod_small by lia. lia.
Qed.

Lemma wrap_int_range (z : Z) : int_range (wrap_int z).
Proof.
  unfold int_range, wrap_int.
  pose proof (Z.mod_pos_bound (z + 2 ^ 31) (2 ^ 32)). lia.
Qed.

Lemma wrap_int_inc_is_one (r : Z) :
  int_range r -> (wrap_int (r + 1) =? 1) = (r =? 0).
Proof.
  unfold int_range. intros H.
  destruct (Z.eq_dec r (2 ^ 31 - 1)) as [->|Hne].
  - reflexivity.
  - rewrite wrap_int_id by (unfold int_range; lia).
    destruct (Z.eqb_spec (r + 1) 1), (Z.eqb_spec r 0); lia.
Qed.

Lemma wrap_int_inc_dec (r : Z) :
  int_range r -> wrap_int (wrap_int (r + 1) - 1) = r.
Proof.
  unfold int_range. intros H.
  destruct (Z.eq_dec r (2 ^ 31 - 1)) as [->|Hne].
  - reflexivity.
  - rewrite (wrap_int_id (r + 1)) by (unfold int_range; lia).
    replace (r + 1 - 1) with r by lia.
    by apply wrap_int_id.
Qed.

Lemma busy_times_nested (fuel : nat) (md : nat) (n : nat) :
  forall (w : world) (m : nvhost_module),
    heap w !! md = Some m -> lock m = false -> powered m = true ->
    exists w' m',
      busy_times n (S fuel) md w = (Ret tt, w') /\
      trace w' =
        trace w
        ++ concat (replicate n (busy_entry_events md m ++ [MutexUnlock md])) /\
      heap w' !! md = Some m' /\ powered m' = true /\ lock m' = false /\
      desc m' = desc m.
Proof.
  induction n as [|n IH]; intros w m Hm Hl Hp.
  - exists w, m. simpl. by rewrite app_nil_r.
  - assert (Hup : powers_up m = false).
    { unfold powers_up. rewrite Hp. apply andb_false_r. }
    destruct (IH (wlog (busy_entry_events md m ++ [MutexUnlock md])
                    (wput md (busy_counted m) w)) (busy_counted m))
      as (w' & m' & Hrun & Htr & Hm' & Hp' & Hl' & Hd');
      [apply heap_wput_eq | done | done |].
    exists w', m'. split.
    { change (busy_times (S n) (S fuel) md w)
        with (bind (nvhost_module_busy (S fuel) md)
                (fun _ => busy_times n (S fuel) md) w).
      by rewrite (bind_run _ _ _ _ _
                    (nvhost_module_busy_nested fuel md m w Hm Hl Hup)). }
    split; [|done].
    rewrite Htr. cbn [trace wlog wput replicate concat].
    by rewrite <- !app_assoc.
Qed.

(** ** Module mutexes held along a trace *)

Lemma locks_after_app (held : list nat) (t1 t2 : list event) :
  locks_after held (t1 ++ t2) = locks_after (locks_after held t1) t2.
Proof. apply fold_left_app. Qed.

Lemma locks_after_other (held : list nat) (tr : list event) :
  Forall (fun e => is_mutex_event e = false) tr -> locks_after held tr = held.
Proof.
  induction 1 as [|e tr He _ IH]; [done|].
  unfold locks_after in *. simpl. rewrite <- IH at 2.
  by destruct e.
Qed.

Lemma no_mutex_map (f : Z -> event) (l : list Z) :
  (forall c, is_mutex_event (f c) = false) ->
  Forall (fun e => is_mutex_event e = false) (map f l).
Proof. intros Hf. induction l; constructor; auto. Qed.

Lemma no_mutex_powergate_events (d : nvhost_moduledesc) :
  Forall (fun e => is_mutex_event e = false) (powergate_events d).
Proof.
  unfold powergate_events.
  destruct (can_powergate d), (fst (powergate_ids d) =? -1),
    (snd (powergate_ids d) =? -1); simpl; repeat constructor.
Qed.

Lemma locks_after_poweroff_events (md : nat) (m : nvhost_module)
    (tr : list event) :
  locks_after [] (poweroff_events md m tr) = [md].
Proof.
  unfold poweroff_events. rewrite locks_after_app.
  change (locks_after [] [MutexLock md]) with [md].
  apply locks_after_other.
  repeat apply Forall_app_2.
  - unfold prepare_poweroff_events.
    destruct (prepare_poweroff (desc m)); repeat constructor.
  - by apply no_mutex_map.
  - apply no_mutex_powergate_events.
Qed.

Lemma locks_after_busy_entry_events (md : nat) (m : nvhost_module) :
  locks_after [] (busy_entry_events md m) = [md].
Proof.
  unfold busy_entry_events, busy_hook_events.
  by destruct (busy (desc m)).
Qed.

Lemma chain_inv (h : gmap nat nvhost_module) (md : nat) (l : list nat)
    (m : nvhost_module) :
  chain h md l -> h !! md = Some m ->
  lock m = false /\ clks_ok m /\
  exists l', l = md :: l' /\ (md ∉ l') /\
    forall p, parent m = Some p -> chain h p l'.
Proof.
  intros Hc Hm.
  inversion Hc as [? m0 Hm0 Hl Hok Hp | ? m0 p0 l0 Hm0 Hl Hok Hp Hni Hcp];
    subst; rewrite Hm in Hm0; inversion Hm0; subst m0;
    (split; [done|]); (split; [done|]).
  - exists []. split; [done|]. split; [apply not_elem_of_nil|].
    intros p Hp'. congruence.
  - exists l0. split; [done|]. split; [done|].
    intros p Hp'. congruence.
Qed.

Lemma chain_head (h : gmap nat nvhost_module) (md : nat) (l : list nat) :
  chain h md l ->
  exists m l', l = md :: l' /\ h !! md = Some m /\ lock m = false.
Proof. inversion 1; subst; eauto 8. Qed.

(** ** Client rate registry *)

Lemma max_rate_run (l : list nvhost_module_client) (idx : nat) (acc : Z)
    (w : world) :
  Forall (fun c => (idx < length (rate c))%nat) l ->
  max_rate l (Z.of_nat idx) acc w =
  (Ret (fold_left (fun a c => Z.max (vote c idx) a) l acc), w).
Proof.
  intros H. revert acc. induction H as [|c l Hc _ IH]; intros acc; simpl.
  - reflexivity.
  - destruct (lookup_lt_is_Some_2 _ _ Hc) as [v Hv].
    rewrite (bind_run _ _ _ _ _ (index_run _ _ _ w Hv)).
    rewrite IH. unfold vote. by rewrite Hv.
Qed.

Lemma nvhost_module_update_rate_run (md : nat) (m : nvhost_module)
    (idx : nat) (c : Z) (w : world) :
  heap w !! md = Some m -> arrays_ok m -> clk m !! idx = Some c ->
  nvhost_module_update_rate md (Z.of_nat idx) w =
  if c =? 0 then (Ret (- EINVAL), w)
  else
    (Ret (clk_set_rate (trace w) c (effective_rate m (client_list m) idx c)),
     wlog [ClkSetRate c (effective_rate m (client_list m) idx c)] w).
Proof.
  intros Hm [Hck Hcl] Hc. unfold nvhost_module_update_rate.
  rewrite (bind_run _ _ _ _ _ (load_run _ _ _ Hm)).
  rewrite (bind_run _ _ _ _ _ (index_run _ _ _ w Hc)).
  destruct (c =? 0); [done|].
  assert (Hlt : (idx < length (clk m))%nat) by (by apply lookup_lt_Some in Hc).
  erewrite bind_run;
    [| apply max_rate_run; eapply Forall_impl; [exact Hcl|];
       simpl; intros ? ->; exact Hlt].
  unfold effective_rate, rounded_default, max_vote.
  set (r := fold_left _ _ 0).
  destruct (lookup_lt_is_Some_2 (clocks (desc m)) idx) as [ck Hk]; [lia|].
  rewrite Hk.
  destruct (r =? 0).
  - rewrite (bind_run _ _ _ _ _
               (bind_run _ _ _ _ _ (index_run _ _ _ w Hk))).
    reflexivity.
  - reflexivity.
Qed.

Lemma set_rate_loop_run (cl : list Z) (l : list nvhost_module_client)
    (p r : Z) (idx : nat) (c : Z) (w : world) :
  cl !! idx = Some c ->
  Forall (fun m => length (rate m) = length cl) l ->
  set_rate_loop cl l p r (Z.of_nat idx) w =
  (Ret (cast_vote l p idx (wrap_ulong (clk_round_rate c r))), w).
Proof.
  intros Hc H. induction H as [|m l Hm _ IH]; simpl; [done|].
  destruct (priv m =? p).
  - rewrite (bind_run _ _ _ _ _ (index_run _ _ _ w Hc)).
    destruct (lookup_lt_is_Some_2 (rate m) idx) as [v Hv].
    { rewrite Hm. by apply lookup_lt_Some in Hc. }
    unfold write_index.
    rewrite (bind_run _ _ _ _ _
               (bind_run _ _ _ _ _ (index_run _ _ _ w Hv))).
    by rewrite Nat2Z.id.
  - by rewrite (bind_run _ _ _ _ _ IH).
Qed.

Lemma cast_vote_lengths (l : list nvhost_module_client) (p : Z) (idx : nat)
    (v : Z) (n : nat) :
  Forall (fun m => length (rate m) = n) l ->
  Forall (fun m => length (rate m) = n) (cast_vote l p idx v).
Proof.
  induction 1 as [|m l Hm Hl IH]; simpl; [constructor|].
  destruct (priv m =? p); constructor; try done.
  simpl. by rewrite length_insert.
Qed.

Lemma client_list_mutex_lock_run (w : world) :
  client_list_lock w = false ->
  client_list_mutex_lock w = (Ret tt, wlog [ClientListLock] (wcll true w)).
Proof. unfold client_list_mutex_lock. by intros ->. Qed.

Lemma nvhost_module_set_rate_run (md : nat) (m : nvhost_module) (p r : Z)
    (idx : nat) (c : Z) (w : world) :
  heap w !! md = Some m -> client_list_lock w = false ->
  arrays_ok m -> clk m !! idx = Some c ->
  nvhost_module_set_rate md p r (Z.of_nat idx) w =
  let l' := cast_vote (client_list m) p idx (wrap_ulong (clk_round_rate c r)) in
  if c =? 0 then
    (Ret (- EINVAL),
     wlog [ClientListLock; ClientListUnlock] (wput md (set_client_list l' m) w))
  else
    (Ret (clk_set_rate (trace w ++ [ClientListLock]) c
            (effective_rate m l' idx c)),
     wlog [ClientListLock; ClkSetRate c (effective_rate m l' idx c);
           ClientListUnlock]
       (wput md (set_client_list l' m) w)).
Proof.
  intros Hm Hcl Hok Hc. cbv zeta.
  set (l' := cast_vote _ _ _ _).
  unfold nvhost_module_set_rate.
  rewrite (bind_run _ _ _ _ _ (client_list_mutex_lock_run _ Hcl)).
  erewrite bind_run by (apply load_run; exact Hm).
  erewrite bind_run by (apply set_rate_loop_run; [exact Hc | apply Hok]).
  erewrite bind_run by reflexivity. fold l'.
  assert (Hok' : arrays_ok (set_client_list l' m)).
  { destruct Hok as [H1 H2]. split; [exact H1|].
    by apply cast_vote_lengths. }
  set (w1 := wput md (set_client_list l' m) (wlog [ClientListLock] (wcll true w))).
  pose proof (nvhost_module_update_rate_run md (set_client_list l' m) idx c w1
                (heap_wput_eq _ _ _) Hok' Hc) as Hrun.
  revert Hrun. destruct (c =? 0); intros Hrun;
    rewrite (bind_run _ _ _ _ _ Hrun);
    unfold client_list_mutex_unlock, bind, ret; f_equal;
    unfold w1, wlog, wput, wcll; simpl; rewrite <- ?app_assoc;
    apply world_eq; done.
Qed.

(** *** Removing a client *)

Lemma remove_client_loop_lengths (l : list nvhost_module_client) (p : Z)
    (i n : nat) :
  Forall (fun m => length (rate m) = n) l ->
  Forall (fun m => length (rate m) = n) (fst (remove_client_loop l p i)).
Proof.
  intros H. revert i. induction H as [|m l Hm Hl IH]; intros i; simpl.
  - constructor.
  - destruct (p =? priv m); [done|].
    specialize (IH (S i)). destruct (remove_client_loop l p (S i)).
    simpl in *. by constructor.
Qed.

Lemma remove_client_loop_no_match (l : list nvhost_module_client) (p : Z)
    (i : nat) :
  Forall (fun m => priv m <> p) l ->
  remove_client_loop l p i = (l, CurHead).
Proof.
  intros H. revert i. induction H as [|m l Hm _ IH]; intros i; simpl.
  - reflexivity.
  - destruct (Z.eqb_spec p (priv m)) as [->|_]; [done|].
    by rewrite IH.
Qed.

Lemma for_loop_update_rate (md : nat) (m : nvhost_module) (n : nat) :
  forall (from : nat) (w : world),
    heap w !! md = Some m -> arrays_ok m ->
    (from + n <= length (clk m))%nat ->
    for_loop from n
      (fun i => nvhost_module_update_rate md (Z.of_nat i) ;;; ret tt) w =
    (Ret tt,
     wlog (flat_map (update_rate_events m (client_list m)) (seq from n)) w).
Proof.
  induction n as [|n IH]; intros from w Hm Hok Hlen; simpl.
  - by rewrite wlog_nil.
  - destruct (lookup_lt_is_Some_2 (clk m) from) as [c Hc]; [lia|].
    pose proof (nvhost_module_update_rate_run md m from c w Hm Hok Hc) as Hrun.
    unfold update_rate_events at 1. rewrite Hc.
    destruct (c =? 0).
    + rewrite (bind_run _ _ _ _ _ (bind_run _ _ _ _ _ Hrun)).
      unfold ret at 1. rewrite IH by (done || lia). reflexivity.
    + rewrite (bind_run _ _ _ _ _ (bind_run _ _ _ _ _ Hrun)).
      unfold ret at 1. rewrite IH by (done || lia).
      by rewrite wlog_wlog.
Qed.

Lemma nvhost_module_remove_client_run (md : nat) (m : nvhost_module) (p : Z)
    (w : world) :
  heap w !! md = Some m -> client_list_lock w = false ->
  arrays_ok m -> clks_ok m ->
  nvhost_module_remove_client md p w =
  let l' := fst (remove_client_loop (client_list m) p 0) in
  let cur := snd (remove_client_loop (client_list m) p 0) in
  (Ret tt,
   wlog ([ClientListLock; KFree cur]
         ++ flat_map (update_rate_events m l') (seq 0 (num_clks m))
         ++ [ClientListUnlock])
     (wput md (set_client_list l' m) w)).
Proof.
  intros Hm Hcl Hok Hclk. cbv zeta.
  pose proof (remove_client_loop_lengths (client_list m) p 0 _ (proj2 Hok))
    as Hlen.
  unfold nvhost_module_remove_client.
  rewrite (bind_run _ _ _ _ _ (client_list_mutex_lock_run _ Hcl)).
  erewrite bind_run by (apply load_run; exact Hm).
  destruct (remove_client_loop (client_list m) p 0) as [l' cur].
  cbn [fst snd] in *.
  erewrite bind_run by reflexivity.
  assert (Hnn : cursor_non_null cur = true) by (by destruct cur).
  rewrite Hnn. unfold when.
  assert (Hok' : arrays_ok (set_client_list l' m)).
  { destruct Hok as [H1 H2]. by split. }
  erewrite bind_run.
  2:{ erewrite bind_run by reflexivity.
      apply (for_loop_update_rate md (set_client_list l' m));
        [apply heap_wput_eq | exact Hok' | exact Hclk]. }
  unfold client_list_mutex_unlock. f_equal.
  unfold wlog, wput, wcll; simpl. rewrite <- ?app_assoc.
  apply world_eq; done.
Qed.

Lemma remove_client_loop_match (l : list nvhost_module_client) (p : Z) :
  Exists (fun cl => priv cl = p) l ->
  forall k, exists i, snd (remove_client_loop l p k) = CurEntry i.
Proof.
  induction l as [|m l IH]; intros H k; [by inversion H|].
  simpl. destruct (Z.eqb_spec p (priv m)) as [Heq|Hne].
  - by exists k.
  - inversion H as [? ? Hp | ? ? Hl]; subst; [congruence|].
    destruct (IH Hl (S k)) as [i Hi]. exists i.
    destruct (remove_client_loop l p (S k)). by simpl in *.
Qed.

(** *** Adding a client *)

Lemma add_client_rates_run (m : nvhost_module) (n : nat) :
  forall (from : nat) (rs : list Z) (w : world),
    (from + n <= length (clk m))%nat ->
    length (clocks (desc m)) = length (clk m) ->
    length rs = length (clk m) ->
    exists rs',
      add_client_rates m from n rs w = (Ret rs', w) /\
      length rs' = length (clk m).
Proof.
  induction n as [|n IH]; intros from rs w Hlen Hck Hrs; simpl.
  - by exists rs.
  - destruct (lookup_lt_is_Some_2 (clk m) from) as [c Hc]; [lia|].
    destruct (lookup_lt_is_Some_2 (clocks (desc m)) from) as [ck Hk]; [lia|].
    destruct (lookup_lt_is_Some_2 rs from) as [v Hv]; [lia|].
    rewrite (bind_run _ _ _ _ _ (index_run _ _ _ w Hc)).
    rewrite (bind_run _ _ _ _ _ (index_run _ _ _ w Hk)).
    unfold write_index.
    rewrite (bind_run _ _ _ _ _
               (bind_run _ _ _ _ _ (index_run _ _ _ w Hv))).
    apply IH; [lia | done |]. by rewrite length_insert.
Qed.

Lemma nvhost_module_add_client_run (md : nat) (m : nvhost_module) (p : Z)
    (w : world) :
  heap w !! md = Some m -> client_list_lock w = false ->
  arrays_ok m -> clks_ok m ->
  length (clk m) = NVHOST_MODULE_MAX_CLOCKS ->
  if kzalloc (trace w) then
    exists rs,
      length rs = NVHOST_MODULE_MAX_CLOCKS /\
      nvhost_module_add_client md p w =
      (Ret 0,
       wlog [ClientListLock; ClientListUnlock]
         (wput md
            (set_client_list (client_list m ++ [{| rate := rs; priv := p |}]) m)
            w))
  else nvhost_module_add_client md p w = (Ret (- ENOMEM), w).
Proof.
  intros Hm Hcl [Hck _] Hclk Hmax.
  unfold nvhost_module_add_client.
  erewrite bind_run by reflexivity.
  destruct (kzalloc (trace w)); [|done]. simpl negb. cbv iota.
  destruct (add_client_rates_run m (num_clks m) 0
              (replicate NVHOST_MODULE_MAX_CLOCKS 0) w)
    as (rs & Hrs & Hlen); [exact Hclk | done | by rewrite length_replicate |].
  exists rs. split; [congruence|]. cbn [negb].
  rewrite (bind_run _ _ _ _ _ (load_run _ _ _ Hm)).
  rewrite (bind_run _ _ _ _ _ Hrs).
  rewrite (bind_run _ _ _ _ _ (client_list_mutex_lock_run _ Hcl)).
  erewrite bind_run by (apply load_run; exact Hm).
  erewrite bind_run by reflexivity.
  unfold client_list_mutex_unlock, bind, ret. f_equal.
  unfold wlog, wput, wcll; simpl. rewrite <- ?app_assoc.
  apply world_eq; done.
Qed.

Lemma applied_rate_last (tr : list event) (c r : Z) (tl : list event) :
  applied_rate tl c = None ->
  applied_rate (tr ++ ClkSetRate c r :: tl) c = Some r.
Proof.
  intros Htl. induction tr as [|e tr IH]; simpl.
  - by rewrite Htl, Z.eqb_refl.
  - by rewrite IH.
Qed.

(** ** Suspend *)

Lemma is_module_idle_run (md : nat) (m : nvhost_module) (w : world) :
  heap w !! md = Some m -> lock m = false ->
  is_module_idle md w =
  (Ret (refcount m =? 0), wlog [MutexLock md; MutexUnlock md] w).
Proof.
  intros Hm Hl. unfold is_module_idle.
  rewrite (bind_run _ _ _ _ _ (mutex_lock_run _ _ _ Hm Hl)).
  erewrite bind_run by (apply atomic_read_run, heap_wput_eq).
  erewrite bind_run by (apply mutex_unlock_run, heap_wput_eq).
  unfold ret. f_equal.
  rewrite wput_wlog, wput_wput, set_lock_set_lock, (set_lock_unlock _ Hl),
    (wput_id _ _ _ Hm), wlog_wlog. reflexivity.
Qed.

Lemma nvhost_module_suspend_off_run (md : nat) (m : nvhost_module)
    (system_suspend : bool) (w : world) :
  heap w !! md = Some m -> lock m = false ->
  refcount m = 0 -> powered m = false ->
  nvhost_module_suspend md system_suspend w =
  (Ret tt,
   wlog (suspend_off_events md m system_suspend)
     (wput md (set_powerdown None m) w)).
Proof.
  intros Hm Hl Hr Hp. unfold nvhost_module_suspend.
  set (e1 := if system_suspend then [MutexLock md; MutexUnlock md] else []).
  assert (H1 : when system_suspend
                 (let* i := is_module_idle md in
                  when (negb i) (emit DebugNotIdle)) w =
               (Ret tt, wlog e1 w)).
  { unfold when, e1. destruct system_suspend; [|by rewrite wlog_nil].
    rewrite (bind_run _ _ _ _ _ (is_module_idle_run _ _ _ Hm Hl)).
    by rewrite Hr. }
  rewrite (bind_run _ _ _ _ _ H1).
  assert (H2 : wait_event_timeout_idle md ACM_SUSPEND_WAIT_FOR_IDLE_TIMEOUT
                 (wlog e1 w) =
               (Ret ACM_SUSPEND_WAIT_FOR_IDLE_TIMEOUT,
                wlog [MutexLock md; MutexUnlock md] (wlog e1 w))).
  { unfold wait_event_timeout_idle.
    erewrite bind_run by (apply is_module_idle_run; [exact Hm | exact Hl]).
    by rewrite Hr. }
  rewrite (bind_run _ _ _ _ _ H2).
  set (e3 := if ACM_SUSPEND_WAIT_FOR_IDLE_TIMEOUT =? 0 then [DebugDump] else []).
  set (w2 := wlog [MutexLock md; MutexUnlock md] (wlog e1 w)).
  assert (H3 : when (ACM_SUSPEND_WAIT_FOR_IDLE_TIMEOUT =? 0) (emit DebugDump) w2
               = (Ret tt, wlog e3 w2)).
  { unfold when, e3.
    destruct (ACM_SUSPEND_WAIT_FOR_IDLE_TIMEOUT =? 0);
      [done|by rewrite wlog_nil]. }
  rewrite (bind_run _ _ _ _ _ H3).
  set (w3 := wlog [FlushDelayedWork md] (wlog e3 w2)).
  set (e4 := match powerdown m with
             | Some _ => [MutexLock md; MutexUnlock md]
             | None => []
             end).
  assert (Hm3 : heap w3 !! md = Some m) by exact Hm.
  assert (H4 : flush_delayed_work md (wlog e3 w2) =
               (Ret tt, wlog e4 (wput md (set_powerdown None m) w3))).
  { unfold flush_delayed_work.
    erewrite bind_run by reflexivity. fold w3.
    unfold delayed_work_timer_fn.
    rewrite (bind_run _ _ _ _ _ (load_run _ _ _ Hm3)). unfold e4.
    destruct (powerdown m) eqn:Hpd.
    - erewrite bind_run by reflexivity.
      erewrite powerdown_handler_skip;
        [reflexivity | apply heap_wput_eq | exact Hl |].
      simpl. rewrite Hp. apply andb_false_r.
    - unfold ret. rewrite wlog_nil. f_equal. symmetry. apply wput_id.
      rewrite Hm3. f_equal. destruct m; simpl in *; by subst. }
  rewrite (bind_run _ _ _ _ _ H4).
  erewrite bind_run by (apply load_run, heap_wput_eq).
  set (w4 := wlog e4 _).
  set (e5 := if suspend (desc m) then [HookSuspend md] else []).
  assert (H5 : when (suspend (desc (set_powerdown None m)))
                 (emit (HookSuspend md)) w4 = (Ret tt, wlog e5 w4)).
  { unfold when, e5. simpl.
    destruct (suspend (desc m)); [done|by rewrite wlog_nil]. }
  rewrite (bind_run _ _ _ _ _ H5).
  erewrite bind_run by (apply load_run, heap_wput_eq).
  simpl powered. rewrite Hp. unfold BUG_ON, ret. f_equal.
  unfold w4, w3, w2, suspend_off_events. fold e1 e3 e4 e5.
  unfold wlog, wput; simpl. rewrite <- ?app_assoc. reflexivity.
Qed.

Lemma no_power_off_suspend_off_events (md : nat) (m : nvhost_module)
    (system_suspend : bool) :
  Forall (fun e => is_power_off e = false)
    (suspend_off_events md m system_suspend).
Proof.
  unfold suspend_off_events.
  destruct system_suspend, (ACM_SUSPEND_WAIT_FOR_IDLE_TIMEOUT =? 0),
    (powerdown m), (suspend (desc m)); simpl; repeat constructor.
Qed.

(** A token that matches no record: the cursor ends on the list head, which
    is freed, and every clock index is recomputed all the same. *)
Lemma nvhost_module_remove_client_no_match (md : nat) (m : nvhost_module)
    (p : Z) (w : world) :
  heap w !! md = Some m -> client_list_lock w = false ->
  arrays_ok m -> clks_ok m ->
  Forall (fun cl => priv cl <> p) (client_list m) ->
  nvhost_module_remove_client md p w =
  (Ret tt,
   wlog ([ClientListLock; KFree CurHead]
         ++ flat_map (update_rate_events m (client_list m))
              (seq 0 (num_clks m))
         ++ [ClientListUnlock]) w).
Proof.
  intros Hm Hcl Hok Hclk Hno.
  rewrite (nvhost_module_remove_client_run md m p w Hm Hcl Hok Hclk).
  cbv zeta. rewrite (remove_client_loop_no_match _ _ _ Hno). cbn [fst snd].
  f_equal. f_equal. apply wput_id. rewrite Hm. f_equal. by destruct m.
Qed.

(** * The properties *)

(** C1 (as the code has it): [idle(n)] aborts exactly when the count reaches
    zero while [powered] is false.  A subtraction that takes the count below
    zero does not abort: the negative count is stored, no power-down is
    scheduled, and the call returns.  When the count reaches zero on a
    powered module the power-down work is armed. *)
Theorem nvhost_module_idle_mult_abort (md : nat) (refs : Z)
    (m : nvhost_module) (w : world) :
  heap w !! md = Some m -> lock m = false ->
  (fst (nvhost_module_idle_mult md refs w) = Stop Bug <->
   wrap_int (refcount m - refs) = 0 /\ powered m = false) /\
  (int_range (refcount m - refs) -> refcount m - refs < 0 ->
   nvhost_module_idle_mult md refs w =
   (Ret tt,
    wlog [MutexLock md; MutexUnlock md]
      (wput md (set_refcount (refcount m - refs) m) w))) /\
  (wrap_int (refcount m - refs) = 0 -> powered m = true ->
   nvhost_module_idle_mult md refs w =
   (Ret tt,
    wlog (idle_events md m)
      (wput md
         (set_powerdown (armed (msecs_to_jiffies (powerdown_delay (desc m))) m)
            (set_refcount 0 m)) w))).
Proof.
  intros Hm Hl.
  rewrite (nvhost_module_idle_mult_run md refs m w Hm Hl). cbv zeta.
  split; [|split].
  - destruct (Z.eqb_spec (wrap_int (refcount m - refs)) 0) as [Hz|Hz];
      [destruct (powered m)|]; simpl; split; try done.
    + by intros [_ ?].
    + by intros [? _].
  - intros Hr Hneg. rewrite (wrap_int_id _ Hr).
    by destruct (Z.eqb_spec (refcount m - refs) 0); [lia|].
  - intros Hz Hp. by rewrite Hz, Hp.
Qed.

(** C3: a call of [busy] runs the power-up sequence (busy on the parent,
    un-gate, enable the clocks, the finalize-power-on hook, [powered] set)
    exactly when it finds the reference count at 0 and the module without
    power; otherwise it reports only the lock, the cancellation and the busy
    hook.  Once the module is powered, any number of further calls never run
    the sequence or the hook again. *)
Theorem nvhost_module_busy_power_up_once (fuel : nat) (md : nat)
    (l : list nat) (m : nvhost_module) (w : world) :
  chain (heap w) md l -> (length l <= fuel)%nat ->
  heap w !! md = Some m -> int_range (refcount m) ->
  exists w',
    nvhost_module_busy fuel md w = (Ret tt, w') /\
    trace w' =
      trace w ++ busy_entry_events md m
      ++ (if (refcount m =? 0) && negb (powered m)
          then busy_events (heap w) (tail l) ++ power_up_events md m
          else [])
      ++ [MutexUnlock md] /\
    heap w' !! md =
      Some (if (refcount m =? 0) && negb (powered m)
            then set_powered true (busy_counted m)
            else busy_counted m) /\
    (forall a, a ∉ l -> heap w' !! a = heap w !! a) /\
    forall n : nat,
      powered m = true \/ refcount m = 0 ->
      exists w'',
        busy_times n fuel md w' = (Ret tt, w'') /\
        trace w'' =
          trace w'
          ++ concat (replicate n (busy_entry_events md m ++ [MutexUnlock md])).
Proof.
  intros Hc Hf Hm Hr.
  destruct (nvhost_module_busy_chain l md w fuel Hc Hf)
    as (w' & Hrun & _ & Htr & Hfr & Hpost).
  specialize (Hpost m Hm).
  assert (Hl : lock m = false /\ exists l', l = md :: l').
  { inversion Hc as [? m0 Hm0 Hl0 | ? m0 ? ? Hm0 Hl0]; subst;
      rewrite Hm in Hm0; inversion Hm0; subst; eauto. }
  destruct Hl as (Hl & l' & ->).
  assert (Hup : powers_up m = (refcount m =? 0) && negb (powered m)).
  { unfold powers_up. by rewrite wrap_int_inc_is_one. }
  exists w'. split; [done|]. split.
  { rewrite Htr. cbn [busy_events tail]. by rewrite Hm, Hup. }
  split.
  { rewrite Hpost. unfold busy_post. by rewrite Hup. }
  split; [done|].
  intros n Hn.
  destruct fuel as [|fuel]; [simpl in Hf; lia|].
  assert (Hlp : lock (busy_post m) = false).
  { unfold busy_post. by destruct (powers_up m). }
  assert (Hpp : powered (busy_post m) = true).
  { unfold busy_post. rewrite Hup.
    destruct Hn as [Hp|Hz].
    - rewrite Hp. by destruct (refcount m =? 0).
    - rewrite Hz. destruct (powered m) eqn:E; simpl; rewrite ?E; done. }
  destruct (busy_times_nested fuel md n w' (busy_post m) Hpost Hlp Hpp)
    as (w'' & m'' & Hrun' & Htr' & _).
  exists w''. split; [done|]. rewrite Htr'.
  unfold busy_post. by destruct (powers_up m).
Qed.

(** C4 (as the code has it): the deferred power-down callback calls
    [idle] on the parent before it releases the child's mutex, and [busy]
    calls [busy] on the parent under the child's mutex as well.  The parent's
    mutex is therefore taken while the child's is held; when the callback
    returns, the parent's mutex has been released before the child's. *)
Theorem parent_lock_taken_under_child_lock (fuel : nat) (md p : nat)
    (l : list nat) (m : nvhost_module) (w : world) :
  chain (heap w) md l -> (length l <= fuel)%nat ->
  heap w !! md = Some m -> parent m = Some p ->
  (refcount m = 0 -> powered m = true ->
   prepare_poweroff_refuses m (trace w ++ [MutexLock md]) = false ->
   exists o w' rest,
     powerdown_handler md w = (o, w') /\
     trace w' =
       trace w ++ poweroff_events md m (trace w) ++ MutexLock p :: rest /\
     locks_after [] (poweroff_events md m (trace w) ++ [MutexLock p])
       = [p; md] /\
     (o = Ret tt ->
      exists mid tl, rest = mid ++ MutexUnlock p :: tl ++ [MutexUnlock md]))
  /\
  (powers_up m = true ->
   exists w' rest,
     nvhost_module_busy fuel md w = (Ret tt, w') /\
     trace w' = trace w ++ busy_entry_events md m ++ MutexLock p :: rest /\
     locks_after [] (busy_entry_events md m ++ [MutexLock p]) = [p; md]).
Proof.
  intros Hc Hf Hm Hp.
  destruct (chain_inv _ _ _ _ Hc Hm) as (Hl & Hok & l' & -> & Hni & Hcp).
  specialize (Hcp p Hp).
  destruct (chain_head _ _ _ Hcp) as (mp & l'' & -> & Hmp & Hlp).
  assert (Hne : md <> p).
  { intros ->. apply Hni, list_elem_of_here. }
  split.
  - intros Hr Hpw Hacc.
    rewrite (powerdown_handler_run md m w Hm Hl Hok), Hr, Hpw, Hacc.
    simpl andb. cbv iota.
    set (m1 := set_powered false (set_lock true m)).
    set (w1 := wlog (poweroff_events md m (trace w)) (wput md m1 w)).
    assert (Hp1 : heap w1 !! p = Some mp).
    { unfold w1. cbn [heap wlog wput]. by rewrite lookup_insert_ne. }
    unfold powerdown_tail. rewrite Hp. unfold nvhost_module_idle.
    pose proof (nvhost_module_idle_mult_run p 1 mp w1 Hp1 Hlp) as Hrun.
    cbv zeta in Hrun.
    assert (Hlocks :
              locks_after [] (poweroff_events md m (trace w) ++ [MutexLock p])
              = [p; md]).
    { by rewrite locks_after_app, locks_after_poweroff_events. }
    assert (Hunlock : forall mp' evs,
               mutex_unlock md (wlog evs (wput p mp' w1)) =
               (Ret tt, wlog [MutexUnlock md]
                          (wput md (set_lock false m1)
                             (wlog evs (wput p mp' w1))))).
    { intros mp' evs. apply mutex_unlock_run.
      cbn [heap wlog wput]. rewrite lookup_insert_ne by done.
      apply lookup_insert_eq. }
    destruct (wrap_int (refcount mp - 1) =? 0); [destruct (powered mp)|].
    + rewrite (bind_run _ _ _ _ _ Hrun), Hunlock.
      eexists _, _, _. split; [reflexivity|].
      split.
      { unfold w1, idle_events. cbn [trace wlog wput].
        rewrite <- !app_assoc. reflexivity. }
      split; [done|]. intros _.
      exists [ScheduleDelayedWork p
                (msecs_to_jiffies (powerdown_delay (desc mp)))].
      exists (WakeUp p :: (if idle (desc mp) then [HookIdle p] else [])).
      reflexivity.
    + rewrite (bind_stop _ _ _ _ _ Hrun).
      eexists _, _, []. split; [reflexivity|].
      split; [unfold w1; cbn [trace wlog wput]; by rewrite <- !app_assoc|].
      split; [done|]. discriminate.
    + rewrite (bind_run _ _ _ _ _ Hrun), Hunlock.
      eexists _, _, _. split; [reflexivity|].
      split.
      { unfold w1. cbn [trace wlog wput].
        rewrite <- !app_assoc. reflexivity. }
      split; [done|]. intros _. by exists [], [].
  - intros Hup.
    destruct (nvhost_module_busy_chain _ md w fuel Hc Hf)
      as (w' & Hrun & _ & Htr & _).
    exists w'. eexists. split; [done|]. split.
    + rewrite Htr. cbn [busy_events]. rewrite Hm, Hup, Hmp.
      unfold busy_entry_events at 2. rewrite <- !app_assoc. reflexivity.
    + by rewrite locks_after_app, locks_after_busy_entry_events.
Qed.

(** C5 (as the code has it): [set_rate] hands to the clock of its index, and
    [remove_client] of a registered token hands to the clock of every index,
    the largest current vote for that index, or the rounded default rate when
    that largest vote is zero (no client, or only zero votes); removing the
    only client therefore applies the rounded default.  [add_client] applies
    no rate at all. *)
Theorem registry_applied_rate (md : nat) (m : nvhost_module) (p : Z)
    (w : world) :
  heap w !! md = Some m -> client_list_lock w = false ->
  arrays_ok m -> clks_ok m ->
  (forall (r : Z) (idx : nat) (c : Z),
     clk m !! idx = Some c -> c <> 0 ->
     let l' :=
       cast_vote (client_list m) p idx (wrap_ulong (clk_round_rate c r)) in
     exists res w',
       nvhost_module_set_rate md p r (Z.of_nat idx) w = (Ret res, w') /\
       heap w' !! md = Some (set_client_list l' m) /\
       trace w' =
         trace w ++ [ClientListLock; ClkSetRate c (effective_rate m l' idx c);
                     ClientListUnlock] /\
       applied_rate (trace w') c = Some (effective_rate m l' idx c))
  /\
  (Exists (fun cl => priv cl = p) (client_list m) ->
   let l' := fst (remove_client_loop (client_list m) p 0) in
   exists w' i,
     nvhost_module_remove_client md p w = (Ret tt, w') /\
     heap w' !! md = Some (set_client_list l' m) /\
     trace w' =
       trace w ++ [ClientListLock; KFree (CurEntry i)]
       ++ flat_map (update_rate_events m l') (seq 0 (num_clks m))
       ++ [ClientListUnlock])
  /\
  (forall cl, client_list m = [cl] -> priv cl = p ->
     fst (remove_client_loop (client_list m) p 0) = [] /\
     forall idx c, effective_rate m [] idx c = rounded_default m idx c)
  /\
  (length (clk m) = NVHOST_MODULE_MAX_CLOCKS ->
   exists res w',
     nvhost_module_add_client md p w = (Ret res, w') /\
     (trace w' = trace w \/
      trace w' = trace w ++ [ClientListLock; ClientListUnlock])).
Proof.
  intros Hm Hcl Hok Hclk. split; [|split; [|split]].
  - intros r idx c Hc Hnz l'.
    rewrite (nvhost_module_set_rate_run md m p r idx c w Hm Hcl Hok Hc).
    cbv zeta. fold l'. rewrite (proj2 (Z.eqb_neq c 0) Hnz).
    eexists _, _. split; [reflexivity|].
    split; [apply heap_wput_eq|]. split; [reflexivity|].
    cbn [trace wlog wput].
    change [ClientListLock; ClkSetRate c (effective_rate m l' idx c);
            ClientListUnlock]
      with ([ClientListLock]
            ++ ClkSetRate c (effective_rate m l' idx c) :: [ClientListUnlock]).
    rewrite app_assoc. by apply applied_rate_last.
  - intros Hex l'.
    rewrite (nvhost_module_remove_client_run md m p w Hm Hcl Hok Hclk).
    cbv zeta. fold l'.
    destruct (remove_client_loop_match _ _ Hex 0%nat) as [i Hi].
    rewrite Hi. eexists _, i. split; [reflexivity|].
    split; [apply heap_wput_eq|]. reflexivity.
  - intros cl Hone Hp. split; [|reflexivity].
    rewrite Hone. simpl. by rewrite Hp, Z.eqb_refl.
  - intros Hmax.
    pose proof (nvhost_module_add_client_run md m p w Hm Hcl Hok Hclk Hmax)
      as Hrun.
    destruct (kzalloc (trace w)).
    + destruct Hrun as (rs & _ & Hrun). rewrite Hrun.
      eexists _, _. split; [reflexivity|]. by right.
    + rewrite Hrun. eexists _, _. split; [reflexivity|]. by left.
Qed.

(** C6: a run of the deferred power-down callback with reference count 0
    and power on, in which the prepare-power-off hook reports that the module
    is still busy, re-arms the work with the configured delay and returns;
    no clock is disabled, no domain gated, and [powered] stays set.  When the
    hook refuses exactly [k] times, the first [k] expiries of the timer each
    re-arm the work and leave the module as it was, and the next one takes
    the power away: [k] reschedules in all. *)
Theorem powerdown_handler_retry (md : nat) (m : nvhost_module) (w : world)
    (hook : list event -> Z) :
  heap w !! md = Some m -> lock m = false -> clks_ok m ->
  refcount m = 0 -> powered m = true ->
  prepare_poweroff (desc m) = Some hook ->
  (hook (trace w ++ [MutexLock md]) <> 0 ->
   powerdown_handler md w =
   (Ret tt,
    wlog [MutexLock md;
          HookPreparePoweroff md (hook (trace w ++ [MutexLock md]));
          MutexUnlock md;
          ScheduleDelayedWork md (msecs_to_jiffies (powerdown_delay (desc m)))]
      (wput md
         (set_powerdown
            (armed (msecs_to_jiffies (powerdown_delay (desc m))) m) m) w)))
  /\
  forall k : nat,
    powerdown m = Some (msecs_to_jiffies (powerdown_delay (desc m))) ->
    (forall tr, hook tr <> 0 <-> (asked md tr < asked md (trace w) + k)%nat) ->
    (forall i, (i <= k)%nat ->
       exists wi evs,
         timer_fires i md w = (Ret tt, wi) /\
         heap wi = heap w /\
         reschedules md (trace wi) = (reschedules md (trace w) + i)%nat /\
         trace wi = trace w ++ evs /\
         Forall (fun e => forall c id, e <> ClkDisable c /\ e <> Powergate id)
           evs)
    /\
    exists o w' m' pre post,
      timer_fires (S k) md w = (o, w') /\
      heap w' !! md = Some m' /\ powered m' = false /\
      reschedules md (trace w') = (reschedules md (trace w) + k)%nat /\
      trace w' =
        pre ++ map ClkDisable (clks m) ++ powergate_events (desc m) ++ post.
Proof.
  intros Hm Hl Hok Hr Hp Hh. split.
  - intros Hv.
    rewrite (powerdown_handler_run md m w Hm Hl Hok), Hr, Hp. simpl andb.
    cbv iota. unfold prepare_poweroff_refuses, retry_events,
      prepare_poweroff_events, powerdown_jiffies.
    rewrite Hh. by rewrite (proj2 (Z.eqb_neq _ _) Hv).
  - intros k Hd Hhook. split.
    + intros i Hi.
      destruct (timer_fires_refused md m hook i w) as
        (wi & Hrun & Hhp & _ & _ & Hres & evs & Htr & Hev); try done.
      { intros tr Hlt. apply Hhook. lia. }
      by exists wi, evs.
    + destruct (timer_fires_refused md m hook k w) as
        (wk & Hrun & Hhp & _ & Hask & Hres & evs & Htr & _); try done.
      { intros tr Hlt. by apply Hhook. }
      assert (Hmk : heap wk !! md = Some m) by (by rewrite Hhp).
      assert (Hacc : prepare_poweroff_refuses m (trace wk ++ [MutexLock md])
                     = false).
      { unfold prepare_poweroff_refuses. rewrite Hh.
        apply negb_false_iff, Z.eqb_eq.
        destruct (Z.eq_dec (hook (trace wk ++ [MutexLock md])) 0) as [|Hne];
          [done|].
        apply Hhook in Hne. unfold asked in *.
        rewrite count_events_app in Hne. simpl in Hne. lia. }
      rewrite (timer_fires_S_r _ _ _ _ Hrun).
      rewrite (timer_fn_accepted md m wk _ Hmk Hl Hok Hr Hp Hd Hacc).
      set (m1 := set_powered false (set_lock true (set_powerdown None m))).
      set (w1 := wlog (poweroff_events md m (trace wk)) (wput md m1 wk)).
      destruct (powerdown_tail_frame md m m1 w1) as
        (o & w2 & tevs & m2 & Htail & Httr & Htres & Hm2 & Hp2 & _);
        [apply heap_wput_eq | done |].
      exists o, w2, m2.
      exists (trace wk ++ [MutexLock md]
                ++ prepare_poweroff_events md m (trace wk ++ [MutexLock md])),
        tevs.
      split; [done|]. split; [done|]. split; [done|]. split.
      * rewrite Httr. unfold w1. cbn [trace wlog wput].
        unfold reschedules in *. rewrite !count_events_app.
        fold (reschedules md (poweroff_events md m (trace wk))).
        rewrite reschedules_poweroff_events, Hres, Htres. lia.
      * rewrite Httr. unfold w1, poweroff_events. cbn [trace wlog wput].
        by rewrite <- !app_assoc.
Qed.

(** C7: when the deferred power-down callback finds the reference count
    different from zero, or the module already without power, it only takes
    and releases the module's mutex: no hook is invoked, no clock disabled,
    no domain gated, the parent is not idled, and the memory is unchanged. *)
Theorem powerdown_handler_noop (md : nat) (m : nvhost_module) (w : world) :
  heap w !! md = Some m -> lock m = false ->
  refcount m <> 0 \/ powered m = false ->
  exists w',
    powerdown_handler md w = (Ret tt, w') /\
    heap w' = heap w /\
    client_list_lock w' = client_list_lock w /\
    trace w' = trace w ++ [MutexLock md; MutexUnlock md].
Proof.
  intros Hm Hl Hc.
  exists (wlog [MutexLock md; MutexUnlock md] w). split; [|done].
  apply (powerdown_handler_skip md m w Hm Hl).
  destruct Hc as [Hc|Hc].
  - by apply andb_false_intro1, Z.eqb_neq.
  - by apply andb_false_intro2.
Qed.

(** C8: [suspend] on a module whose reference count is 0 and whose [powered]
    flag is false returns: the prepare-power-off hook is not invoked, no
    clock is disabled, no domain is gated, and the final [BUG_ON] does not
    fire.  Only a still pending power-down work is flushed away. *)
Theorem nvhost_module_suspend_when_off (md : nat) (m : nvhost_module)
    (system_suspend : bool) (w : world) :
  heap w !! md = Some m -> lock m = false ->
  refcount m = 0 -> powered m = false ->
  exists w' evs,
    nvhost_module_suspend md system_suspend w = (Ret tt, w') /\
    trace w' = trace w ++ evs /\
    Forall (fun e => is_power_off e = false) evs /\
    heap w' = <[md := set_powerdown None m]> (heap w).
Proof.
  intros Hm Hl Hr Hp.
  rewrite (nvhost_module_suspend_off_run md m system_suspend w Hm Hl Hr Hp).
  eexists _, _. split; [reflexivity|]. split; [reflexivity|].
  split; [apply no_power_off_suspend_off_events|reflexivity].
Qed.

(** C9 (as the code has it): [get_rate] on an index whose clock pointer is
    null or an error returns [-EINVAL] and changes nothing.  Otherwise it
    calls [busy], samples the rate, calls [idle], and returns 0 with the
    sampled rate; the reference count is the same after as before.  The
    module is powered while the rate is sampled provided the count was 0 or
    the module was powered when the call was made. *)
Theorem nvhost_module_get_rate_spec (fuel : nat) (md : nat) (l : list nat)
    (m : nvhost_module) (w : world) (idx : Z) (c : Z) :
  chain (heap w) md l -> (length l <= fuel)%nat ->
  heap w !! md = Some m -> int_range (refcount m) ->
  0 <= idx -> clk m !! Z.to_nat idx = Some c ->
  (IS_ERR_OR_NULL c = true ->
   nvhost_module_get_rate fuel md idx w = (Ret (- EINVAL, None), w)) /\
  (IS_ERR_OR_NULL c = false ->
   exists w1 w' m1 m' evs,
     nvhost_module_busy fuel md w = (Ret tt, w1) /\
     heap w1 !! md = Some m1 /\
     refcount m1 = wrap_int (refcount m + 1) /\
     (refcount m = 0 \/ powered m = true -> powered m1 = true) /\
     nvhost_module_get_rate fuel md idx w =
       (Ret (0, Some (clk_get_rate (trace w1) c)), w') /\
     trace w' = trace w1 ++ ClkGetRate c (clk_get_rate (trace w1) c) :: evs /\
     heap w' !! md = Some m' /\
     refcount m' = refcount m /\ powered m' = powered m1).
Proof.
  intros Hc Hf Hm Hr Hidx Hclk.
  assert (Hstart : forall k : Z -> M (Z * option Z),
             bind (load md) (fun m0 => bind (index (clk m0) idx) k) w = k c w).
  { intros k. rewrite (bind_run _ _ _ _ _ (load_run _ _ _ Hm)).
    by rewrite (bind_run _ _ _ _ _ (index_Z_run _ _ _ w Hidx Hclk)). }
  unfold nvhost_module_get_rate. rewrite Hstart. split.
  - by intros ->.
  - intros ->.
    destruct (nvhost_module_busy_chain l md w fuel Hc Hf)
      as (w1 & Hrun & _ & _ & _ & Hpost).
    specialize (Hpost m Hm).
    assert (Hl : lock m = false).
    { inversion Hc as [? m0 Hm0 Hl0 | ? m0 ? ? Hm0 Hl0]; subst;
        rewrite Hm in Hm0; by inversion Hm0; subst. }
    assert (Hup : powers_up m = (refcount m =? 0) && negb (powered m)).
    { unfold powers_up. by rewrite wrap_int_inc_is_one. }
    assert (Hcnt : refcount (busy_post m) = wrap_int (refcount m + 1)).
    { unfold busy_post. by destruct (powers_up m). }
    assert (Hlp : lock (busy_post m) = false).
    { unfold busy_post. by destruct (powers_up m). }
    assert (Hpw : refcount m = 0 -> powered (busy_post m) = true).
    { intros Hz. unfold busy_post. rewrite Hup, Hz.
      destruct (powered m) eqn:E; simpl; rewrite ?E; done. }
    set (r := clk_get_rate (trace w1) c).
    set (w2 := wlog [ClkGetRate c r] w1).
    assert (H2 : heap w2 !! md = Some (busy_post m)) by exact Hpost.
    pose proof (nvhost_module_idle_mult_run md 1 (busy_post m) w2 H2 Hlp)
      as Hidle.
    cbv zeta in Hidle. rewrite Hcnt, (wrap_int_inc_dec _ Hr) in Hidle.
    rewrite (bind_run _ _ _ _ _ Hrun).
    erewrite bind_run by reflexivity.
    erewrite bind_run by reflexivity. fold r. fold w2.
    unfold nvhost_module_idle.
    destruct (Z.eqb_spec (refcount m) 0) as [Hz|Hnz].
    + rewrite (Hpw Hz) in Hidle.
      rewrite (bind_run _ _ _ _ _ Hidle).
      exists w1. eexists _, (busy_post m), _, (idle_events md (busy_post m)).
      split; [done|]. split; [done|]. split; [done|].
      split; [by intros _; apply Hpw|].
      split; [reflexivity|].
      split; [unfold w2; cbn [trace wlog wput]; by rewrite <- app_assoc|].
      split; [apply heap_wput_eq|]. done.
    + rewrite (bind_run _ _ _ _ _ Hidle).
      exists w1. eexists _, (busy_post m), _, [MutexLock md; MutexUnlock md].
      split; [done|]. split; [done|]. split; [done|].
      split.
      { intros [Hz|Hp]; [done|]. unfold busy_post, powers_up.
        rewrite Hp, andb_false_r. exact Hp. }
      split; [reflexivity|].
      split; [unfold w2; cbn [trace wlog wput]; by rewrite <- app_assoc|].
      split; [apply heap_wput_eq|]. done.
Qed.

(** C10: [set_rate] on a clock index whose clock pointer is null returns
    [-EINVAL]; no rate is handed to the clock framework. *)
Theorem nvhost_module_set_rate_no_clock (md : nat) (m : nvhost_module)
    (p r : Z) (idx : Z) (w : world) :
  heap w !! md = Some m -> client_list_lock w = false -> arrays_ok m ->
  0 <= idx -> clk m !! Z.to_nat idx = Some 0 ->
  exists w',
    nvhost_module_set_rate md p r idx w = (Ret (- EINVAL), w') /\
    trace w' = trace w ++ [ClientListLock; ClientListUnlock].
Proof.
  intros Hm Hcl Hok Hidx Hc.
  rewrite <- (Z2Nat.id idx) by done.
  rewrite (nvhost_module_set_rate_run md m p r _ 0 w Hm Hcl Hok Hc).
  cbv zeta. simpl (0 =? 0). cbv iota. eexists. split; reflexivity.
Qed.

(** * Further properties *)

(** ** Busy, idle and the power-down work together *)

Lemma busy_times_count (fuel : nat) (md : nat) (n : nat) :
  forall (w : world) (m : nvhost_module),
    heap w !! md = Some m -> lock m = false -> powered m = true ->
    0 <= refcount m -> refcount m + Z.of_nat n < 2 ^ 31 ->
    exists w',
      busy_times n (S fuel) md w = (Ret tt, w') /\
      client_list_lock w' = client_list_lock w /\
      heap w' = <[md := busy_n n m]> (heap w).
Proof.
  induction n as [|n IH]; intros w m Hm Hl Hp H0 Hmax.
  - exists w. simpl. by rewrite insert_id.
  - assert (Hup : powers_up m = false).
    { unfold powers_up. rewrite Hp. apply andb_false_r. }
    assert (Hcnt : busy_counted m =
                   set_refcount (refcount m + 1) (set_powerdown None m)).
    { unfold busy_counted. rewrite wrap_int_id; [done|].
      unfold int_range. lia. }
    destruct (IH (wlog (busy_entry_events md m ++ [MutexUnlock md])
                    (wput md (busy_counted m) w)) (busy_counted m))
      as (w' & Hrun & Hcl & Hh);
      [apply heap_wput_eq | done | done | rewrite Hcnt; simpl; lia
      | rewrite Hcnt; simpl; lia |].
    exists w'. split.
    { change (busy_times (S n) (S fuel) md w)
        with (bind (nvhost_module_busy (S fuel) md)
                (fun _ => busy_times n (S fuel) md) w).
      by rewrite (bind_run _ _ _ _ _
                    (nvhost_module_busy_nested fuel md m w Hm Hl Hup)). }
    split; [done|].
    rewrite Hh. cbn [heap wlog wput]. rewrite insert_insert_eq. f_equal.
    rewrite Hcnt. destruct n as [|n]; [simpl; f_equal; lia|].
    unfold busy_n. cbn [refcount set_refcount set_powerdown].
    replace (refcount m + 1 + Z.of_nat (S n))
      with (refcount m + Z.of_nat (S (S n))) by lia.
    reflexivity.
Qed.

(** The timer of the power-down work expires on a module without parent
    whose hook lets the power go. *)
Lemma timer_fn_powers_off (md : nat) (m : nvhost_module) (w : world) (d : Z) :
  heap w !! md = Some m -> lock m = false -> clks_ok m ->
  refcount m = 0 -> powered m = true -> powerdown m = Some d ->
  parent m = None ->
  prepare_poweroff_refuses m (trace w ++ [MutexLock md]) = false ->
  delayed_work_timer_fn md w =
  (Ret tt,
   wlog (poweroff_events md m (trace w) ++ [MutexUnlock md])
     (wput md (set_powered false (set_powerdown None m)) w)).
Proof.
  intros Hm Hl Hok Hr Hp Hd Hpar Hacc.
  rewrite (timer_fn_accepted md m w d Hm Hl Hok Hr Hp Hd Hacc).
  unfold powerdown_tail. rewrite Hpar.
  erewrite bind_run by reflexivity.
  erewrite mutex_unlock_run by apply heap_wput_eq.
  f_equal. rewrite wput_wlog, wput_wput, wlog_wlog. f_equal. f_equal.
  destruct m; simpl in *; by subst.
Qed.

(** X1: after [n >= 1] calls of [busy], one [idle_mult (n)] gives all the
    references back: it never aborts, the count is what it was, the module
    is powered, and the power-down work is armed with the configured delay
    exactly when the count is back at zero. *)
Theorem busy_times_then_idle_mult (fuel : nat) (md : nat) (l : list nat)
    (m : nvhost_module) (w : world) (n : nat) :
  chain (heap w) md l -> (length l <= fuel)%nat ->
  heap w !! md = Some m ->
  0 <= refcount m -> refcount m + Z.of_nat (S n) < 2 ^ 31 ->
  refcount m = 0 \/ powered m = true ->
  exists w' m',
    (busy_times (S n) fuel md ;;;
     nvhost_module_idle_mult md (Z.of_nat (S n))) w = (Ret tt, w') /\
    heap w' !! md = Some m' /\
    refcount m' = refcount m /\ powered m' = true /\ lock m' = false /\
    powerdown m' =
      (if refcount m =? 0
       then Some (msecs_to_jiffies (powerdown_delay (desc m)))
       else None).
Proof.
  intros Hc Hf Hm H0 Hmax Hst.
  destruct (chain_inv _ _ _ _ Hc Hm) as (Hl & _ & l' & -> & _).
  destruct fuel as [|fuel]; [simpl in Hf; lia|].
  destruct (nvhost_module_busy_chain _ md w (S fuel) Hc Hf)
    as (w1 & Hrun1 & _ & _ & _ & Hpost).
  specialize (Hpost m Hm).
  assert (Hr : int_range (refcount m)) by (unfold int_range; lia).
  assert (Hup : powers_up m = (refcount m =? 0) && negb (powered m)).
  { unfold powers_up. by rewrite wrap_int_inc_is_one. }
  assert (Hbp : busy_post m =
                set_powered true
                  (set_refcount (refcount m + 1) (set_powerdown None m))).
  { unfold busy_post, busy_counted. rewrite Hup.
    rewrite wrap_int_id by (unfold int_range; lia).
    destruct Hst as [Hz|Hp].
    - rewrite Hz. destruct (powered m) eqn:E; simpl; [|done].
      destruct m; simpl in *; by subst.
    - rewrite Hp, andb_false_r. destruct m; simpl in *; by subst. }
  rewrite Hbp in Hpost.
  set (m1 := set_powered true _) in Hpost.
  destruct (busy_times_count fuel md n w1 m1 Hpost)
    as (w2 & Hrun2 & _ & Hh2); try done.
  { simpl. lia. }
  { simpl. lia. }
  assert (Hall : busy_times (S n) (S fuel) md w = (Ret tt, w2)).
  { change (busy_times (S n) (S fuel) md w)
      with (bind (nvhost_module_busy (S fuel) md)
              (fun _ => busy_times n (S fuel) md) w).
    by rewrite (bind_run _ _ _ _ _ Hrun1). }
  rewrite (bind_run _ _ _ _ _ Hall).
  assert (H2 : heap w2 !! md = Some (busy_n n m1)).
  { rewrite Hh2. apply lookup_insert_eq. }
  assert (Hl2 : lock (busy_n n m1) = false) by (by destruct n).
  assert (Hp2 : powered (busy_n n m1) = true) by (by destruct n).
  assert (Hd2 : powerdown (busy_n n m1) = None) by (by destruct n).
  assert (Hc2 : refcount (busy_n n m1) = refcount m + Z.of_nat (S n)).
  { destruct n; simpl; lia. }
  rewrite (nvhost_module_idle_mult_run md _ _ w2 H2 Hl2). cbv zeta.
  rewrite Hc2, Hp2.
  replace (refcount m + Z.of_nat (S n) - Z.of_nat (S n)) with (refcount m)
    by lia.
  rewrite (wrap_int_id _ Hr).
  destruct (refcount m =? 0) eqn:Hz.
  - eexists _, _. split; [reflexivity|].
    split; [apply heap_wput_eq|].
    apply Z.eqb_eq in Hz.
    cbn [refcount powered lock powerdown set_powerdown set_refcount].
    unfold armed. rewrite Hd2, Hp2, Hl2.
    repeat split; try done. by destruct n.
  - eexists _, _. split; [reflexivity|].
    split; [apply heap_wput_eq|].
    cbn [refcount powered lock powerdown set_powerdown set_refcount].
    by rewrite Hd2, Hp2, Hl2.
Qed.

(** X2: a [busy] made while the power-down work is pending cancels it: the
    power-up sequence is not run again, and when the timer would have expired
    nothing happens, so the power stays on. *)
Theorem busy_cancels_pending_powerdown (fuel : nat) (md : nat)
    (m : nvhost_module) (w : world) (d : Z) :
  heap w !! md = Some m -> lock m = false ->
  powered m = true -> powerdown m = Some d ->
  exists w',
    nvhost_module_busy (S fuel) md w = (Ret tt, w') /\
    trace w' = trace w ++ busy_entry_events md m ++ [MutexUnlock md] /\
    heap w' = <[md := busy_counted m]> (heap w) /\
    delayed_work_timer_fn md w' = (Ret tt, w').
Proof.
  intros Hm Hl Hp Hd.
  assert (Hup : powers_up m = false).
  { unfold powers_up. rewrite Hp. apply andb_false_r. }
  rewrite (nvhost_module_busy_nested fuel md m w Hm Hl Hup).
  eexists. split; [reflexivity|]. split; [reflexivity|].
  split; [reflexivity|].
  unfold delayed_work_timer_fn.
  erewrite bind_run by (apply load_run, heap_wput_eq).
  reflexivity.
Qed.

(** X3: on a module without parent that is off, [busy], [idle] and one
    expiry of the timer (the hook not refusing) bring the memory back to
    what it was: the count is 0 again, the power is off, nothing is pending.
    In between, every clock was enabled and then disabled, and the domains
    un-gated and then gated. *)
Theorem power_cycle_restores_memory (fuel : nat) (md : nat)
    (m : nvhost_module) (w : world) :
  heap w !! md = Some m -> lock m = false -> clks_ok m ->
  refcount m = 0 -> powered m = false -> powerdown m = None ->
  parent m = None ->
  (forall tr, prepare_poweroff_refuses m tr = false) ->
  exists w' tr1,
    (nvhost_module_busy (S fuel) md ;;;
     nvhost_module_idle_mult md 1 ;;;
     delayed_work_timer_fn md) w = (Ret tt, w') /\
    heap w' = heap w /\
    client_list_lock w' = client_list_lock w /\
    tr1 = trace w ++ busy_entry_events md m ++ power_up_events md m
          ++ [MutexUnlock md] ++ idle_events md m /\
    trace w' = tr1 ++ poweroff_events md m tr1 ++ [MutexUnlock md].
Proof.
  intros Hm Hl Hok Hr Hp Hd Hpar Hhook.
  assert (Hup : powers_up m = true).
  { unfold powers_up. by rewrite Hr, Hp. }
  set (w0 := wlog (busy_entry_events md m)
               (wput md (set_lock true (busy_counted m)) w)).
  assert (Hcall : busy_parent_call fuel m w0 = (Ret tt, w0)).
  { unfold busy_parent_call. by rewrite Hpar. }
  pose proof (nvhost_module_busy_power_up fuel md m w w0 Hm Hl Hok Hup Hcall
                (heap_wput_eq _ _ _)) as Hbusy.
  rewrite (bind_run _ _ _ _ _ Hbusy).
  set (m1 := set_powered true (busy_counted m)).
  set (w1 := wlog (power_up_events md m ++ [MutexUnlock md]) (wput md m1 w0)).
  assert (H1 : heap w1 !! md = Some m1) by apply heap_wput_eq.
  pose proof (nvhost_module_idle_mult_run md 1 m1 w1 H1 Hl) as Hidle.
  cbv zeta in Hidle.
  assert (Hc1 : wrap_int (refcount m1 - 1) = 0).
  { unfold m1, busy_counted. simpl. by rewrite Hr. }
  rewrite Hc1 in Hidle. simpl in Hidle.
  rewrite (bind_run _ _ _ _ _ Hidle).
  set (m2 := set_powerdown _ (set_refcount 0 m1)).
  set (w2 := wlog (idle_events md m1) (wput md m2 w1)).
  assert (H2 : heap w2 !! md = Some m2) by apply heap_wput_eq.
  assert (Hd2 : powerdown m2
                = Some (msecs_to_jiffies (powerdown_delay (desc m)))).
  { unfold m2, armed, m1, busy_counted. reflexivity. }
  rewrite (timer_fn_powers_off md m2 w2 _ H2 Hl Hok eq_refl eq_refl Hd2 Hpar
             (Hhook _)).
  eexists _, _. split; [reflexivity|].
  split.
  { cbn [heap wlog wput w2 w1 w0]. unfold w2, w1, w0. cbn [heap wlog wput].
    rewrite !insert_insert_eq. apply insert_id. rewrite Hm. f_equal.
    destruct m; simpl in *; by subst. }
  split; [reflexivity|]. split; [reflexivity|].
  unfold w2, w1, w0. cbn [trace wlog wput].
  rewrite <- !app_assoc. reflexivity.
Qed.

(** ** Propagation to the parent *)

(** X4: a [busy] on a child takes exactly one reference on its parent when
    it powers the child up (the parent itself being powered up if it was
    off), and leaves the parent alone when the child is already counted or
    powered. *)
Theorem child_power_up_takes_parent_reference (fuel : nat) (md p : nat)
    (l : list nat) (m mp : nvhost_module) (w : world) :
  chain (heap w) md l -> (length l <= fuel)%nat ->
  heap w !! md = Some m -> int_range (refcount m) ->
  parent m = Some p -> heap w !! p = Some mp ->
  exists w',
    nvhost_module_busy fuel md w = (Ret tt, w') /\
    heap w' !! p =
      Some (if (refcount m =? 0) && negb (powered m)
            then busy_post mp else mp).
Proof.
  intros Hc Hf Hm Hr Hp Hmp.
  destruct (chain_inv _ _ _ _ Hc Hm) as (Hl & Hok & l' & -> & Hni & Hcp).
  specialize (Hcp p Hp).
  destruct (chain_head _ _ _ Hcp) as (mp' & l'' & -> & Hmp' & Hlp).
  assert (Hne : md <> p).
  { intros ->. apply Hni, list_elem_of_here. }
  destruct fuel as [|fuel]; [simpl in Hf; lia|].
  assert (Hup : powers_up m = (refcount m =? 0) && negb (powered m)).
  { unfold powers_up. by rewrite wrap_int_inc_is_one. }
  rewrite <- Hup.
  destruct (powers_up m) eqn:Hpu.
  - set (w0 := wlog (busy_entry_events md m)
                 (wput md (set_lock true (busy_counted m)) w)).
    assert (Hc0 : chain (heap w0) p (p :: l'')).
    { apply (chain_frame (heap w)); [done|].
      intros a Ha. simpl. apply lookup_insert_ne. intros ->. by apply Hni. }
    destruct (nvhost_module_busy_chain _ p w0 fuel Hc0)
      as (w2 & Hrun & _ & _ & Hfr & Hpost); [simpl in *; lia|].
    assert (Hp0 : heap w0 !! p = Some mp).
    { simpl. by rewrite lookup_insert_ne. }
    specialize (Hpost mp Hp0).
    assert (H2 : heap w2 !! md = Some (set_lock true (busy_counted m))).
    { rewrite Hfr by done. apply heap_wput_eq. }
    assert (Hcall : busy_parent_call fuel m w0 = (Ret tt, w2)).
    { unfold busy_parent_call. by rewrite Hp. }
    rewrite (nvhost_module_busy_power_up fuel md m w w2 Hm Hl Hok Hpu Hcall H2).
    eexists. split; [reflexivity|].
    cbn [heap wlog wput]. by rewrite lookup_insert_ne.
  - rewrite (nvhost_module_busy_nested fuel md m w Hm Hl Hpu).
    eexists. split; [reflexivity|].
    cbn [heap wlog wput]. by rewrite lookup_insert_ne.
Qed.

(** The module after [nvhost_module_idle_mult] has returned. *)
Lemma nvhost_module_idle_mult_frame (md a : nat) (refs : Z)
    (m : nvhost_module) (w : world) :
  heap w !! md = Some m -> lock m = false -> a <> md ->
  heap (snd (nvhost_module_idle_mult md refs w)) !! a = heap w !! a.
Proof.
  intros Hm Hl Hne.
  rewrite (nvhost_module_idle_mult_run md refs m w Hm Hl). cbv zeta.
  destruct (wrap_int (refcount m - refs) =? 0); [destruct (powered m)|];
    cbn [snd heap wlog wput]; by rewrite lookup_insert_ne.
Qed.

(** X5: a child that reaches count zero does not give the parent's
    reference back by itself: [idle] changes nothing outside its own module.
    The reference is given back by the power-down callback, once, when the
    power-off completes: the parent's count drops by one and, if that makes
    the parent idle, the parent's own power-down work is armed.  If the
    parent would reach zero without power, the callback aborts with the
    child's mutex still held. *)
Theorem power_off_gives_parent_reference_back (md p : nat)
    (m mp : nvhost_module) (w : world) (refs : Z) :
  heap w !! md = Some m -> lock m = false -> clks_ok m ->
  parent m = Some p -> p <> md ->
  heap w !! p = Some mp -> lock mp = false ->
  heap (snd (nvhost_module_idle_mult md refs w)) !! p = Some mp /\
  (refcount m = 0 -> powered m = true ->
   prepare_poweroff_refuses m (trace w ++ [MutexLock md]) = false ->
   let r := wrap_int (refcount mp - 1) in
   exists o w',
     powerdown_handler md w = (o, w') /\
     if (r =? 0) && negb (powered mp) then
       o = Stop Bug /\
       heap w' !! md = Some (set_powered false (set_lock true m))
     else
       o = Ret tt /\
       heap w' !! md = Some (set_powered false m) /\
       heap w' !! p =
         Some (if r =? 0
               then set_powerdown
                      (armed (msecs_to_jiffies (powerdown_delay (desc mp))) mp)
                      (set_refcount r mp)
               else set_refcount r mp)).
Proof.
  intros Hm Hl Hok Hp Hne Hmp Hlp. split.
  { rewrite (nvhost_module_idle_mult_frame md p refs m w Hm Hl Hne). done. }
  intros Hr Hpw Hacc r.
  rewrite (powerdown_handler_run md m w Hm Hl Hok), Hr, Hpw, Hacc.
  simpl andb. cbv iota.
  set (m1 := set_powered false (set_lock true m)).
  set (w1 := wlog (poweroff_events md m (trace w)) (wput md m1 w)).
  assert (Hp1 : heap w1 !! p = Some mp).
  { unfold w1. cbn [heap wlog wput]. by rewrite lookup_insert_ne. }
  unfold powerdown_tail. rewrite Hp. unfold nvhost_module_idle.
  pose proof (nvhost_module_idle_mult_run p 1 mp w1 Hp1 Hlp) as Hrun.
  cbv zeta in Hrun. fold r in Hrun.
  assert (Hunlock : forall mp' evs,
             mutex_unlock md (wlog evs (wput p mp' w1)) =
             (Ret tt, wlog [MutexUnlock md]
                        (wput md (set_lock false m1)
                           (wlog evs (wput p mp' w1))))).
  { intros mp' evs. apply mutex_unlock_run.
    cbn [heap wlog wput]. rewrite lookup_insert_ne by done.
    apply lookup_insert_eq. }
  assert (Hm1 : set_lock false m1 = set_powered false m).
  { unfold m1. destruct m; simpl in *; by subst. }
  destruct (r =? 0); [destruct (powered mp)|]; simpl andb; cbv iota.
  - rewrite (bind_run _ _ _ _ _ Hrun), Hunlock.
    eexists _, _. split; [reflexivity|]. split; [done|].
    split.
    + cbn [heap wlog wput]. rewrite lookup_insert_eq. by rewrite Hm1.
    + cbn [heap wlog wput]. rewrite lookup_insert_ne by done.
      apply lookup_insert_eq.
  - rewrite (bind_stop _ _ _ _ _ Hrun).
    eexists _, _. split; [reflexivity|]. split; [done|].
    cbn [heap wlog wput]. rewrite lookup_insert_ne by done.
    apply lookup_insert_eq.
  - rewrite (bind_run _ _ _ _ _ Hrun), Hunlock.
    eexists _, _. split; [reflexivity|]. split; [done|].
    split.
    + cbn [heap wlog wput]. rewrite lookup_insert_eq. by rewrite Hm1.
    + cbn [heap wlog wput]. rewrite lookup_insert_ne by done.
      apply lookup_insert_eq.
Qed.

(** ** The states of the power coordinator *)


(** ** Suspend on a module that is not off *)

Lemma nvhost_module_suspend_wait (md : nat) (m : nvhost_module)
    (system_suspend : bool) (w : world) :
  heap w !! md = Some m -> lock m = false ->
  nvhost_module_suspend md system_suspend w =
  suspend_finish md (wlog (suspend_wait_events md m system_suspend) w).
Proof.
  intros Hm Hl. unfold nvhost_module_suspend, suspend_wait_events.
  set (e1 := if refcount m =? 0
             then (if system_suspend then [MutexLock md; MutexUnlock md] else [])
             else (if system_suspend
                   then [MutexLock md; MutexUnlock md; DebugNotIdle] else [])).
  assert (H1 : when system_suspend
                 (let* i := is_module_idle md in
                  when (negb i) (emit DebugNotIdle)) w =
               (Ret tt, wlog e1 w)).
  { unfold when, e1. destruct system_suspend.
    - rewrite (bind_run _ _ _ _ _ (is_module_idle_run _ _ _ Hm Hl)).
      destruct (refcount m =? 0); simpl; [done|].
      unfold emit. by rewrite wlog_wlog.
    - destruct (refcount m =? 0); by rewrite wlog_nil. }
  rewrite (bind_run _ _ _ _ _ H1).
  set (e2 := if refcount m =? 0 then [MutexLock md; MutexUnlock md]
             else [MutexLock md; MutexUnlock md; MutexLock md; MutexUnlock md]).
  assert (H2 : wait_event_timeout_idle md ACM_SUSPEND_WAIT_FOR_IDLE_TIMEOUT
                 (wlog e1 w) =
               (Ret (if refcount m =? 0
                     then ACM_SUSPEND_WAIT_FOR_IDLE_TIMEOUT else 0),
                wlog e2 (wlog e1 w))).
  { unfold wait_event_timeout_idle, e2.
    erewrite bind_run by (apply is_module_idle_run; [exact Hm | exact Hl]).
    destruct (refcount m =? 0) eqn:E; [done|].
    erewrite bind_run by (apply is_module_idle_run; [exact Hm | exact Hl]).
    rewrite E. unfold ret. by rewrite wlog_wlog. }
  rewrite (bind_run _ _ _ _ _ H2).
  set (r := if refcount m =? 0 then ACM_SUSPEND_WAIT_FOR_IDLE_TIMEOUT else 0).
  set (e3 := if r =? 0 then [DebugDump] else []).
  assert (H3 : when (r =? 0) (emit DebugDump) (wlog e2 (wlog e1 w))
               = (Ret tt, wlog e3 (wlog e2 (wlog e1 w)))).
  { unfold when, e3. destruct (r =? 0); [done|by rewrite wlog_nil]. }
  rewrite (bind_run _ _ _ _ _ H3).
  unfold suspend_finish. f_equal. rewrite !wlog_wlog. f_equal.
  unfold e1, e2, e3, r.
  destruct (refcount m =? 0), system_suspend; simpl;
    rewrite <- ?app_assoc; reflexivity.
Qed.

(** The end of [nvhost_module_suspend] once the flush has left the module
    [m'] behind. *)
Lemma suspend_finish_run (md : nat) (m m' : nvhost_module)
    (w w1 : world) (evs : list event) :
  heap w !! md = Some m ->
  delayed_work_timer_fn md (wlog [FlushDelayedWork md] w)
    = (Ret tt, wlog evs (wput md m' (wlog [FlushDelayedWork md] w))) ->
  desc m' = desc m ->
  suspend_finish md w =
  (if powered m' then Stop Bug else Ret tt,
   wlog ([FlushDelayedWork md] ++ evs ++ suspend_hook_events md m)
     (wput md m' w)).
Proof.
  intros Hm Hflush Hdesc. unfold suspend_finish, flush_delayed_work.
  erewrite bind_run.
  2:{ erewrite bind_run by reflexivity. exact Hflush. }
  erewrite bind_run by (apply load_run, heap_wput_eq).
  set (w2 := wlog evs _).
  assert (Hhook : when (suspend (desc m')) (emit (HookSuspend md)) w2 =
                  (Ret tt, wlog (suspend_hook_events md m) w2)).
  { unfold when, suspend_hook_events, emit, ret. rewrite Hdesc.
    destruct (suspend (desc m)); [done|by rewrite wlog_nil]. }
  rewrite (bind_run _ _ _ _ _ Hhook).
  erewrite bind_run by (apply load_run, heap_wput_eq).
  unfold BUG_ON, halt, ret, w2.
  destruct (powered m'); f_equal;
    unfold wlog, wput; simpl; by rewrite <- ?app_assoc.
Qed.

(** X7: [suspend] on an idle module whose power-down is still pending (no
    parent, the hook not refusing) forces the power-down at once: the clocks
    are disabled and the domains gated before the suspend hook is called,
    nothing is left pending, and the final [BUG_ON] does not fire. *)
Theorem suspend_forces_pending_powerdown (md : nat) (m : nvhost_module)
    (system_suspend : bool) (w : world) (d : Z) :
  heap w !! md = Some m -> lock m = false -> clks_ok m ->
  refcount m = 0 -> powered m = true -> powerdown m = Some d ->
  parent m = None ->
  (forall tr, prepare_poweroff_refuses m tr = false) ->
  exists w' tr1,
    nvhost_module_suspend md system_suspend w = (Ret tt, w') /\
    heap w' = <[md := set_powered false (set_powerdown None m)]> (heap w) /\
    tr1 = trace w ++ suspend_wait_events md m system_suspend
          ++ [FlushDelayedWork md] /\
    trace w' =
      tr1 ++ poweroff_events md m tr1 ++ [MutexUnlock md]
      ++ suspend_hook_events md m.
Proof.
  intros Hm Hl Hok Hr Hp Hd Hpar Hhook.
  rewrite (nvhost_module_suspend_wait md m system_suspend w Hm Hl).
  set (w0 := wlog (suspend_wait_events md m system_suspend) w).
  assert (H0 : heap w0 !! md = Some m) by exact Hm.
  pose proof (timer_fn_powers_off md m (wlog [FlushDelayedWork md] w0) d
                H0 Hl Hok Hr Hp Hd Hpar (Hhook _)) as Hflush.
  rewrite (suspend_finish_run md m _ w0 w0 _ H0 Hflush eq_refl).
  cbn [powered set_powered].
  eexists _, _. split; [reflexivity|]. split; [reflexivity|].
  split; [reflexivity|].
  unfold w0. cbn [trace wlog wput]. rewrite <- !app_assoc. reflexivity.
Qed.

(** X8: when the prepare-power-off hook refuses while [suspend] flushes the
    pending power-down, the work is armed again, the suspend hook is still
    called, and [suspend] ends in [BUG_ON (mod->powered)]. *)
Theorem suspend_aborts_when_hook_refuses (md : nat) (m : nvhost_module)
    (system_suspend : bool) (w : world) (d : Z) :
  heap w !! md = Some m -> lock m = false -> clks_ok m ->
  refcount m = 0 -> powered m = true -> powerdown m = Some d ->
  (forall tr, prepare_poweroff_refuses m tr = true) ->
  exists w' tr1,
    nvhost_module_suspend md system_suspend w = (Stop Bug, w') /\
    heap w' = <[md := set_powerdown (Some (powerdown_jiffies m)) m]> (heap w) /\
    tr1 = trace w ++ suspend_wait_events md m system_suspend
          ++ [FlushDelayedWork md] /\
    trace w' = tr1 ++ retry_events md m tr1 ++ suspend_hook_events md m.
Proof.
  intros Hm Hl Hok Hr Hp Hd Hhook.
  rewrite (nvhost_module_suspend_wait md m system_suspend w Hm Hl).
  set (w0 := wlog (suspend_wait_events md m system_suspend) w).
  assert (H0 : heap w0 !! md = Some m) by exact Hm.
  pose proof (timer_fn_refused md m (wlog [FlushDelayedWork md] w0) d
                H0 Hl Hok Hr Hp Hd (Hhook _)) as Hflush.
  rewrite (suspend_finish_run md m _ w0 w0 _ H0 Hflush eq_refl).
  cbn [powered set_powerdown]. rewrite Hp.
  eexists _, _. split; [reflexivity|]. split; [reflexivity|].
  split; [reflexivity|].
  unfold w0. cbn [trace wlog wput]. rewrite <- !app_assoc. reflexivity.
Qed.

(** [suspend] on a module in use. *)
Lemma nvhost_module_suspend_busy_run (md : nat) (m : nvhost_module)
    (system_suspend : bool) (w : world) :
  heap w !! md = Some m -> lock m = false ->
  refcount m <> 0 -> powered m = true ->
  nvhost_module_suspend md system_suspend w =
  (Stop Bug,
   wlog ((if system_suspend
          then [MutexLock md; MutexUnlock md; DebugNotIdle] else [])
         ++ [MutexLock md; MutexUnlock md; MutexLock md; MutexUnlock md;
             DebugDump; FlushDelayedWork md]
         ++ match powerdown m with
            | Some _ => [MutexLock md; MutexUnlock md]
            | None => []
            end
         ++ suspend_hook_events md m)
     (wput md (set_powerdown None m) w)).
Proof.
  intros Hm Hl Hr Hp.
  rewrite (nvhost_module_suspend_wait md m system_suspend w Hm Hl).
  set (w0 := wlog (suspend_wait_events md m system_suspend) w).
  assert (H0 : heap w0 !! md = Some m) by exact Hm.
  set (e4 := match powerdown m with
             | Some _ => [MutexLock md; MutexUnlock md]
             | None => []
             end).
  assert (Hflush : delayed_work_timer_fn md (wlog [FlushDelayedWork md] w0) =
                   (Ret tt, wlog e4 (wput md (set_powerdown None m)
                                       (wlog [FlushDelayedWork md] w0)))).
  { unfold delayed_work_timer_fn.
    erewrite bind_run by (apply load_run; exact H0). unfold e4.
    destruct (powerdown m) eqn:Hpd.
    - erewrite bind_run by reflexivity.
      erewrite powerdown_handler_skip;
        [reflexivity | apply heap_wput_eq | exact Hl |].
      simpl. by rewrite (proj2 (Z.eqb_neq _ _) Hr).
    - unfold ret. rewrite wlog_nil. f_equal. symmetry. apply wput_id.
      simpl. rewrite Hm. f_equal. destruct m; simpl in *; by subst. }
  rewrite (suspend_finish_run md m _ w0 w0 _ H0 Hflush eq_refl).
  cbn [powered set_powerdown]. rewrite Hp. f_equal.
  unfold w0, suspend_wait_events, wlog, wput. cbn [trace heap client_list_lock].
  rewrite (proj2 (Z.eqb_neq _ _) Hr).
  destruct system_suspend; simpl; rewrite <- ?app_assoc; reflexivity.
Qed.


(** ** Tear-down *)

Lemma nvhost_module_deinit_off_run (md : nat) (m : nvhost_module)
    (w : world) :
  heap w !! md = Some m -> lock m = false -> clks_ok m ->
  refcount m = 0 -> powered m = false ->
  nvhost_module_deinit md w =
  (Ret tt,
   wlog ((if deinit (desc m) then [HookDeinit md] else [])
         ++ suspend_off_events md m false
         ++ map ClkPut (clks m))
     (wput md (set_powerdown None m) w)).
Proof.
  intros Hm Hl Hok Hr Hp.
  set (e0 := if deinit (desc m) then [HookDeinit md] else []).
  assert (Hhook : when (deinit (desc m)) (emit (HookDeinit md)) w =
                  (Ret tt, wlog e0 w)).
  { unfold when, e0, emit, ret.
    destruct (deinit (desc m)); [done|by rewrite wlog_nil]. }
  assert (H0 : heap (wlog e0 w) !! md = Some m) by exact Hm.
  unfold nvhost_module_deinit.
  rewrite (bind_run _ _ _ _ _ (load_run _ _ _ Hm)).
  rewrite (bind_run _ _ _ _ _ Hhook).
  rewrite (bind_run _ _ _ _ _
             (nvhost_module_suspend_off_run md m false _ H0 Hl Hr Hp)).
  erewrite bind_run by (apply load_run, heap_wput_eq).
  cbn [num_clks clk set_powerdown].
  rewrite for_loop_clks by (unfold clks_ok in Hok; lia).
  rewrite drop_0. f_equal. unfold clks, wlog, wput.
  cbn [trace heap client_list_lock]. by rewrite <- !app_assoc.
Qed.

(** X10: [deinit] on a module that is idle and off calls the deinit hook,
    goes through [suspend], and then releases each of the [num_clks] clock
    handles once, in index order.  On a module still in use it ends in the
    [BUG_ON] of [suspend] and no handle is released. *)
Theorem nvhost_module_deinit_releases_clocks (md : nat) (m : nvhost_module)
    (w : world) :
  heap w !! md = Some m -> lock m = false -> clks_ok m ->
  (refcount m = 0 -> powered m = false ->
   nvhost_module_deinit md w =
   (Ret tt,
    wlog ((if deinit (desc m) then [HookDeinit md] else [])
          ++ suspend_off_events md m false
          ++ map ClkPut (clks m))
      (wput md (set_powerdown None m) w)))
  /\
  (refcount m <> 0 -> powered m = true ->
   exists w' evs,
     nvhost_module_deinit md w = (Stop Bug, w') /\
     trace w' = trace w ++ evs /\
     Forall (fun e => forall c, e <> ClkPut c) evs).
Proof.
  intros Hm Hl Hok.
  set (e0 := if deinit (desc m) then [HookDeinit md] else []).
  assert (Hhook : when (deinit (desc m)) (emit (HookDeinit md)) w =
                  (Ret tt, wlog e0 w)).
  { unfold when, e0, emit, ret.
    destruct (deinit (desc m)); [done|by rewrite wlog_nil]. }
  assert (H0 : heap (wlog e0 w) !! md = Some m) by exact Hm.
  split.
  - intros Hr Hp. by apply nvhost_module_deinit_off_run.
  - intros Hr Hp. unfold nvhost_module_deinit.
    rewrite (bind_run _ _ _ _ _ (load_run _ _ _ Hm)).
    rewrite (bind_run _ _ _ _ _ Hhook).
    rewrite (bind_stop _ _ _ _ _
               (nvhost_module_suspend_busy_run md m false _ H0 Hl Hr Hp)).
    eexists _, _. split; [reflexivity|]. split.
    + cbn [trace wlog wput]. rewrite <- app_assoc. reflexivity.
    + unfold e0, suspend_hook_events.
      destruct (deinit (desc m)), (powerdown m), (suspend (desc m)); simpl;
        repeat constructor; discriminate.
Qed.

(** ** More on the client rate registry *)

Lemma add_client_rates_content (m : nvhost_module) (n : nat) :
  forall (from : nat) (rs : list Z) (w : world),
    (from + n <= length (clk m))%nat ->
    length (clocks (desc m)) = length (clk m) ->
    length rs = length (clk m) ->
    exists rs',
      add_client_rates m from n rs w = (Ret rs', w) /\
      length rs' = length (clk m) /\
      forall i,
        rs' !! i =
        if decide (from <= i < from + n)%nat then Some (default_vote m i)
        else rs !! i.
Proof.
  induction n as [|n IH]; intros from rs w Hlen Hck Hrs; simpl.
  - exists rs. split; [done|]. split; [done|].
    intros i. destruct (decide _); [lia|done].
  - destruct (lookup_lt_is_Some_2 (clk m) from) as [c Hc]; [lia|].
    destruct (lookup_lt_is_Some_2 (clocks (desc m)) from) as [ck Hk]; [lia|].
    destruct (lookup_lt_is_Some_2 rs from) as [v Hv]; [lia|].
    rewrite (bind_run _ _ _ _ _ (index_run _ _ _ w Hc)).
    rewrite (bind_run _ _ _ _ _ (index_run _ _ _ w Hk)).
    unfold write_index.
    rewrite (bind_run _ _ _ _ _
               (bind_run _ _ _ _ _ (index_run _ _ _ w Hv))).
    rewrite Nat2Z.id.
    set (v' := wrap_ulong (clk_round_rate c (default_rate ck))).
    destruct (IH (S from) (<[from := v']> rs) w) as (rs' & Hrun & Hl' & Hi);
      [lia | done | by rewrite length_insert |].
    exists rs'. split; [done|]. split; [done|].
    intros i. rewrite Hi.
    destruct (decide (S from <= i < S from + n)%nat) as [Hin|Hout].
    + destruct (decide _); [done|lia].
    + destruct (decide (i = from)) as [->|Hne].
      * destruct (decide _); [|lia].
        rewrite list_lookup_insert_eq by lia.
        unfold default_vote, rounded_default. by rewrite Hc, Hk.
      * destruct (decide _); [lia|].
        by rewrite list_lookup_insert_ne.
Qed.

(** X11: [add_client] appends one record at the tail of the client list,
    with a vote for each of the [num_clks] clocks equal to that clock's
    rounded default rate and zero in the unused slots; no rate is applied.
    When the allocation fails it returns [-ENOMEM] and changes nothing. *)
Theorem nvhost_module_add_client_votes (md : nat) (m : nvhost_module)
    (p : Z) (w : world) :
  heap w !! md = Some m -> client_list_lock w = false ->
  arrays_ok m -> clks_ok m ->
  length (clk m) = NVHOST_MODULE_MAX_CLOCKS ->
  (kzalloc (trace w) = false ->
   nvhost_module_add_client md p w = (Ret (- ENOMEM), w))
  /\
  (kzalloc (trace w) = true ->
   exists rs,
     nvhost_module_add_client md p w =
     (Ret 0,
      wlog [ClientListLock; ClientListUnlock]
        (wput md
           (set_client_list (client_list m ++ [{| rate := rs; priv := p |}]) m)
           w)) /\
     length rs = NVHOST_MODULE_MAX_CLOCKS /\
     (forall i, (i < num_clks m)%nat -> rs !! i = Some (default_vote m i)) /\
     (forall i, (num_clks m <= i < NVHOST_MODULE_MAX_CLOCKS)%nat ->
        rs !! i = Some 0)).
Proof.
  intros Hm Hcl [Hck _] Hclk Hmax.
  unfold nvhost_module_add_client.
  erewrite bind_run by reflexivity. split.
  - by intros ->.
  - intros ->. cbn [negb].
    destruct (add_client_rates_content m (num_clks m) 0
                (replicate NVHOST_MODULE_MAX_CLOCKS 0) w)
      as (rs & Hrs & Hlen & Hi);
      [exact Hclk | done | by rewrite length_replicate |].
    exists rs. split; [|split; [congruence|split]].
    + rewrite (bind_run _ _ _ _ _ (load_run _ _ _ Hm)).
      rewrite (bind_run _ _ _ _ _ Hrs).
      rewrite (bind_run _ _ _ _ _ (client_list_mutex_lock_run _ Hcl)).
      erewrite bind_run by (apply load_run; exact Hm).
      erewrite bind_run by reflexivity.
      unfold client_list_mutex_unlock, bind, ret. f_equal.
      unfold wlog, wput, wcll; simpl. rewrite <- ?app_assoc.
      apply world_eq; done.
    + intros i Hlt. rewrite Hi. destruct (decide _); [done|lia].
    + intros i Hge. rewrite Hi. destruct (decide _); [lia|].
      apply lookup_replicate_2. lia.
Qed.

Lemma remove_client_loop_first (l1 l2 : list nvhost_module_client)
    (c : nvhost_module_client) (p : Z) :
  Forall (fun cl => priv cl <> p) l1 -> priv c = p ->
  forall k,
    remove_client_loop (l1 ++ c :: l2) p k =
    (l1 ++ l2, CurEntry (k + length l1)).
Proof.
  intros Hno Hc. induction Hno as [|x l1 Hx _ IH]; intros k; simpl.
  - rewrite Hc, Z.eqb_refl. by rewrite Nat.add_0_r.
  - destruct (Z.eqb_spec p (priv x)) as [Heq|_]; [congruence|].
    rewrite IH. f_equal. f_equal. lia.
Qed.

Lemma nvhost_module_remove_client_first_run (md : nat)
    (m : nvhost_module) (p : Z) (w : world)
    (l1 l2 : list nvhost_module_client) (c : nvhost_module_client) :
  heap w !! md = Some m -> client_list_lock w = false ->
  arrays_ok m -> clks_ok m ->
  client_list m = l1 ++ c :: l2 ->
  Forall (fun cl => priv cl <> p) l1 -> priv c = p ->
  nvhost_module_remove_client md p w =
  (Ret tt,
   wlog ([ClientListLock; KFree (CurEntry (length l1))]
         ++ flat_map (update_rate_events m (l1 ++ l2)) (seq 0 (num_clks m))
         ++ [ClientListUnlock])
     (wput md (set_client_list (l1 ++ l2) m) w)).
Proof.
  intros Hm Hcl Hok Hclk Hlist Hno Hc.
  rewrite (nvhost_module_remove_client_run md m p w Hm Hcl Hok Hclk).
  cbv zeta. by rewrite Hlist, (remove_client_loop_first l1 l2 c p Hno Hc).
Qed.

(** X12: [remove_client] erases the first record whose token matches and
    no other: the records before and after it, also later records carrying
    the same token, stay in their order; that record is freed and every clock
    index is recomputed from the records that remain. *)
Theorem nvhost_module_remove_client_first_match (md : nat)
    (m : nvhost_module) (p : Z) (w : world)
    (l1 l2 : list nvhost_module_client) (c : nvhost_module_client) :
  heap w !! md = Some m -> client_list_lock w = false ->
  arrays_ok m -> clks_ok m ->
  client_list m = l1 ++ c :: l2 ->
  Forall (fun cl => priv cl <> p) l1 -> priv c = p ->
  nvhost_module_remove_client md p w =
  (Ret tt,
   wlog ([ClientListLock; KFree (CurEntry (length l1))]
         ++ flat_map (update_rate_events m (l1 ++ l2)) (seq 0 (num_clks m))
         ++ [ClientListUnlock])
     (wput md (set_client_list (l1 ++ l2) m) w)).
Proof.
  intros Hm Hcl Hok Hclk Hlist Hno Hc.
  exact (nvhost_module_remove_client_first_run md m p w l1 l2 c
           Hm Hcl Hok Hclk Hlist Hno Hc).
Qed.

(** X13: registering a token that was not registered and removing it again
    leaves the memory as it was; the removal frees the record that was
    appended and recomputes every clock index from the old records. *)
Theorem add_then_remove_client_restores (md : nat) (m : nvhost_module)
    (p : Z) (w : world) :
  heap w !! md = Some m -> client_list_lock w = false ->
  arrays_ok m -> clks_ok m ->
  length (clk m) = NVHOST_MODULE_MAX_CLOCKS ->
  kzalloc (trace w) = true ->
  Forall (fun cl => priv cl <> p) (client_list m) ->
  exists w',
    (nvhost_module_add_client md p ;;;
     nvhost_module_remove_client md p) w = (Ret tt, w') /\
    heap w' = heap w /\
    client_list_lock w' = client_list_lock w /\
    trace w' =
      trace w
      ++ [ClientListLock; ClientListUnlock;
          ClientListLock; KFree (CurEntry (length (client_list m)))]
      ++ flat_map (update_rate_events m (client_list m)) (seq 0 (num_clks m))
      ++ [ClientListUnlock].
Proof.
  intros Hm Hcl Hok Hclk Hmax Hk Hno.
  pose proof (nvhost_module_add_client_run md m p w Hm Hcl Hok Hclk Hmax)
    as Hadd.
  rewrite Hk in Hadd. destruct Hadd as (rs & Hlen & Hadd).
  rewrite (bind_run _ _ _ _ _ Hadd).
  set (c := {| rate := rs; priv := p |}).
  set (m1 := set_client_list (client_list m ++ [c]) m).
  set (w1 := wlog [ClientListLock; ClientListUnlock] (wput md m1 w)).
  assert (H1 : heap w1 !! md = Some m1) by apply heap_wput_eq.
  assert (Hok1 : arrays_ok m1).
  { destruct Hok as [Hck Hall]. split; [exact Hck|].
    unfold m1. cbn [client_list clk set_client_list].
    apply Forall_app. split; [done|].
    constructor; [|constructor]. simpl. congruence. }
  rewrite (nvhost_module_remove_client_first_run md m1 p w1 (client_list m) []
             c H1 Hcl Hok1 Hclk eq_refl Hno eq_refl).
  eexists. split; [reflexivity|].
  rewrite app_nil_r.
  split.
  { unfold w1. cbn [heap wlog wput]. rewrite insert_insert_eq.
    apply insert_id. rewrite Hm. f_equal. unfold m1.
    destruct m; reflexivity. }
  split; [reflexivity|].
  unfold w1. cbn [trace wlog wput]. rewrite <- !app_assoc. reflexivity.
Qed.

Lemma cast_vote_no_match (l : list nvhost_module_client) (p : Z) (idx : nat)
    (v : Z) :
  Forall (fun cl => priv cl <> p) l -> cast_vote l p idx v = l.
Proof.
  induction 1 as [|x l Hx _ IH]; simpl; [done|].
  destruct (Z.eqb_spec (priv x) p); [done|]. by rewrite IH.
Qed.

Lemma cast_vote_first (l1 l2 : list nvhost_module_client)
    (c : nvhost_module_client) (p : Z) (idx : nat) (v : Z) :
  Forall (fun cl => priv cl <> p) l1 -> priv c = p ->
  cast_vote (l1 ++ c :: l2) p idx v =
  l1 ++ set_rate_entry c (<[idx := v]> (rate c)) :: l2.
Proof.
  intros Hno Hc. induction Hno as [|x l1 Hx _ IH]; simpl.
  - by rewrite Hc, Z.eqb_refl.
  - destruct (Z.eqb_spec (priv x) p); [done|]. by rewrite IH.
Qed.

(** [set_rate] with a token that matches no record changes no vote and
    leaves the memory as it was, and still applies to the clock of the index
    the rate computed from the existing votes. *)
Theorem nvhost_module_set_rate_unknown_token (md : nat) (m : nvhost_module)
    (p r : Z) (idx : nat) (c : Z) (w : world) :
  heap w !! md = Some m -> client_list_lock w = false -> arrays_ok m ->
  clk m !! idx = Some c -> c <> 0 ->
  Forall (fun cl => priv cl <> p) (client_list m) ->
  nvhost_module_set_rate md p r (Z.of_nat idx) w =
  (Ret (clk_set_rate (trace w ++ [ClientListLock]) c
          (effective_rate m (client_list m) idx c)),
   wlog [ClientListLock;
         ClkSetRate c (effective_rate m (client_list m) idx c);
         ClientListUnlock] w).
Proof.
  intros Hm Hcl Hok Hc Hnz Hno.
  rewrite (nvhost_module_set_rate_run md m p r idx c w Hm Hcl Hok Hc).
  cbv zeta. rewrite (cast_vote_no_match _ _ _ _ Hno).
  rewrite (proj2 (Z.eqb_neq c 0) Hnz). f_equal. f_equal.
  apply wput_id. rewrite Hm. f_equal. by destruct m.
Qed.

(** X14: [set_rate] with a registered token writes the rounded rate into
    the vote for that index of the first record carrying the token, and into
    nothing else: the other votes of that record, the other records and their
    order are unchanged.  This vote is also written when the index has no
    clock and the call returns [-EINVAL]. *)
Theorem nvhost_module_set_rate_stores_vote (md : nat) (m : nvhost_module)
    (p r : Z) (idx : nat) (c : Z) (w : world)
    (l1 l2 : list nvhost_module_client) (cl : nvhost_module_client) :
  heap w !! md = Some m -> client_list_lock w = false -> arrays_ok m ->
  clk m !! idx = Some c ->
  client_list m = l1 ++ cl :: l2 ->
  Forall (fun x => priv x <> p) l1 -> priv cl = p ->
  exists res w' cl',
    nvhost_module_set_rate md p r (Z.of_nat idx) w = (Ret res, w') /\
    heap w' = <[md := set_client_list (l1 ++ cl' :: l2) m]> (heap w) /\
    priv cl' = p /\
    vote cl' idx = wrap_ulong (clk_round_rate c r) /\
    (forall j, j <> idx -> vote cl' j = vote cl j) /\
    (c = 0 -> res = - EINVAL).
Proof.
  intros Hm Hcl Hok Hc Hlist Hno Hp.
  rewrite (nvhost_module_set_rate_run md m p r idx c w Hm Hcl Hok Hc).
  cbv zeta. rewrite Hlist, (cast_vote_first l1 l2 cl p idx _ Hno Hp).
  set (v := wrap_ulong (clk_round_rate c r)).
  assert (Hlt : (idx < length (rate cl))%nat).
  { destruct Hok as [_ Hall]. rewrite Hlist in Hall.
    apply Forall_app in Hall as [_ Hall]. inversion Hall as [|? ? Hcl' _].
    rewrite Hcl'. by apply lookup_lt_Some in Hc. }
  assert (Hvote : vote (set_rate_entry cl (<[idx := v]> (rate cl))) idx = v).
  { unfold vote. simpl. by rewrite list_lookup_insert_eq. }
  assert (Hother : forall j, j <> idx ->
            vote (set_rate_entry cl (<[idx := v]> (rate cl))) j = vote cl j).
  { intros j Hj. unfold vote. simpl. by rewrite list_lookup_insert_ne. }
  destruct (Z.eqb_spec c 0) as [Hz|Hnz].
  - eexists _, _, _. split; [reflexivity|]. by repeat split.
  - eexists _, _, _. split; [reflexivity|]. by repeat split.
Qed.

Lemma fold_max_vote_ge_acc (l : list nvhost_module_client) (idx : nat)
    (acc : Z) :
  acc <= fold_left (fun a c => Z.max (vote c idx) a) l acc.
Proof.
  revert acc. induction l as [|c l IH]; intros acc; simpl; [lia|].
  specialize (IH (Z.max (vote c idx) acc)). lia.
Qed.

Lemma fold_max_vote_ge (l : list nvhost_module_client) (idx : nat) (acc : Z)
    (c : nvhost_module_client) :
  c ∈ l -> vote c idx <= fold_left (fun a c => Z.max (vote c idx) a) l acc.
Proof.
  revert acc. induction l as [|x l IH]; intros acc Hin; simpl.
  - by apply not_elem_of_nil in Hin.
  - apply elem_of_cons in Hin as [->|Hin].
    + pose proof (fold_max_vote_ge_acc l idx (Z.max (vote x idx) acc)). lia.
    + by apply IH.
Qed.

Lemma fold_max_vote_attained (l : list nvhost_module_client) (idx : nat)
    (acc : Z) :
  fold_left (fun a c => Z.max (vote c idx) a) l acc = acc \/
  exists c, c ∈ l /\
    fold_left (fun a c => Z.max (vote c idx) a) l acc = vote c idx.
Proof.
  revert acc. induction l as [|x l IH]; intros acc; simpl; [by left|].
  destruct (IH (Z.max (vote x idx) acc)) as [Heq|(c & Hin & Heq)].
  - rewrite Heq. destruct (Z.max_spec (vote x idx) acc) as [[_ ->]|[_ ->]].
    + by left.
    + right. exists x. split; [apply list_elem_of_here|done].
  - right. exists c. split; [by apply list_elem_of_further|done].
Qed.

(** X15: the rate that [set_rate] applies is never below the vote of any
    registered client for that index (votes being unsigned); when some vote
    is not zero it is the vote of one of the clients, otherwise it is the
    rounded default. *)
Theorem nvhost_module_set_rate_covers_votes (md : nat) (m : nvhost_module)
    (p r : Z) (idx : nat) (c : Z) (w : world) :
  heap w !! md = Some m -> client_list_lock w = false -> arrays_ok m ->
  clk m !! idx = Some c -> c <> 0 ->
  Forall (fun cl => 0 <= vote cl idx) (client_list m) ->
  exists res w' m' applied,
    nvhost_module_set_rate md p r (Z.of_nat idx) w = (Ret res, w') /\
    heap w' !! md = Some m' /\
    trace w' =
      trace w ++ [ClientListLock; ClkSetRate c applied; ClientListUnlock] /\
    (forall cl, cl ∈ client_list m' -> vote cl idx <= applied) /\
    ((exists cl, cl ∈ client_list m' /\ vote cl idx <> 0) ->
     exists cl, cl ∈ client_list m' /\ applied = vote cl idx) /\
    ((forall cl, cl ∈ client_list m' -> vote cl idx = 0) ->
     applied = rounded_default m idx c).
Proof.
  intros Hm Hcl Hok Hc Hnz Hpos.
  rewrite (nvhost_module_set_rate_run md m p r idx c w Hm Hcl Hok Hc).
  cbv zeta. rewrite (proj2 (Z.eqb_neq c 0) Hnz).
  set (v := wrap_ulong (clk_round_rate c r)).
  set (l' := cast_vote (client_list m) p idx v).
  assert (Hv : 0 <= v).
  { unfold v, wrap_ulong. apply Z.mod_pos_bound. lia. }
  assert (Hpos' : Forall (fun cl => 0 <= vote cl idx) l').
  { unfold l'. destruct Hok as [_ Hall].
    assert (Hlt : (idx < length (clk m))%nat) by (by apply lookup_lt_Some in Hc).
    revert Hall. induction Hpos as [|x l Hx Hl IH]; intros Hall; simpl.
    - constructor.
    - inversion Hall as [|? ? Hxl Hall']; subst.
      destruct (priv x =? p).
      + constructor; [|done]. unfold vote. simpl.
        rewrite list_lookup_insert_eq by lia. exact Hv.
      + constructor; [done|]. by apply IH. }
  assert (Hdef : 0 <= rounded_default m idx c).
  { unfold rounded_default. destruct (clocks (desc m) !! idx); [|lia].
    unfold wrap_ulong. apply Z.mod_pos_bound. lia. }
  eexists _, _, (set_client_list l' m), (effective_rate m l' idx c).
  split; [reflexivity|]. split; [apply heap_wput_eq|].
  split; [reflexivity|].
  cbn [client_list set_client_list].
  unfold effective_rate, max_vote.
  set (mx := fold_left (fun a cl => Z.max (vote cl idx) a) l' 0).
  assert (Hge : forall cl, cl ∈ l' -> vote cl idx <= mx).
  { intros cl Hin. by apply fold_max_vote_ge. }
  split; [|split].
  - intros cl Hin. specialize (Hge cl Hin).
    destruct (Z.eqb_spec mx 0) as [Hz|_]; [|done].
    rewrite Hz in Hge. lia.
  - intros (cl & Hin & Hne).
    assert (Hmx : mx <> 0).
    { specialize (Hge cl Hin).
      pose proof (proj1 (Forall_forall _ _) Hpos' cl Hin) as H0.
      simpl in H0. lia. }
    rewrite (proj2 (Z.eqb_neq mx 0) Hmx).
    destruct (fold_max_vote_attained l' idx 0) as [Heq|(x & Hx & Heq)].
    + fold mx in Heq. lia.
    + exists x. by split.
  - intros Hall.
    destruct (fold_max_vote_attained l' idx 0) as [Heq|(x & Hx & Heq)].
    + fold mx in Heq. by rewrite Heq.
    + fold mx in Heq. rewrite Heq, (Hall x Hx). reflexivity.
Qed.

(** ** Rate query and reset *)

(** a rate query on a module that is idle and off is not free of
    effects: it powers the module (and, through [busy], its parents) up,
    samples the rate after the clocks were enabled, and leaves the module
    powered with its power-down work armed at the configured delay. *)
Theorem nvhost_module_get_rate_powers_up (fuel : nat) (md : nat)
    (l : list nat) (m : nvhost_module) (w : world) (idx : nat) (c : Z) :
  chain (heap w) md l -> (length l <= fuel)%nat ->
  heap w !! md = Some m ->
  refcount m = 0 -> powered m = false ->
  clk m !! idx = Some c -> IS_ERR_OR_NULL c = false ->
  exists w' tr1,
    tr1 = trace w ++ busy_entry_events md m
          ++ busy_events (heap w) (tail l) ++ power_up_events md m
          ++ [MutexUnlock md] /\
    nvhost_module_get_rate fuel md (Z.of_nat idx) w =
      (Ret (0, Some (clk_get_rate tr1 c)), w') /\
    trace w' = tr1 ++ ClkGetRate c (clk_get_rate tr1 c) :: idle_events md m /\
    heap w' !! md =
      Some (set_powerdown
              (Some (msecs_to_jiffies (powerdown_delay (desc m))))
              (set_powered true m)).
Proof.
  intros Hc Hf Hm Hr Hp Hclk Herr.
  destruct (chain_inv _ _ _ _ Hc Hm) as (Hl & _ & l' & -> & _).
  destruct (nvhost_module_busy_chain _ md w fuel Hc Hf)
    as (w1 & Hrun & _ & Htr & _ & Hpost).
  specialize (Hpost m Hm).
  assert (Hup : powers_up m = true).
  { unfold powers_up. by rewrite Hr, Hp. }
  unfold busy_post in Hpost. rewrite Hup in Hpost.
  unfold nvhost_module_get_rate.
  rewrite (bind_run _ _ _ _ _ (load_run _ _ _ Hm)).
  rewrite (bind_run _ _ _ _ _ (index_run _ _ _ w Hclk)), Herr.
  rewrite (bind_run _ _ _ _ _ Hrun).
  erewrite bind_run by reflexivity.
  erewrite bind_run by reflexivity.
  set (m1 := set_powered true (busy_counted m)) in *.
  set (w2 := wlog _ w1).
  assert (H2 : heap w2 !! md = Some m1) by exact Hpost.
  pose proof (nvhost_module_idle_mult_run md 1 m1 w2 H2 Hl) as Hidle.
  cbv zeta in Hidle.
  assert (Hc1 : wrap_int (refcount m1 - 1) = 0).
  { unfold m1, busy_counted. simpl. by rewrite Hr. }
  rewrite Hc1 in Hidle. simpl in Hidle.
  unfold nvhost_module_idle. rewrite (bind_run _ _ _ _ _ Hidle).
  assert (Htr1 : trace w1 =
                 trace w ++ busy_entry_events md m
                 ++ busy_events (heap w) l' ++ power_up_events md m
                 ++ [MutexUnlock md]).
  { rewrite Htr. cbn [busy_events]. rewrite Hm, Hup.
    by rewrite <- !app_assoc. }
  eexists _, _. split; [reflexivity|]. cbn [tail].
  rewrite <- Htr1. split; [reflexivity|]. split.
  - unfold w2. cbn [trace wlog wput]. by rewrite <- app_assoc.
  - cbn [heap wlog wput]. rewrite lookup_insert_eq. f_equal.
    unfold m1, armed, busy_counted. destruct m; simpl in *; by subst.
Qed.




(** ** Initialisation *)

Lemma set_clk_id (m : nvhost_module) : set_clk (clk m) m = m.
Proof. by destruct m. Qed.

Lemma write_index_run {A} (l : list A) (i : nat) (x v : A) (w : world) :
  l !! i = Some x ->
  write_index l (Z.of_nat i) v w = (Ret (<[i := v]> l), w).
Proof.
  intros H. unfold write_index.
  rewrite (bind_run _ _ _ _ _ (index_run _ _ _ w H)).
  by rewrite Nat2Z.id.
Qed.

Lemma named_clocks_drop (n i : nat) (l : list nvhost_clock) (ck : nvhost_clock) :
  l !! i = Some ck ->
  named_clocks (S n) (drop i l) =
  if name_is_null (clock_name ck) then []
  else ck :: named_clocks n (drop (S i) l).
Proof. intros H. by rewrite (drop_S _ _ _ H). Qed.

Lemma init_clocks_run (md : nat) (nm : string) (d : nvhost_moduledesc)
    (n : nat) :
  forall (i : nat) (m : nvhost_module) (w : world),
    heap w !! md = Some m ->
    (i + length (named_clocks n (drop i (clocks d))) < length (clocks d))%nat ->
    (i + n <= length (clk m))%nat ->
    Forall (fun ck => IS_ERR_OR_NULL (init_handle nm ck) = false)
      (named_clocks n (drop i (clocks d))) ->
    exists w',
      init_clocks n md nm d i w =
        (Ret (i + length (named_clocks n (drop i (clocks d))))%nat, w') /\
      heap w' =
        <[md := set_clk
                  (take i (clk m)
                   ++ map (init_handle nm) (named_clocks n (drop i (clocks d)))
                   ++ drop (i + length (named_clocks n (drop i (clocks d))))
                        (clk m)) m]> (heap w) /\
      client_list_lock w' = client_list_lock w /\
      trace w' =
        trace w
        ++ flat_map (init_clock_events nm) (named_clocks n (drop i (clocks d))).
Proof.
  induction n as [|n IH]; intros i m w Hm Hterm Hlen Hok.
  - destruct (lookup_lt_is_Some_2 (clocks d) i) as [ck Hck]; [lia|].
    exists w. cbn [init_clocks named_clocks length flat_map map].
    rewrite (bind_run _ _ _ _ _ (index_run _ _ _ w Hck)).
    rewrite Nat.add_0_r, app_nil_r. cbn [app].
    rewrite take_drop, set_clk_id, insert_id by done. done.
  - destruct (lookup_lt_is_Some_2 (clocks d) i) as [ck Hck]; [lia|].
    rewrite (named_clocks_drop n i _ ck Hck) in *.
    cbn [init_clocks].
    rewrite (bind_run _ _ _ _ _ (index_run _ _ _ w Hck)).
    destruct (name_is_null (clock_name ck)) eqn:Hnull.
    { exists w. cbn [length flat_map map].
      rewrite Nat.add_0_r, app_nil_r. cbn [app].
      rewrite take_drop, set_clk_id, insert_id by done. done. }
    cbn [length] in Hterm.
    apply Forall_cons in Hok as [Hc Hok].
    destruct (lookup_lt_is_Some_2 (clk m) i) as [c0 Hc0]; [lia|].
    rewrite (bind_run _ _ _ _ _ (load_run _ _ _ Hm)).
    rewrite (bind_run _ _ _ _ _ (write_index_run _ _ _ _ w Hc0)).
    unfold store at 1. cbn [bind].
    fold (init_handle nm ck). rewrite Hc.
    unfold BUG_ON, emit, ret. cbn [bind].
    set (m1 := set_clk (<[i := init_handle nm ck]> (clk m)) m).
    set (w1 := wlog _ (wlog _ (wlog _ (wput md m1 w)))).
    assert (H1 : heap w1 !! md = Some m1) by apply lookup_insert_eq.
    destruct (IH (S i) m1 w1 H1) as (w' & Hrun & Hheap & Hcll & Htr).
    + lia.
    + unfold m1. cbn [clk set_clk]. rewrite length_insert. lia.
    + exact Hok.
    + exists w'. split; [|split; [|split]].
      * rewrite Hrun. do 2 f_equal. cbn [length]. lia.
      * rewrite Hheap. unfold w1. cbn [heap wlog wput].
        rewrite insert_insert_eq. f_equal.
        unfold m1. cbn [clk set_clk length map].
        assert (Hi : (i < length (clk m))%nat) by lia.
        rewrite (take_S_r _ _ (init_handle nm ck))
          by (by apply list_lookup_insert_eq).
        rewrite take_insert_ge by lia.
        rewrite drop_insert_lt by lia.
        rewrite <- app_assoc. cbn [app].
        replace (i + S (length (named_clocks n (drop (S i) (clocks d)))))%nat
          with (S i + length (named_clocks n (drop (S i) (clocks d))))%nat
          by lia.
        by destruct m.
      * by rewrite Hcll.
      * rewrite Htr. unfold w1. cbn [trace wlog wput flat_map].
        unfold init_clock_events at 2. rewrite <- !app_assoc. reflexivity.
Qed.

Lemma init_unpowergate_run (d : nvhost_moduledesc) (w : world) :
  when (negb (can_powergate d))
    (when (negb (fst (powergate_ids d) =? -1))
       (emit (Unpowergate (fst (powergate_ids d)))) ;;;
     when (negb (snd (powergate_ids d) =? -1))
       (emit (Unpowergate (snd (powergate_ids d))))) w =
  (Ret tt, wlog (init_unpowergate_events d) w).
Proof.
  unfold init_unpowergate_events, when, emit, ret, bind.
  destruct (can_powergate d), (fst (powergate_ids d) =? -1),
    (snd (powergate_ids d) =? -1); cbn [negb];
    rewrite ?wlog_wlog, ?wlog_nil; reflexivity.
Qed.

Lemma nvhost_module_init_run (md : nat) (nm : string) (d : nvhost_moduledesc)
    (par : option nat) (init : option (nat -> M unit)) (m : nvhost_module)
    (w : world) :
  heap w !! md = Some m ->
  length (clk m) = NVHOST_MODULE_MAX_CLOCKS ->
  (length (named_clocks NVHOST_MODULE_MAX_CLOCKS (clocks d))
   < length (clocks d))%nat ->
  Forall (fun ck => IS_ERR_OR_NULL (init_handle nm ck) = false)
    (named_clocks NVHOST_MODULE_MAX_CLOCKS (clocks d)) ->
  nvhost_module_init md nm d par init w =
  (match init with
   | Some hook => hook md
   | None => ret tt
   end ;;; ret 0)
    (wlog (flat_map (init_clock_events nm)
             (named_clocks NVHOST_MODULE_MAX_CLOCKS (clocks d))
           ++ init_unpowergate_events d)
       (wput md (initialised nm d par m) w)).
Proof.
  intros Hm Hlen Hterm Hok. unfold nvhost_module_init.
  rewrite (bind_run _ _ _ _ _ (modify_run _ _ _ _ Hm)).
  destruct (init_clocks_run md nm d NVHOST_MODULE_MAX_CLOCKS 0
              (init_head nm m) (wput md (init_head nm m) w))
    as (w1 & Hrun & Hheap & Hcll & Htr).
  - apply heap_wput_eq.
  - by rewrite drop_0.
  - cbn [clk init_head]. lia.
  - by rewrite drop_0.
  - rewrite drop_0 in *. cbn [Nat.add take app] in *.
    rewrite (bind_run _ _ _ _ _ Hrun).
    assert (H1 : heap w1 !! md =
                 Some (set_clk
                         (map (init_handle nm)
                            (named_clocks NVHOST_MODULE_MAX_CLOCKS (clocks d))
                          ++ drop
                               (length
                                  (named_clocks NVHOST_MODULE_MAX_CLOCKS
                                     (clocks d)))
                               (clk (init_head nm m)))
                         (init_head nm m))).
    { rewrite Hheap. apply lookup_insert_eq. }
    rewrite (bind_run _ _ _ _ _ (modify_run _ _ _ _ H1)).
    rewrite (bind_run _ _ _ _ _ (init_unpowergate_run d _)).
    f_equal. destruct w1 as [h1 c1 t1]. cbn [heap client_list_lock trace] in *.
    subst h1 c1 t1. unfold wlog, wput. cbn [heap client_list_lock trace].
    apply world_eq; [|done|by rewrite <- app_assoc].
    by rewrite !insert_insert_eq.
Qed.

Lemma named_clocks_cons_inv (n : nat) (l : list nvhost_clock)
    (ck : nvhost_clock) (rest : list nvhost_clock) :
  named_clocks n l = ck :: rest ->
  exists n' l',
    n = S n' /\ l = ck :: l' /\ name_is_null (clock_name ck) = false /\
    rest = named_clocks n' l'.
Proof.
  destruct n as [|n], l as [|a l]; simpl; try discriminate.
  destruct (name_is_null (clock_name a)) eqn:Hnull; [discriminate|].
  intros [= <- <-]. by exists n, l.
Qed.

Lemma lookup_drop_head {A} (l l' : list A) (i : nat) (x : A) :
  drop i l = x :: l' -> l !! i = Some x /\ drop (S i) l = l'.
Proof.
  intros H.
  assert (Hx : l !! i = Some x).
  { rewrite <- (Nat.add_0_r i), <- lookup_drop, H. reflexivity. }
  split; [exact Hx|]. rewrite (drop_S _ _ _ Hx) in H. by injection H.
Qed.

Lemma init_clocks_bug (md : nat) (nm : string) (d : nvhost_moduledesc)
    (l1 : list nvhost_clock) :
  forall (n i : nat) (m : nvhost_module) (w : world) (ck : nvhost_clock)
         (l2 : list nvhost_clock),
    heap w !! md = Some m ->
    named_clocks n (drop i (clocks d)) = l1 ++ ck :: l2 ->
    (i + n <= length (clk m))%nat ->
    Forall (fun ck => IS_ERR_OR_NULL (init_handle nm ck) = false) l1 ->
    IS_ERR_OR_NULL (init_handle nm ck) = true ->
    exists w' cs,
      init_clocks n md nm d i w = (Stop Bug, w') /\
      heap w' = <[md := set_clk cs m]> (heap w) /\
      length cs = length (clk m) /\
      cs !! (i + length l1)%nat = Some (init_handle nm ck) /\
      client_list_lock w' = client_list_lock w /\
      trace w' = trace w ++ flat_map (init_clock_events nm) l1.
Proof.
  induction l1 as [|a l1 IH]; intros n i m w ck l2 Hm Hnamed Hlen Hok Hbad.
  - cbn [app] in Hnamed.
    destruct (named_clocks_cons_inv _ _ _ _ Hnamed)
      as (n' & l' & -> & Hdrop & Hnull & _).
    destruct (lookup_drop_head _ _ _ _ Hdrop) as [Hck _].
    destruct (lookup_lt_is_Some_2 (clk m) i) as [c0 Hc0]; [lia|].
    cbn [init_clocks].
    rewrite (bind_run _ _ _ _ _ (index_run _ _ _ w Hck)), Hnull.
    rewrite (bind_run _ _ _ _ _ (load_run _ _ _ Hm)).
    rewrite (bind_run _ _ _ _ _ (write_index_run _ _ _ _ w Hc0)).
    unfold store at 1. cbn [bind].
    fold (init_handle nm ck). rewrite Hbad.
    unfold BUG_ON, halt. cbn [bind].
    eexists _, _. split; [reflexivity|].
    cbn [heap trace client_list_lock wput length flat_map].
    rewrite Nat.add_0_r, app_nil_r, length_insert.
    repeat split. apply list_lookup_insert_eq. lia.
  - cbn [app] in Hnamed.
    destruct (named_clocks_cons_inv _ _ _ _ Hnamed)
      as (n' & l' & -> & Hdrop & Hnull & Hrest).
    destruct (lookup_drop_head _ _ _ _ Hdrop) as [Hck Hdrop'].
    destruct (lookup_lt_is_Some_2 (clk m) i) as [c0 Hc0]; [lia|].
    apply Forall_cons in Hok as [Ha Hok].
    cbn [init_clocks].
    rewrite (bind_run _ _ _ _ _ (index_run _ _ _ w Hck)), Hnull.
    rewrite (bind_run _ _ _ _ _ (load_run _ _ _ Hm)).
    rewrite (bind_run _ _ _ _ _ (write_index_run _ _ _ _ w Hc0)).
    unfold store at 1. cbn [bind].
    fold (init_handle nm a). rewrite Ha.
    unfold BUG_ON, emit, ret. cbn [bind].
    set (m1 := set_clk (<[i := init_handle nm a]> (clk m)) m).
    set (w1 := wlog _ (wlog _ (wlog _ (wput md m1 w)))).
    assert (H1 : heap w1 !! md = Some m1) by apply lookup_insert_eq.
    destruct (IH n' (S i) m1 w1 ck l2 H1) as (w' & cs & Hrun & Hheap & Hcs
                                              & Hat & Hcll & Htr).
    + rewrite Hdrop'. by symmetry.
    + unfold m1. cbn [clk set_clk]. rewrite length_insert. lia.
    + exact Hok.
    + exact Hbad.
    + exists w', cs. split; [exact Hrun|]. split; [|split; [|split; [|split]]].
      * rewrite Hheap. unfold w1. cbn [heap wlog wput].
        by rewrite insert_insert_eq.
      * rewrite Hcs. unfold m1. cbn [clk set_clk]. apply length_insert.
      * rewrite <- Hat. f_equal. cbn [length]. lia.
      * by rewrite Hcll.
      * rewrite Htr. unfold w1. cbn [trace wlog wput flat_map].
        unfold init_clock_events at 2. rewrite <- !app_assoc. reflexivity.
Qed.

Lemma named_clocks_length (n : nat) (l : list nvhost_clock) :
  (length (named_clocks n l) <= n)%nat.
Proof.
  revert l. induction n as [|n IH]; intros [|ck l]; simpl; try lia.
  destruct (name_is_null (clock_name ck)); simpl; [lia|].
  specialize (IH l). lia.
Qed.

Lemma named_clocks_prefix (n : nat) (l : list nvhost_clock) :
  named_clocks n l = take (length (named_clocks n l)) l.
Proof.
  revert l. induction n as [|n IH]; intros [|ck l]; simpl; try done.
  destruct (name_is_null (clock_name ck)); simpl; [done|].
  by rewrite <- IH.
Qed.

Lemma named_clocks_named (n : nat) (l : list nvhost_clock) :
  Forall (fun ck => name_is_null (clock_name ck) = false) (named_clocks n l).
Proof.
  revert l. induction n as [|n IH]; intros [|ck l]; simpl; try constructor.
  destruct (name_is_null (clock_name ck)) eqn:Hnull; constructor; [done|].
  apply IH.
Qed.

Lemma named_clocks_end (n : nat) (l : list nvhost_clock) :
  (length (named_clocks n l) < n)%nat ->
  (length (named_clocks n l) < length l)%nat ->
  exists ck, l !! length (named_clocks n l) = Some ck /\
             name_is_null (clock_name ck) = true.
Proof.
  revert l. induction n as [|n IH]; intros [|ck l]; simpl; try lia.
  destruct (name_is_null (clock_name ck)) eqn:Hnull; simpl.
  - intros _ _. by exists ck.
  - intros H1 H2. apply IH; lia.
Qed.

Lemma clks_initialised (nm : string) (d : nvhost_moduledesc)
    (par : option nat) (m : nvhost_module) :
  clks (initialised nm d par m) =
  map (init_handle nm) (named_clocks NVHOST_MODULE_MAX_CLOCKS (clocks d)).
Proof.
  unfold clks, initialised. cbn [num_clks clk].
  rewrite take_app_length'; [done|]. by rewrite length_map.
Qed.

Lemma clks_ok_initialised (nm : string) (d : nvhost_moduledesc)
    (par : option nat) (m : nvhost_module) :
  length (clk m) = NVHOST_MODULE_MAX_CLOCKS ->
  clks_ok (initialised nm d par m) /\
  length (clk (initialised nm d par m)) = NVHOST_MODULE_MAX_CLOCKS.
Proof.
  intros Hlen. unfold clks_ok, initialised. cbn [num_clks clk].
  rewrite length_app, length_map, length_drop.
  pose proof (named_clocks_length NVHOST_MODULE_MAX_CLOCKS (clocks d)). lia.
Qed.

(** X17: a completed [nvhost_module_init] leaves the module off, unlocked,
    without clients and with nothing pending, under the given name,
    descriptor and parent.  [num_clks] is the number of named clock entries
    ahead of the first entry without a name, at most
    [NVHOST_MODULE_MAX_CLOCKS]; the first [num_clks] handles are those that
    [clk_get_sys] gave, in order; each of these clocks was enabled, set to
    its rounded default rate and disabled again; domains that cannot be
    gated were un-gated.  The count is not written: it is what was in memory.
    An [init] hook runs last, on this state. *)
Theorem nvhost_module_init_establishes (md : nat) (nm : string)
    (d : nvhost_moduledesc) (par : option nat) (m : nvhost_module)
    (w : world) :
  heap w !! md = Some m ->
  length (clk m) = NVHOST_MODULE_MAX_CLOCKS ->
  (length (named_clocks NVHOST_MODULE_MAX_CLOCKS (clocks d))
   < length (clocks d))%nat ->
  Forall (fun ck => IS_ERR_OR_NULL (init_handle nm ck) = false)
    (named_clocks NVHOST_MODULE_MAX_CLOCKS (clocks d)) ->
  exists w' m' taken,
    nvhost_module_init md nm d par None w = (Ret 0, w') /\
    (forall hook,
       nvhost_module_init md nm d par (Some hook) w
       = (hook md ;;; ret 0) w') /\
    heap w' = <[md := m']> (heap w) /\
    trace w' = trace w ++ flat_map (init_clock_events nm) taken
               ++ init_unpowergate_events d /\
    taken = take (num_clks m') (clocks d) /\
    Forall (fun ck => name_is_null (clock_name ck) = false) taken /\
    ((num_clks m' < NVHOST_MODULE_MAX_CLOCKS)%nat ->
     exists ck, clocks d !! num_clks m' = Some ck /\
                name_is_null (clock_name ck) = true) /\
    (num_clks m' <= NVHOST_MODULE_MAX_CLOCKS)%nat /\
    clks m' = map (init_handle nm) taken /\
    length (clk m') = NVHOST_MODULE_MAX_CLOCKS /\
    name m' = nm /\ desc m' = d /\ parent m' = par /\
    client_list m' = [] /\ powered m' = false /\ powerdown m' = None /\
    lock m' = false /\ refcount m' = refcount m.
Proof.
  intros Hm Hlen Hterm Hok.
  exists (wlog (flat_map (init_clock_events nm)
                  (named_clocks NVHOST_MODULE_MAX_CLOCKS (clocks d))
                ++ init_unpowergate_events d)
            (wput md (initialised nm d par m) w)),
    (initialised nm d par m),
    (named_clocks NVHOST_MODULE_MAX_CLOCKS (clocks d)).
  split.
  { by rewrite (nvhost_module_init_run md nm d par None m w). }
  split.
  { intros hook.
    by rewrite (nvhost_module_init_run md nm d par (Some hook) m w). }
  split; [reflexivity|].
  split; [reflexivity|].
  split; [apply named_clocks_prefix|].
  split; [apply named_clocks_named|].
  split; [intros Hlt; by apply named_clocks_end|].
  split; [apply named_clocks_length|].
  split; [apply clks_initialised|].
  split; [by apply clks_ok_initialised|].
  repeat split.
Qed.

(** X18: when [clk_get_sys] fails for a named clock entry,
    [nvhost_module_init] stops in its [BUG_ON] there.  The clocks ahead of
    it have been set up and are left disabled; the failed handle is already
    in [mod->clk]; the name and the empty client list are set, but
    [num_clks], the descriptor, the parent, the power state and the mutex
    are still what was in memory, nothing is un-gated and the [init] hook is
    not called. *)
Theorem nvhost_module_init_bad_clock (md : nat) (nm : string)
    (d : nvhost_moduledesc) (par : option nat)
    (init : option (nat -> M unit)) (m : nvhost_module) (w : world)
    (l1 l2 : list nvhost_clock) (ck : nvhost_clock) :
  heap w !! md = Some m ->
  length (clk m) = NVHOST_MODULE_MAX_CLOCKS ->
  named_clocks NVHOST_MODULE_MAX_CLOCKS (clocks d) = l1 ++ ck :: l2 ->
  Forall (fun ck => IS_ERR_OR_NULL (init_handle nm ck) = false) l1 ->
  IS_ERR_OR_NULL (init_handle nm ck) = true ->
  exists w' m',
    nvhost_module_init md nm d par init w = (Stop Bug, w') /\
    heap w' = <[md := m']> (heap w) /\
    trace w' = trace w ++ flat_map (init_clock_events nm) l1 /\
    clk m' !! length l1 = Some (init_handle nm ck) /\
    name m' = nm /\ client_list m' = [] /\
    num_clks m' = num_clks m /\ desc m' = desc m /\ parent m' = parent m /\
    powered m' = powered m /\ powerdown m' = powerdown m /\
    lock m' = lock m /\ refcount m' = refcount m.
Proof.
  intros Hm Hlen Hnamed Hok Hbad. unfold nvhost_module_init.
  rewrite (bind_run _ _ _ _ _ (modify_run _ _ _ _ Hm)).
  destruct (init_clocks_bug md nm d l1 NVHOST_MODULE_MAX_CLOCKS 0
              (init_head nm m) (wput md (init_head nm m) w) ck l2)
    as (w' & cs & Hrun & Hheap & Hcs & Hat & Hcll & Htr).
  - apply heap_wput_eq.
  - by rewrite drop_0.
  - cbn [clk init_head]. lia.
  - exact Hok.
  - exact Hbad.
  - rewrite (bind_stop _ _ _ _ _ Hrun).
    exists w', (set_clk cs (init_head nm m)).
    split; [reflexivity|].
    split; [rewrite Hheap; cbn [heap wput]; by rewrite insert_insert_eq|].
    split; [exact Htr|].
    split; [exact Hat|].
    repeat split.
Qed.




End Acm.

(** * A concrete machine

    One channel module (address 1) below the host module (address 0), each
    with two clocks at default rates 100 and 200 and a power-down delay of
    50 ms, as in the scenario of the design document.  The clock framework
    rounds nothing, jiffies are milliseconds, allocation succeeds. *)

Definition ex_msecs_to_jiffies (ms : Z) : Z := ms.
Definition ex_clk_round_rate (c r : Z) : Z := r.
Definition ex_clk_get_rate (tr : list event) (c : Z) : Z :=
  default 0 (applied_rate tr c).
Definition ex_clk_set_rate (tr : list event) (c r : Z) : Z := 0.
Definition ex_kzalloc (tr : list event) : bool := true.

(** the hook refuses the first two times it is asked about the channel *)
Definition ex_hook (tr : list event) : Z :=
  if (asked 1 tr <? 2)%nat then 1 else 0.

Definition ex_desc (hook : option (list event -> Z)) : nvhost_moduledesc :=
  {| busy := true; idle := true; finalize_poweron := true;
     prepare_poweroff := hook; suspend := true; deinit := false;
     clocks := [ {| clock_name := "gr2d"; default_rate := 100 |};
                 {| clock_name := "epp"; default_rate := 200 |};
                 {| clock_name := ""; default_rate := 0 |} ];
     powergate_ids := (3, -1); can_powergate := true;
     powerdown_delay := 50 |}.

Definition ex_module (hook : option (list event -> Z)) (par : option nat)
    (cs : list Z) (count : Z) (on : bool) (work : option Z)
    (clients : list nvhost_module_client) : nvhost_module :=
  {| name := "gr2d"; powerdown := work; num_clks := 2; clk := cs;
     refcount := count; powered := on; client_list := clients;
     desc := ex_desc hook; parent := par; lock := false |}.

(** the host module, in use and powered *)
Definition ex_host : nvhost_module :=
  ex_module None None [10; 20; 0] 1 true None [].

(** the channel module right after initialisation *)
Definition ex_fresh : nvhost_module :=
  ex_module None (Some 0%nat) [1000; 2000; 0] 0 false None [].

(** the channel module in use *)
Definition ex_active : nvhost_module :=
  ex_module None (Some 0%nat) [1000; 2000; 0] 1 true None [].

(** the channel module idle, its power-down work armed *)
Definition ex_idle (hook : option (list event -> Z)) : nvhost_module :=
  ex_module hook (Some 0%nat) [1000; 2000; 0] 0 true (Some 50) [].

(** the channel module with one registered client *)
Definition ex_client : nvhost_module_client :=
  {| rate := [100; 200; 0]; priv := 7 |}.

Definition ex_registered : nvhost_module :=
  ex_module None (Some 0%nat) [1000; 2000; 0] 1 true None [ex_client].

Definition ex_world (m : nvhost_module) : world :=
  {| heap := <[1%nat := m]> {[ 0%nat := ex_host ]};
     client_list_lock := false;
     trace := [] |}.

Lemma ex_chain (m : nvhost_module) :
  lock m = false -> clks_ok m -> parent m = Some 0%nat ->
  chain (heap (ex_world m)) 1 [1%nat; 0%nat].
Proof.
  intros Hl Hok Hp.
  apply (chain_parent _ 1%nat m 0%nat [0%nat]); try done.
  - by intros ?%list_elem_of_singleton.
  - apply (chain_root _ 0%nat ex_host); try done.
    unfold clks_ok. simpl. lia.
Defined.

Lemma ex_clks_ok (hook : option (list event -> Z)) (par : option nat)
    (count : Z) (on : bool) (work : option Z)
    (clients : list nvhost_module_client) :
  clks_ok (ex_module hook par [1000; 2000; 0] count on work clients).
Proof. unfold clks_ok. simpl. lia. Defined.

Lemma ex_arrays_ok : arrays_ok ex_registered.
Proof. split; [reflexivity|]. repeat constructor. Defined.

(** The scenario of the design document: a client registers, the channel
    is marked busy, the client asks for 150 on the first clock, the channel
    goes idle, busy again before the timer expires, idle again, and the timer
    expires. *)
Definition ex_scenario : M unit :=
  nvhost_module_add_client 3 ex_clk_round_rate ex_kzalloc 1 7 ;;;
  nvhost_module_busy 2 1 ;;;
  nvhost_module_set_rate ex_clk_round_rate ex_clk_set_rate 1 7 150 0 ;;;
  nvhost_module_idle_mult ex_msecs_to_jiffies 1 1 ;;;
  nvhost_module_busy 2 1 ;;;
  nvhost_module_idle_mult ex_msecs_to_jiffies 1 1 ;;;
  delayed_work_timer_fn ex_msecs_to_jiffies 1.

Example ex_scenario_run :
  let r := ex_scenario (ex_world ex_fresh) in
  fst r = Ret tt /\
  trace (snd r) =
    [ClientListLock; ClientListUnlock;
     MutexLock 1; CancelDelayedWork 1; HookBusy 1;
     MutexLock 0; CancelDelayedWork 0; HookBusy 0; MutexUnlock 0;
     Unpowergate 3; ClkEnable 1000; ClkEnable 2000; HookFinalizePoweron 1;
     MutexUnlock 1;
     ClientListLock; ClkSetRate 1000 150; ClientListUnlock;
     MutexLock 1; ScheduleDelayedWork 1 50; MutexUnlock 1; WakeUp 1;
     HookIdle 1;
     MutexLock 1; CancelDelayedWork 1; HookBusy 1; MutexUnlock 1;
     MutexLock 1; ScheduleDelayedWork 1 50; MutexUnlock 1; WakeUp 1;
     HookIdle 1;
     MutexLock 1; ClkDisable 1000; ClkDisable 2000; Powergate 3;
     MutexLock 0; MutexUnlock 0; MutexUnlock 1] /\
  (fun m => (refcount m, powered m, powerdown m)) <$> heap (snd r) !! 1%nat
    = Some (0, false, None).
Proof. split; [reflexivity|]. split; reflexivity. Qed.

(** ** The properties at concrete inputs *)

(** The handler runs although the channel is in use. *)
Lemma powerdown_handler_noop_witness :
  exists w',
    powerdown_handler ex_msecs_to_jiffies 1 (ex_world ex_active) = (Ret tt, w') /\
    heap w' = heap (ex_world ex_active) /\
    client_list_lock w' = client_list_lock (ex_world ex_active) /\
    trace w' = trace (ex_world ex_active) ++ [MutexLock 1; MutexUnlock 1].
Proof.
  apply (powerdown_handler_noop ex_msecs_to_jiffies 1 ex_active
           (ex_world ex_active)).
  - reflexivity.
  - reflexivity.
  - left. discriminate.
Defined.

Lemma ex_hook_refuses_twice (tr : list event) :
  ex_hook tr <> 0 <-> (asked 1 tr < asked 1 [] + 2)%nat.
Proof.
  unfold ex_hook. simpl.
  destruct (Nat.ltb_spec (asked 1 tr) 2); split; intros; (lia || done).
Defined.

(** The hook refuses twice: two reschedules, then the power goes. *)
Lemma powerdown_handler_retry_witness :
  let m := ex_idle (Some ex_hook) in
  let w := ex_world m in
  powerdown_handler ex_msecs_to_jiffies 1 w =
  (Ret tt,
   wlog [MutexLock 1; HookPreparePoweroff 1 1; MutexUnlock 1;
         ScheduleDelayedWork 1 50] (wput 1 m w))
  /\
  (forall i, (i <= 2)%nat ->
     exists wi evs,
       timer_fires ex_msecs_to_jiffies i 1 w = (Ret tt, wi) /\
       heap wi = heap w /\
       reschedules 1 (trace wi) = (reschedules 1 (trace w) + i)%nat /\
       trace wi = trace w ++ evs /\
       Forall (fun e => forall c id, e <> ClkDisable c /\ e <> Powergate id) evs)
  /\
  exists o w' m' pre post,
    timer_fires ex_msecs_to_jiffies 3 1 w = (o, w') /\
    heap w' !! 1%nat = Some m' /\ powered m' = false /\
    reschedules 1 (trace w') = (reschedules 1 (trace w) + 2)%nat /\
    trace w' =
      pre ++ map ClkDisable (clks m) ++ powergate_events (desc m) ++ post.
Proof.
  intros m w.
  destruct (powerdown_handler_retry ex_msecs_to_jiffies 1 m w ex_hook)
    as [Hone Hmany].
  - reflexivity.
  - reflexivity.
  - apply ex_clks_ok.
  - reflexivity.
  - reflexivity.
  - reflexivity.
  - split.
    + apply Hone. discriminate.
    + apply (Hmany 2%nat).
      * reflexivity.
      * apply ex_hook_refuses_twice.
Defined.

(** The first [busy] on the fresh channel powers the host and the channel. *)
Lemma nvhost_module_busy_power_up_once_witness :
  let m := ex_fresh in
  let w := ex_world m in
  exists w',
    nvhost_module_busy 2 1 w = (Ret tt, w') /\
    trace w' =
      trace w ++ busy_entry_events 1 m
      ++ (if (refcount m =? 0) && negb (powered m)
          then busy_events (heap w) (tail [1%nat; 0%nat]) ++ power_up_events 1 m
          else [])
      ++ [MutexUnlock 1] /\
    heap w' !! 1%nat =
      Some (if (refcount m =? 0) && negb (powered m)
            then set_powered true (busy_counted m)
            else busy_counted m) /\
    (forall a, a ∉ [1%nat; 0%nat] -> heap w' !! a = heap w !! a) /\
    forall n : nat,
      powered m = true \/ refcount m = 0 ->
      exists w'',
        busy_times n 2 1 w' = (Ret tt, w'') /\
        trace w'' =
          trace w'
          ++ concat (replicate n (busy_entry_events 1 m ++ [MutexUnlock 1])).
Proof.
  intros m w.
  apply (nvhost_module_busy_power_up_once 2 1 [1%nat; 0%nat] m w).
  - apply ex_chain; [reflexivity | apply ex_clks_ok | reflexivity].
  - simpl. lia.
  - reflexivity.
  - unfold int_range. simpl. lia.
Defined.

(** One [idle] too many on the fresh channel. *)
Lemma nvhost_module_idle_mult_abort_witness :
  let m := ex_fresh in
  let w := ex_world m in
  (fst (nvhost_module_idle_mult ex_msecs_to_jiffies 1 1 w) = Stop Bug <->
   wrap_int (refcount m - 1) = 0 /\ powered m = false) /\
  nvhost_module_idle_mult ex_msecs_to_jiffies 1 1 w =
  (Ret tt,
   wlog [MutexLock 1; MutexUnlock 1]
     (wput 1 (set_refcount (refcount m - 1) m) w)).
Proof.
  intros m w.
  destruct (nvhost_module_idle_mult_abort ex_msecs_to_jiffies 1 1 m w)
    as (Hbug & Hneg & _).
  - reflexivity.
  - reflexivity.
  - split; [exact Hbug|]. apply Hneg.
    + unfold int_range. simpl. lia.
    + simpl. lia.
Defined.

(** Reading the rate of the first clock of the channel in use. *)
Lemma nvhost_module_get_rate_spec_witness :
  let m := ex_active in
  let w := ex_world m in
  exists w1 w' m1 m' evs,
    nvhost_module_busy 2 1 w = (Ret tt, w1) /\
    heap w1 !! 1%nat = Some m1 /\
    refcount m1 = wrap_int (refcount m + 1) /\
    (refcount m = 0 \/ powered m = true -> powered m1 = true) /\
    nvhost_module_get_rate ex_msecs_to_jiffies ex_clk_get_rate 2 1 0 w =
      (Ret (0, Some (ex_clk_get_rate (trace w1) 1000)), w') /\
    trace w' =
      trace w1 ++ ClkGetRate 1000 (ex_clk_get_rate (trace w1) 1000) :: evs /\
    heap w' !! 1%nat = Some m' /\
    refcount m' = refcount m /\ powered m' = powered m1.
Proof.
  intros m w.
  apply (nvhost_module_get_rate_spec ex_msecs_to_jiffies ex_clk_get_rate
           2 1 [1%nat; 0%nat] m w 0 1000).
  - apply ex_chain; [reflexivity | apply ex_clks_ok | reflexivity].
  - simpl. lia.
  - reflexivity.
  - unfold int_range. simpl. lia.
  - lia.
  - reflexivity.
  - reflexivity.
Defined.

(** The channel powers down while the host is in use. *)
Lemma parent_lock_taken_under_child_lock_witness :
  let m := ex_idle None in
  let w := ex_world m in
  exists o w' rest,
    powerdown_handler ex_msecs_to_jiffies 1 w = (o, w') /\
    trace w' =
      trace w ++ poweroff_events 1 m (trace w) ++ MutexLock 0 :: rest /\
    locks_after [] (poweroff_events 1 m (trace w) ++ [MutexLock 0])
      = [0%nat; 1%nat] /\
    (o = Ret tt ->
     exists mid tl, rest = mid ++ MutexUnlock 0 :: tl ++ [MutexUnlock 1]).
Proof.
  intros m w.
  destruct (parent_lock_taken_under_child_lock ex_msecs_to_jiffies
              2 1 0 [1%nat; 0%nat] m w) as [Hhandler _].
  - apply ex_chain; [reflexivity | apply ex_clks_ok | reflexivity].
  - simpl. lia.
  - reflexivity.
  - reflexivity.
  - apply Hhandler; reflexivity.
Defined.

(** A rate request for the third clock slot, which holds no clock. *)
Lemma nvhost_module_set_rate_no_clock_witness :
  let w := ex_world ex_registered in
  exists w',
    nvhost_module_set_rate ex_clk_round_rate ex_clk_set_rate 1 7 150 2 w
    = (Ret (- EINVAL), w') /\
    trace w' = trace w ++ [ClientListLock; ClientListUnlock].
Proof.
  intros w.
  apply (nvhost_module_set_rate_no_clock ex_clk_round_rate ex_clk_set_rate
           1 ex_registered 7 150 2 w).
  - reflexivity.
  - reflexivity.
  - apply ex_arrays_ok.
  - lia.
  - reflexivity.
Defined.

(** The registered client asks for 150 on the first clock; it is removed. *)
Lemma registry_applied_rate_witness :
  let m := ex_registered in
  let w := ex_world m in
  (let l' := cast_vote (client_list m) 7 0
               (wrap_ulong (ex_clk_round_rate 1000 150)) in
   exists res w',
     nvhost_module_set_rate ex_clk_round_rate ex_clk_set_rate 1 7 150
       (Z.of_nat 0) w = (Ret res, w') /\
     heap w' !! 1%nat = Some (set_client_list l' m) /\
     trace w' =
       trace w
       ++ [ClientListLock;
           ClkSetRate 1000 (effective_rate ex_clk_round_rate m l' 0 1000);
           ClientListUnlock] /\
     applied_rate (trace w') 1000 =
       Some (effective_rate ex_clk_round_rate m l' 0 1000))
  /\
  (let l' := fst (remove_client_loop (client_list m) 7 0) in
   exists w' i,
     nvhost_module_remove_client ex_clk_round_rate ex_clk_set_rate 1 7 w
     = (Ret tt, w') /\
     heap w' !! 1%nat = Some (set_client_list l' m) /\
     trace w' =
       trace w ++ [ClientListLock; KFree (CurEntry i)]
       ++ flat_map (update_rate_events ex_clk_round_rate m l')
            (seq 0 (num_clks m))
       ++ [ClientListUnlock])
  /\
  (fst (remove_client_loop (client_list m) 7 0) = [] /\
   forall idx c,
     effective_rate ex_clk_round_rate m [] idx c =
     rounded_default ex_clk_round_rate m idx c)
  /\
  exists res w',
    nvhost_module_add_client 3 ex_clk_round_rate ex_kzalloc 1 7 w
    = (Ret res, w') /\
    (trace w' = trace w \/
     trace w' = trace w ++ [ClientListLock; ClientListUnlock]).
Proof.
  intros m w.
  destruct (registry_applied_rate 3 ex_clk_round_rate ex_clk_set_rate
              ex_kzalloc 1 m 7 w)
    as (Hset & Hremove & Hsole & Hadd).
  - reflexivity.
  - reflexivity.
  - apply ex_arrays_ok.
  - apply ex_clks_ok.
  - split; [|split; [|split]].
    + apply (Hset 150 0%nat 1000); [reflexivity | discriminate].
    + apply Hremove. by constructor.
    + apply (Hsole ex_client); reflexivity.
    + apply Hadd. reflexivity.
Defined.

(** System suspend of the fresh channel. *)
Lemma nvhost_module_suspend_when_off_witness :
  let m := ex_fresh in
  let w := ex_world m in
  exists w' evs,
    nvhost_module_suspend 1000 ex_msecs_to_jiffies 1 true w = (Ret tt, w') /\
    trace w' = trace w ++ evs /\
    Forall (fun e => is_power_off e = false) evs /\
    heap w' = <[1%nat := set_powerdown None m]> (heap w).
Proof.
  intros m w.
  apply (nvhost_module_suspend_when_off 1000 ex_msecs_to_jiffies 1 m true w);
    reflexivity.
Defined.

(** ** Where the code departs from the design document *)

(** C1, as stated, fails: on the fresh channel (count 0, no power) [idle(1)]
    would take the count to -1; the call does not abort, it returns and
    leaves the count at -1. *)
Lemma nvhost_module_idle_mult_below_zero :
  refcount ex_fresh - 1 < 0 /\
  fst (nvhost_module_idle_mult ex_msecs_to_jiffies 1 1 (ex_world ex_fresh))
    = Ret tt /\
  refcount <$>
    heap (snd (nvhost_module_idle_mult ex_msecs_to_jiffies 1 1
                 (ex_world ex_fresh))) !! 1%nat
    = Some (-1).
Proof. split; [reflexivity|]. split; reflexivity. Qed.

(** C2: [remove_client] with a token that was never registered.  The loop
    ends on the list head, whose pseudo-entry is not null: it is handed to
    [kfree], and the rates of both clocks are recomputed and applied. *)
Lemma nvhost_module_remove_client_unknown_token :
  let r := nvhost_module_remove_client ex_clk_round_rate ex_clk_set_rate 1 99
             (ex_world ex_registered) in
  fst r = Ret tt /\
  trace (snd r) =
    [ClientListLock; KFree CurHead; ClkSetRate 1000 100; ClkSetRate 2000 200;
     ClientListUnlock] /\
  client_list <$> heap (snd r) !! 1%nat = Some [ex_client].
Proof. split; [reflexivity|]. split; reflexivity. Qed.

(** C4, as stated, fails: when the channel powers down, the mutex of the
    host is taken while the mutex of the channel is held. *)
Lemma powerdown_handler_holds_two_locks :
  let r := powerdown_handler ex_msecs_to_jiffies 1 (ex_world (ex_idle None)) in
  fst r = Ret tt /\
  trace (snd r) =
    [MutexLock 1; ClkDisable 1000; ClkDisable 2000; Powergate 3;
     MutexLock 0; ScheduleDelayedWork 0 50; MutexUnlock 0; WakeUp 0;
     HookIdle 0; MutexUnlock 1] /\
  max_locks_held [] (trace (snd r)) = 2%nat.
Proof. split; [reflexivity|]. split; reflexivity. Qed.

(** Client 7 registers and asks for 50 on the first clock, then client 8
    registers. *)
Definition ex_registry_run : M Z :=
  nvhost_module_add_client 3 ex_clk_round_rate ex_kzalloc 1 7 ;;;
  nvhost_module_set_rate ex_clk_round_rate ex_clk_set_rate 1 7 50 0 ;;;
  nvhost_module_add_client 3 ex_clk_round_rate ex_kzalloc 1 8.

(** C5, as stated, fails: after the second [add_client] has completed, the
    rate applied to the first clock is 50, while the largest current vote
    for it is 100 (the default vote of client 8). *)
Lemma add_client_leaves_applied_rate :
  let r := ex_registry_run (ex_world ex_active) in
  fst r = Ret 0 /\
  applied_rate (trace (snd r)) 1000 = Some 50 /\
  (fun m => max_vote (client_list m) 0) <$> heap (snd r) !! 1%nat = Some 100.
Proof. split; [reflexivity|]. split; reflexivity. Qed.

(** One [idle] too many on the fresh channel, then a rate query. *)
Definition ex_underflow_run : M (Z * option Z) :=
  nvhost_module_idle_mult ex_msecs_to_jiffies 1 1 ;;;
  nvhost_module_get_rate ex_msecs_to_jiffies ex_clk_get_rate 2 1 0.

(** C9, as stated, fails: the query succeeds, but nothing was un-gated and
    no clock enabled before the rate was sampled, and [powered] is false. *)
Lemma nvhost_module_get_rate_unpowered :
  let r := ex_underflow_run (ex_world ex_fresh) in
  fst r = Ret (0, Some 0) /\
  trace (snd r) =
    [MutexLock 1; MutexUnlock 1;
     MutexLock 1; CancelDelayedWork 1; HookBusy 1; MutexUnlock 1;
     ClkGetRate 1000 0;
     MutexLock 1; MutexUnlock 1] /\
  powered <$> heap (snd r) !! 1%nat = Some false /\
  powered <$>
    heap (snd ((nvhost_module_idle_mult ex_msecs_to_jiffies 1 1 ;;;
                nvhost_module_busy 2 1) (ex_world ex_fresh))) !! 1%nat
    = Some false.
Proof. split; [reflexivity|]. split; [reflexivity|]. split; reflexivity. Qed.

(** * The further properties at concrete inputs *)

(** a module without parent, at address 0: off, or idle with its
    power-down pending *)
Definition ex_root_off : nvhost_module :=
  ex_module None None [10; 20; 0] 0 false None [].

Definition ex_root_idle (hook : option (list event -> Z)) : nvhost_module :=
  ex_module hook None [10; 20; 0] 0 true (Some 50) [].

Definition ex_single (m : nvhost_module) : world :=
  {| heap := {[ 0%nat := m ]}; client_list_lock := false; trace := [] |}.

Lemma ex_root_clks_ok (hook : option (list event -> Z)) (count : Z)
    (on : bool) (work : option Z) :
  clks_ok (ex_module hook None [10; 20; 0] count on work []).
Proof. unfold clks_ok. simpl. lia. Defined.

Lemma busy_times_then_idle_mult_witness :
  let m := ex_fresh in
  let w := ex_world m in
  exists w' m',
    (busy_times 2 2 1 ;;;
     nvhost_module_idle_mult ex_msecs_to_jiffies 1 (Z.of_nat 2)) w
    = (Ret tt, w') /\
    heap w' !! 1%nat = Some m' /\
    refcount m' = refcount m /\ powered m' = true /\ lock m' = false /\
    powerdown m' =
      (if refcount m =? 0
       then Some (ex_msecs_to_jiffies (powerdown_delay (desc m)))
       else None).
Proof.
  intros m w.
  apply (busy_times_then_idle_mult ex_msecs_to_jiffies 2 1 [1%nat; 0%nat]
           m w 1).
  - apply ex_chain; [reflexivity | apply ex_clks_ok | reflexivity].
  - simpl. lia.
  - reflexivity.
  - simpl. lia.
  - simpl. lia.
  - left. reflexivity.
Defined.

Lemma busy_cancels_pending_powerdown_witness :
  let m := ex_idle None in
  let w := ex_world m in
  exists w',
    nvhost_module_busy 1 1 w = (Ret tt, w') /\
    trace w' = trace w ++ busy_entry_events 1 m ++ [MutexUnlock 1] /\
    heap w' = <[1%nat := busy_counted m]> (heap w) /\
    delayed_work_timer_fn ex_msecs_to_jiffies 1 w' = (Ret tt, w').
Proof.
  intros m w.
  apply (busy_cancels_pending_powerdown ex_msecs_to_jiffies 0 1 m w 50);
    reflexivity.
Defined.

Lemma power_cycle_restores_memory_witness :
  let m := ex_root_off in
  let w := ex_single m in
  exists w' tr1,
    (nvhost_module_busy 1 0 ;;;
     nvhost_module_idle_mult ex_msecs_to_jiffies 0 1 ;;;
     delayed_work_timer_fn ex_msecs_to_jiffies 0) w = (Ret tt, w') /\
    heap w' = heap w /\
    client_list_lock w' = client_list_lock w /\
    tr1 = trace w ++ busy_entry_events 0 m ++ power_up_events 0 m
          ++ [MutexUnlock 0] ++ idle_events ex_msecs_to_jiffies 0 m /\
    trace w' = tr1 ++ poweroff_events 0 m tr1 ++ [MutexUnlock 0].
Proof.
  intros m w.
  apply (power_cycle_restores_memory ex_msecs_to_jiffies 0 0 m w);
    try reflexivity.
  apply ex_root_clks_ok.
Defined.

Lemma child_power_up_takes_parent_reference_witness :
  let m := ex_fresh in
  let w := ex_world m in
  exists w',
    nvhost_module_busy 2 1 w = (Ret tt, w') /\
    heap w' !! 0%nat =
      Some (if (refcount m =? 0) && negb (powered m)
            then busy_post ex_host else ex_host).
Proof.
  intros m w.
  apply (child_power_up_takes_parent_reference 2 1 0 [1%nat; 0%nat]
           m ex_host w).
  - apply ex_chain; [reflexivity | apply ex_clks_ok | reflexivity].
  - simpl. lia.
  - reflexivity.
  - unfold int_range. simpl. lia.
  - reflexivity.
  - reflexivity.
Defined.

Lemma power_off_gives_parent_reference_back_witness :
  let m := ex_idle None in
  let mp := ex_host in
  let w := ex_world m in
  heap (snd (nvhost_module_idle_mult ex_msecs_to_jiffies 1 0 w)) !! 0%nat
    = Some mp /\
  (let r := wrap_int (refcount mp - 1) in
   exists o w',
     powerdown_handler ex_msecs_to_jiffies 1 w = (o, w') /\
     if (r =? 0) && negb (powered mp) then
       o = Stop Bug /\
       heap w' !! 1%nat = Some (set_powered false (set_lock true m))
     else
       o = Ret tt /\
       heap w' !! 1%nat = Some (set_powered false m) /\
       heap w' !! 0%nat =
         Some (if r =? 0
               then set_powerdown
                      (armed (ex_msecs_to_jiffies (powerdown_delay (desc mp)))
                         mp)
                      (set_refcount r mp)
               else set_refcount r mp)).
Proof.
  intros m mp w.
  destruct (power_off_gives_parent_reference_back ex_msecs_to_jiffies 1 0
              m mp w 0) as [Hidle Hoff].
  - reflexivity.
  - reflexivity.
  - apply ex_clks_ok.
  - reflexivity.
  - discriminate.
  - reflexivity.
  - reflexivity.
  - split; [exact Hidle|]. apply Hoff; reflexivity.
Defined.



Lemma suspend_forces_pending_powerdown_witness :
  let m := ex_root_idle None in
  let w := ex_single m in
  exists w' tr1,
    nvhost_module_suspend 1000 ex_msecs_to_jiffies 0 true w = (Ret tt, w') /\
    heap w' = <[0%nat := set_powered false (set_powerdown None m)]> (heap w) /\
    tr1 = trace w ++ suspend_wait_events 1000 0 m true
          ++ [FlushDelayedWork 0] /\
    trace w' =
      tr1 ++ poweroff_events 0 m tr1 ++ [MutexUnlock 0]
      ++ suspend_hook_events 0 m.
Proof.
  intros m w.
  apply (suspend_forces_pending_powerdown 1000 ex_msecs_to_jiffies 0 m true
           w 50); try reflexivity.
  apply ex_root_clks_ok.
Defined.

Lemma suspend_aborts_when_hook_refuses_witness :
  let m := ex_root_idle (Some (fun _ => 1)) in
  let w := ex_single m in
  exists w' tr1,
    nvhost_module_suspend 1000 ex_msecs_to_jiffies 0 true w
    = (Stop Bug, w') /\
    heap w' =
      <[0%nat := set_powerdown (Some (powerdown_jiffies ex_msecs_to_jiffies m))
                   m]> (heap w) /\
    tr1 = trace w ++ suspend_wait_events 1000 0 m true
          ++ [FlushDelayedWork 0] /\
    trace w' =
      tr1 ++ retry_events ex_msecs_to_jiffies 0 m tr1
      ++ suspend_hook_events 0 m.
Proof.
  intros m w.
  apply (suspend_aborts_when_hook_refuses 1000 ex_msecs_to_jiffies 0 m true
           w 50); try reflexivity.
  apply ex_root_clks_ok.
Defined.


Lemma nvhost_module_deinit_releases_clocks_witness :
  let m := ex_fresh in
  let w := ex_world m in
  nvhost_module_deinit 1000 ex_msecs_to_jiffies 1 w =
  (Ret tt,
   wlog ((if deinit (desc m) then [HookDeinit 1] else [])
         ++ suspend_off_events 1000 1 m false
         ++ map ClkPut (clks m))
     (wput 1 (set_powerdown None m) w)).
Proof.
  intros m w.
  destruct (nvhost_module_deinit_releases_clocks 1000 ex_msecs_to_jiffies 1
              m w) as [Hoff _].
  - reflexivity.
  - reflexivity.
  - apply ex_clks_ok.
  - apply Hoff; reflexivity.
Defined.

Lemma nvhost_module_add_client_votes_witness :
  let m := ex_registered in
  let w := ex_world m in
  exists rs,
    nvhost_module_add_client 3 ex_clk_round_rate ex_kzalloc 1 8 w =
    (Ret 0,
     wlog [ClientListLock; ClientListUnlock]
       (wput 1
          (set_client_list (client_list m ++ [ {| rate := rs; priv := 8 |} ])
             m) w)) /\
    length rs = 3%nat /\
    (forall i, (i < num_clks m)%nat ->
       rs !! i = Some (default_vote ex_clk_round_rate m i)) /\
    (forall i, (num_clks m <= i < 3)%nat -> rs !! i = Some 0).
Proof.
  intros m w.
  destruct (nvhost_module_add_client_votes 3 ex_clk_round_rate ex_kzalloc 1
              m 8 w) as [_ Hadd].
  - reflexivity.
  - reflexivity.
  - apply ex_arrays_ok.
  - apply ex_clks_ok.
  - reflexivity.
  - apply Hadd. reflexivity.
Defined.

Lemma nvhost_module_remove_client_first_match_witness :
  let m := ex_registered in
  let w := ex_world m in
  nvhost_module_remove_client ex_clk_round_rate ex_clk_set_rate 1 7 w =
  (Ret tt,
   wlog ([ClientListLock; KFree (CurEntry 0)]
         ++ flat_map (update_rate_events ex_clk_round_rate m [])
              (seq 0 (num_clks m))
         ++ [ClientListUnlock])
     (wput 1 (set_client_list [] m) w)).
Proof.
  intros m w.
  apply (nvhost_module_remove_client_first_match ex_clk_round_rate
           ex_clk_set_rate 1 m 7 w [] [] ex_client).
  - reflexivity.
  - reflexivity.
  - apply ex_arrays_ok.
  - apply ex_clks_ok.
  - reflexivity.
  - constructor.
  - reflexivity.
Defined.

Lemma add_then_remove_client_restores_witness :
  let m := ex_registered in
  let w := ex_world m in
  exists w',
    (nvhost_module_add_client 3 ex_clk_round_rate ex_kzalloc 1 8 ;;;
     nvhost_module_remove_client ex_clk_round_rate ex_clk_set_rate 1 8) w
    = (Ret tt, w') /\
    heap w' = heap w /\
    client_list_lock w' = client_list_lock w /\
    trace w' =
      trace w
      ++ [ClientListLock; ClientListUnlock; ClientListLock;
          KFree (CurEntry (length (client_list m)))]
      ++ flat_map (update_rate_events ex_clk_round_rate m (client_list m))
           (seq 0 (num_clks m))
      ++ [ClientListUnlock].
Proof.
  intros m w.
  apply (add_then_remove_client_restores 3 ex_clk_round_rate ex_clk_set_rate
           ex_kzalloc 1 m 8 w).
  - reflexivity.
  - reflexivity.
  - apply ex_arrays_ok.
  - apply ex_clks_ok.
  - reflexivity.
  - reflexivity.
  - repeat constructor. discriminate.
Defined.

Lemma nvhost_module_set_rate_unknown_token_witness :
  let m := ex_registered in
  let w := ex_world m in
  nvhost_module_set_rate ex_clk_round_rate ex_clk_set_rate 1 8 150
    (Z.of_nat 0) w =
  (Ret (ex_clk_set_rate (trace w ++ [ClientListLock]) 1000
          (effective_rate ex_clk_round_rate m (client_list m) 0 1000)),
   wlog [ClientListLock;
         ClkSetRate 1000
           (effective_rate ex_clk_round_rate m (client_list m) 0 1000);
         ClientListUnlock] w).
Proof.
  intros m w.
  apply (nvhost_module_set_rate_unknown_token ex_clk_round_rate
           ex_clk_set_rate 1 m 8 150 0 1000 w).
  - reflexivity.
  - reflexivity.
  - apply ex_arrays_ok.
  - reflexivity.
  - discriminate.
  - repeat constructor. discriminate.
Defined.

Lemma nvhost_module_set_rate_stores_vote_witness :
  let m := ex_registered in
  let w := ex_world m in
  exists res w' cl',
    nvhost_module_set_rate ex_clk_round_rate ex_clk_set_rate 1 7 150
      (Z.of_nat 0) w = (Ret res, w') /\
    heap w' = <[1%nat := set_client_list ([] ++ cl' :: []) m]> (heap w) /\
    priv cl' = 7 /\
    vote cl' 0 = wrap_ulong (ex_clk_round_rate 1000 150) /\
    (forall j, j <> 0%nat -> vote cl' j = vote ex_client j) /\
    (1000 = 0 -> res = - EINVAL).
Proof.
  intros m w.
  apply (nvhost_module_set_rate_stores_vote ex_clk_round_rate
           ex_clk_set_rate 1 m 7 150 0 1000 w [] [] ex_client).
  - reflexivity.
  - reflexivity.
  - apply ex_arrays_ok.
  - reflexivity.
  - reflexivity.
  - constructor.
  - reflexivity.
Defined.

Lemma nvhost_module_set_rate_covers_votes_witness :
  let m := ex_registered in
  let w := ex_world m in
  exists res w' m' applied,
    nvhost_module_set_rate ex_clk_round_rate ex_clk_set_rate 1 7 150
      (Z.of_nat 0) w = (Ret res, w') /\
    heap w' !! 1%nat = Some m' /\
    trace w' =
      trace w ++ [ClientListLock; ClkSetRate 1000 applied; ClientListUnlock] /\
    (forall cl, cl ∈ client_list m' -> vote cl 0 <= applied) /\
    ((exists cl, cl ∈ client_list m' /\ vote cl 0 <> 0) ->
     exists cl, cl ∈ client_list m' /\ applied = vote cl 0) /\
    ((forall cl, cl ∈ client_list m' -> vote cl 0 = 0) ->
     applied = rounded_default ex_clk_round_rate m 0 1000).
Proof.
  intros m w.
  apply (nvhost_module_set_rate_covers_votes ex_clk_round_rate
           ex_clk_set_rate 1 m 7 150 0 1000 w).
  - reflexivity.
  - reflexivity.
  - apply ex_arrays_ok.
  - reflexivity.
  - discriminate.
  - repeat constructor. discriminate.
Defined.


Lemma nvhost_module_get_rate_powers_up_witness :
  let m := ex_fresh in
  let w := ex_world m in
  exists w' tr1,
    tr1 = trace w ++ busy_entry_events 1 m
          ++ busy_events (heap w) (tail [1%nat; 0%nat])
          ++ power_up_events 1 m ++ [MutexUnlock 1] /\
    nvhost_module_get_rate ex_msecs_to_jiffies ex_clk_get_rate 2 1
      (Z.of_nat 0) w =
      (Ret (0, Some (ex_clk_get_rate tr1 1000)), w') /\
    trace w' =
      tr1 ++ ClkGetRate 1000 (ex_clk_get_rate tr1 1000)
             :: idle_events ex_msecs_to_jiffies 1 m /\
    heap w' !! 1%nat =
      Some (set_powerdown
              (Some (ex_msecs_to_jiffies (powerdown_delay (desc m))))
              (set_powered true m)).
Proof.
  intros m w.
  apply (nvhost_module_get_rate_powers_up ex_msecs_to_jiffies
           ex_clk_get_rate 2 1 [1%nat; 0%nat] m w 0 1000).
  - apply ex_chain; [reflexivity | apply ex_clks_ok | reflexivity].
  - simpl. lia.
  - reflexivity.
  - reflexivity.
  - reflexivity.
  - reflexivity.
  - reflexivity.
Defined.

(** the clock table: two clocks are known, any other name is not found *)
Definition ex_clk_get_sys (dev con : string) : Z :=
  if String.eqb con "gr2d" then 1000
  else if String.eqb con "epp" then 2000
  else 0.

(** the memory of a module before [nvhost_module_init]: all zero *)
Definition ex_raw : nvhost_module :=
  {| name := ""; powerdown := None; num_clks := 0; clk := [0; 0; 0];
     refcount := 0; powered := false; client_list := [];
     desc := ex_desc None; parent := None; lock := false |}.

(** a descriptor whose second clock is not in the clock table *)
Definition ex_desc_unknown_clock : nvhost_moduledesc :=
  {| busy := true; idle := true; finalize_poweron := true;
     prepare_poweroff := None; suspend := true; deinit := false;
     clocks := [ {| clock_name := "gr2d"; default_rate := 100 |};
                 {| clock_name := "vde"; default_rate := 200 |};
                 {| clock_name := ""; default_rate := 0 |} ];
     powergate_ids := (3, -1); can_powergate := true;
     powerdown_delay := 50 |}.

Lemma ex_handles_ok :
  Forall (fun ck => IS_ERR_OR_NULL (init_handle ex_clk_get_sys "gr2d" ck)
                    = false)
    (named_clocks 3 (clocks (ex_desc None))).
Proof. repeat constructor. Defined.

Lemma nvhost_module_init_establishes_witness :
  let d := ex_desc None in
  let m := ex_raw in
  let w := ex_world m in
  exists w' m' taken,
    nvhost_module_init 3 ex_clk_round_rate ex_clk_get_sys 1 "gr2d" d
      (Some 0%nat) None w = (Ret 0, w') /\
    (forall hook,
       nvhost_module_init 3 ex_clk_round_rate ex_clk_get_sys 1 "gr2d" d
         (Some 0%nat) (Some hook) w
       = (hook 1%nat ;;; ret 0) w') /\
    heap w' = <[1%nat := m']> (heap w) /\
    trace w' =
      trace w
      ++ flat_map (init_clock_events ex_clk_round_rate ex_clk_get_sys "gr2d")
           taken
      ++ init_unpowergate_events d /\
    taken = take (num_clks m') (clocks d) /\
    Forall (fun ck => name_is_null (clock_name ck) = false) taken /\
    ((num_clks m' < 3)%nat ->
     exists ck, clocks d !! num_clks m' = Some ck /\
                name_is_null (clock_name ck) = true) /\
    (num_clks m' <= 3)%nat /\
    clks m' = map (init_handle ex_clk_get_sys "gr2d") taken /\
    length (clk m') = 3%nat /\
    name m' = "gr2d"%string /\ desc m' = d /\ parent m' = Some 0%nat /\
    client_list m' = [] /\ powered m' = false /\ powerdown m' = None /\
    lock m' = false /\ refcount m' = refcount m.
Proof.
  intros d m w.
  apply (nvhost_module_init_establishes 3 ex_clk_round_rate ex_clk_get_sys
           1 "gr2d" d (Some 0%nat) m w).
  - reflexivity.
  - reflexivity.
  - simpl. lia.
  - apply ex_handles_ok.
Defined.

Lemma nvhost_module_init_bad_clock_witness :
  let d := ex_desc_unknown_clock in
  let m := ex_raw in
  let w := ex_world m in
  let ck := {| clock_name := "vde"; default_rate := 200 |} in
  let l1 := [ {| clock_name := "gr2d"; default_rate := 100 |} ] in
  exists w' m',
    nvhost_module_init 3 ex_clk_round_rate ex_clk_get_sys 1 "gr2d" d
      (Some 0%nat) None w = (Stop Bug, w') /\
    heap w' = <[1%nat := m']> (heap w) /\
    trace w' =
      trace w
      ++ flat_map (init_clock_events ex_clk_round_rate ex_clk_get_sys "gr2d")
           l1 /\
    clk m' !! length l1 = Some (init_handle ex_clk_get_sys "gr2d" ck) /\
    name m' = "gr2d"%string /\ client_list m' = [] /\
    num_clks m' = num_clks m /\ desc m' = desc m /\ parent m' = parent m /\
    powered m' = powered m /\ powerdown m' = powerdown m /\
    lock m' = lock m /\ refcount m' = refcount m.
Proof.
  intros d m w ck l1.
  apply (nvhost_module_init_bad_clock 3 ex_clk_round_rate ex_clk_get_sys
           1 "gr2d" d (Some 0%nat) None m w l1 [] ck).
  - reflexivity.
  - reflexivity.
  - reflexivity.
  - repeat constructor.
  - reflexivity.
Defined.



(** * The GART driver ([arch/arm/mach-tegra/iovmm-gart.c])

    The driver programs the table of the GART through three registers.  The
    device structure, the hardware behind the registers and the calls made
    are the state; both configurations of the source ([CONFIG_ICS] defined
    or not) are kept.  The hardware is taken to behave as the save and
    restore loops of the driver expect: the address written to
    [GART_ENTRY_ADDR] selects the entry that [GART_ENTRY_DATA] reads and
    writes. *)

Module Gart.

Definition GART_CONFIG : Z := 0x24.
Definition GART_ENTRY_ADDR : Z := 0x28.
Definition GART_ENTRY_DATA : Z := 0x2c.
Definition GART_PAGE_SHIFT : Z := 12.
Definition ENODEV : Z := 19.
Definition ENXIO : Z := 6.

(** ** Calls, as observed from outside *)

Inductive gart_call :=
| Writel (v : Z) (reg : Z)
| Readl (reg : Z) (v : Z)
| Wmb
| Dmb
| SpinLock
| SpinUnlock
| LockMakeresident (offs : Z) (pfn : Z)
| Release (offs : Z)
| Kzalloc (ok : bool)
| Ioremap (wc : bool) (start size : Z) (p : Z)
| Iounmap (p : Z)
| SetDrvdata (set : bool)
| IovmmRegister (e : Z)
| IovmmDomainInit (start end_ : Z) (e : Z)
| IovmmUnregister
| Vmalloc (size : Z)
| Vfree
| Kfree.

(** ** Data *)

(** [struct gart_device]; [regs] is the remapped register base (0 when
    null), [savedata] the context save area, if allocated. *)
Record gart_device := {
  regs : Z;
  savedata : option (list Z);
  page_count : Z;
  iovmm_base : Z;
  pte_lock : bool;
  enable : bool;
}.

Definition set_pte_lock (b : bool) (g : gart_device) : gart_device :=
  {| regs := regs g; savedata := savedata g; page_count := page_count g;
     iovmm_base := iovmm_base g; pte_lock := b; enable := enable g |}.

Definition set_savedata (sd : option (list Z)) (g : gart_device)
  : gart_device :=
  {| regs := regs g; savedata := sd; page_count := page_count g;
     iovmm_base := iovmm_base g; pte_lock := pte_lock g;
     enable := enable g |}.

Definition set_enable (b : bool) (g : gart_device) : gart_device :=
  {| regs := regs g; savedata := savedata g; page_count := page_count g;
     iovmm_base := iovmm_base g; pte_lock := pte_lock g; enable := b |}.

(** The memory that [kzalloc] gives for the device structure. *)
Definition zeroed : gart_device :=
  {| regs := 0; savedata := None; page_count := 0; iovmm_base := 0;
     pte_lock := false; enable := false |}.

(** [struct platform_device], as far as the driver reads it: the two
    memory resources, each with its first and last address. *)
Record platform_device := {
  res : option (Z * Z);
  res_remap : option (Z * Z);
}.

(** What the kernel answers while [gart_probe] runs: whether [kzalloc]
    finds memory, the address [ioremap] gives (0 when it fails), the results
    of [tegra_iovmm_register] and [tegra_iovmm_domain_init], and the memory
    [vmalloc] gives for the save area, if any. *)
Record probe_services := {
  kzalloc_ok : bool;
  ioremap_result : Z;
  register_result : Z;
  domain_init_result : Z;
  vmalloc_result : option (list Z);
}.

(** [struct tegra_iovmm_area], as far as the driver reads it.  The
    callbacks of [iovma->ops] are null or present; the page frame that
    [lock_makeresident] gives depends on the state of the memory manager,
    which the driver does not see: it is a function of the history. *)
Record tegra_iovmm_area_ops := {
  lock_makeresident : option (list gart_call -> Z -> Z);
  release : bool;
}.

Record tegra_iovmm_area := {
  iovm_start : Z;
  iovm_length : Z;
  ops : option tegra_iovmm_area_ops;
}.

(** The device structure (while it is allocated), whether the driver data
    of the platform device points to it, the hardware (the configuration
    register, the entry selected through [GART_ENTRY_ADDR], and the table
    itself), and the calls made so far. *)
Record machine := {
  gart : option gart_device;
  drvdata : bool;
  config : Z;
  entry_addr : Z;
  entries : gmap Z Z;
  calls : list gart_call;
}.

Definition mput (g : gart_device) (s : machine) : machine :=
  {| gart := Some g; drvdata := drvdata s; config := config s; entry_addr := entry_addr s;
     entries := entries s; calls := calls s |}.

Definition mlog (evs : list gart_call) (s : machine) : machine :=
  {| gart := gart s; drvdata := drvdata s; config := config s; entry_addr := entry_addr s;
     entries := entries s; calls := calls s ++ evs |}.

(** What the hardware does on a write to the register at offset [reg]: a
    write to [GART_ENTRY_ADDR] selects an entry, a write to
    [GART_ENTRY_DATA] goes to the selected entry. *)
Definition hw_write (v reg : Z) (s : machine) : machine :=
  {| gart := gart s; drvdata := drvdata s;
     config := if reg =? GART_CONFIG then v else config s;
     entry_addr := if reg =? GART_ENTRY_ADDR then v else entry_addr s;
     entries := if reg =? GART_ENTRY_DATA
                then <[entry_addr s := v]> (entries s) else entries s;
     calls := calls s |}.

(** The translation of the page at [a]; an entry never written is 0. *)
Definition entry (s : machine) (a : Z) : Z := default 0 (entries s !! a).

Definition hw_read (reg : Z) (s : machine) : Z :=
  if reg =? GART_CONFIG then config s
  else if reg =? GART_ENTRY_ADDR then entry_addr s
  else if reg =? GART_ENTRY_DATA then entry s (entry_addr s)
  else 0.

(** ** The monad of the driver code *)

Definition G (A : Type) : Type := machine -> outcome A * machine.

Definition gret {A} (a : A) : G A := fun s => (Ret a, s).

Definition gbind {A B} (c : G A) (f : A -> G B) : G B :=
  fun s =>
    match c s with
    | (Ret a, s') => f a s'
    | (Stop e, s') => (Stop e, s')
    end.

Definition ghalt {A} (e : stop) : G A := fun s => (Stop e, s).

Declare Scope gart_scope.
Delimit Scope gart_scope with gart.
Notation "'let*' x ':=' c 'in' k" := (gbind c (fun x => k))
  (at level 10, x name, c at level 100, k at level 200) : gart_scope.
Notation "c ;;; k" := (gbind c (fun _ => k))
  (at level 100, k at level 200, right associativity) : gart_scope.
Local Open Scope gart_scope.

Definition gemit (e : gart_call) : G unit := fun s => (Ret tt, mlog [e] s).

Definition get_calls : G (list gart_call) := fun s => (Ret (calls s), s).

(** the pointer [gart] itself *)
Definition gart_pointer : G (option gart_device) := fun s => (Ret (gart s), s).

(** [*gart] *)
Definition load_gart : G gart_device :=
  fun s =>
    match gart s with
    | Some g => (Ret g, s)
    | None => (Stop Fault, s)
    end.

Definition store_gart (g : gart_device) : G unit :=
  fun s => (Ret tt, mput g s).

(** [kfree (gart)] *)
Definition kfree_gart : G unit :=
  fun s =>
    (Ret tt,
     {| gart := None; drvdata := drvdata s; config := config s;
        entry_addr := entry_addr s; entries := entries s;
        calls := calls s ++ [Kfree] |}).

Definition platform_get_drvdata : G bool := fun s => (Ret (drvdata s), s).

Definition platform_set_drvdata (b : bool) : G unit :=
  fun s =>
    (Ret tt,
     {| gart := gart s; drvdata := b; config := config s;
        entry_addr := entry_addr s; entries := entries s;
        calls := calls s ++ [SetDrvdata b] |}).

Definition spin_lock : G unit :=
  let* g := load_gart in
  if pte_lock g then ghalt Deadlock
  else store_gart (set_pte_lock true g) ;;; gemit SpinLock.

Definition spin_unlock : G unit :=
  let* g := load_gart in
  store_gart (set_pte_lock false g) ;;; gemit SpinUnlock.

(** [writel (v, gart->regs + reg)] *)
Definition writel (v reg : Z) : G unit :=
  let* g := load_gart in
  if regs g =? 0 then ghalt Fault
  else fun s => (Ret tt, mlog [Writel v reg] (hw_write v reg s)).

(** [readl (gart->regs + reg)] *)
Definition readl (reg : Z) : G Z :=
  let* g := load_gart in
  if regs g =? 0 then ghalt Fault
  else fun s => (Ret (hw_read reg s), mlog [Readl reg (hw_read reg s)] s).

Definition wmb : G unit := gemit Wmb.
Definition dmb : G unit := gemit Dmb.

Definition G_BUG_ON (b : bool) : G unit := if b then ghalt Bug else gret tt.

(** [a[i]] and [a[i] = v] for a C array held as a list *)
Definition gindex (l : list Z) (i : nat) : G Z :=
  match l !! i with
  | Some x => gret x
  | None => ghalt Fault
  end.

Definition gwrite_index (l : list Z) (i : nat) (v : Z) : G (list Z) :=
  match l !! i with
  | Some _ => gret (<[i := v]> l)
  | None => ghalt Fault
  end.

(** ** The driver *)

Section Driver.

(** [CONFIG_ICS] selects between the two variants of the source;
    [PAGE_SHIFT] is the page size of the CPU; [pfn_valid] is the kernel's
    test of a page frame number. *)
Variable CONFIG_ICS : bool.
Variable PAGE_SHIFT : Z.
Variable pfn_valid : Z -> bool.

(** [#define FLUSH_GART_REGS(gart) (void)readl((gart)->regs + GART_CONFIG)] *)
Definition FLUSH_GART_REGS : G unit :=
  let* _ := readl GART_CONFIG in gret tt.

Definition gart_set_pte (offs pte : Z) : G unit :=
  writel offs GART_ENTRY_ADDR ;;;
  writel pte GART_ENTRY_DATA.

(** [reg += 1 << GART_PAGE_SHIFT] on an [unsigned long] *)
Definition next_page (reg : Z) : Z :=
  wrap_ulong (reg + Z.shiftl 1 GART_PAGE_SHIFT).

Definition prev_page (reg : Z) : Z :=
  wrap_ulong (reg - Z.shiftl 1 GART_PAGE_SHIFT).

(** [i << PAGE_SHIFT] on an [unsigned int] *)
Definition page_offset (i : nat) : Z :=
  wrap_ulong (Z.shiftl (Z.of_nat i) PAGE_SHIFT).

(** [#define GART_PTE(_pfn) (0x80000000ul | ((_pfn) << PAGE_SHIFT))] *)
Definition GART_PTE (pfn : Z) : Z :=
  wrap_ulong (Z.lor 0x80000000 (Z.shiftl pfn PAGE_SHIFT)).

(** The loop of [gart_suspend], [n] entries from index [i] on. *)
Fixpoint suspend_loop (n : nat) (i : nat) (reg : Z) : G unit :=
  match n with
  | O => gret tt
  | S n' =>
      writel reg GART_ENTRY_ADDR ;;;
      let* v := readl GART_ENTRY_DATA in
      let* g := load_gart in
      match savedata g with
      | None => ghalt Fault
      | Some sd =>
          let* sd' := gwrite_index sd i v in
          store_gart (set_savedata (Some sd') g)
      end ;;;
      (if CONFIG_ICS then gret tt else dmb) ;;;
      suspend_loop n' (S i) (next_page reg)
  end.

Definition gart_suspend : G Z :=
  let* p := gart_pointer in
  match p with
  | None => gret (- ENODEV)
  | Some g =>
      if negb (enable g) then gret 0
      else
        spin_lock ;;;
        suspend_loop (Z.to_nat (page_count g)) 0 (iovmm_base g) ;;;
        spin_unlock ;;;
        gret 0
  end.

(** The loop of [do_gart_setup]. *)
Fixpoint setup_loop (data : option (list Z)) (n : nat) (i : nat) (reg : Z)
  : G unit :=
  match n with
  | O => gret tt
  | S n' =>
      let* v := match data with
                | Some d => gindex d i
                | None => gret 0
                end in
      (if CONFIG_ICS then gart_set_pte reg v
       else writel reg GART_ENTRY_ADDR ;;;
            writel v GART_ENTRY_DATA ;;;
            wmb) ;;;
      setup_loop data n' (S i) (next_page reg)
  end.

Definition do_gart_setup (data : option (list Z)) : G unit :=
  writel 1 GART_CONFIG ;;;
  let* g := load_gart in
  setup_loop data (Z.to_nat (page_count g)) 0 (iovmm_base g) ;;;
  if CONFIG_ICS then FLUSH_GART_REGS else wmb.

Definition gart_resume : G unit :=
  let* p := gart_pointer in
  match p with
  | None => gret tt
  | Some g =>
      if negb (enable g)
         || (enable g && match savedata g with None => true | Some _ => false end)
      then gret tt
      else
        spin_lock ;;;
        do_gart_setup (savedata g) ;;;
        spin_unlock
  end.

(** [iovma->ops->lock_makeresident (iovma, offs)] *)
Definition call_lock_makeresident (iovma : tegra_iovmm_area) (offs : Z)
  : G Z :=
  match ops iovma with
  | None => ghalt Fault
  | Some o =>
      match lock_makeresident o with
      | None => ghalt Fault
      | Some f =>
          let* tr := get_calls in
          gemit (LockMakeresident offs (f tr offs)) ;;;
          gret (f tr offs)
      end
  end.

(** [iovma->ops->release (iovma, offs)], called without a test *)
Definition call_release (iovma : tegra_iovmm_area) (offs : Z) : G unit :=
  match ops iovma with
  | None => ghalt Fault
  | Some o => if release o then gemit (Release offs) else ghalt Fault
  end.

(** The loop of [gart_map]; the result is [None] when it ran to its end,
    and the values of [i] and [gart_page] at the [goto fail] otherwise. *)
Fixpoint map_loop (iovma : tegra_iovmm_area) (n : nat) (i : nat)
    (gart_page : Z) : G (option (nat * Z)) :=
  match n with
  | O => gret None
  | S n' =>
      let* pfn := call_lock_makeresident iovma (page_offset i) in
      if negb (pfn_valid pfn) then gret (Some (i, gart_page))
      else
        spin_lock ;;;
        (if CONFIG_ICS then
           gart_set_pte gart_page (GART_PTE pfn) ;;;
           FLUSH_GART_REGS
         else
           writel gart_page GART_ENTRY_ADDR ;;;
           writel (GART_PTE pfn) GART_ENTRY_DATA ;;;
           wmb) ;;;
        spin_unlock ;;;
        map_loop iovma n' (S i) (next_page gart_page)
  end.

(** [while (i--) { ... }] after the label [fail] *)
Fixpoint map_undo (iovma : tegra_iovmm_area) (i : nat) (gart_page : Z)
  : G unit :=
  match i with
  | O => gret tt
  | S i' =>
      call_release iovma (page_offset i') ;;;
      (if CONFIG_ICS then gart_set_pte (prev_page gart_page) 0
       else writel (prev_page gart_page) GART_ENTRY_ADDR ;;;
            writel 0 GART_ENTRY_DATA ;;;
            wmb) ;;;
      map_undo iovma i' (prev_page gart_page)
  end.

Definition area_pages (iovma : tegra_iovmm_area) : nat :=
  Z.to_nat (Z.shiftr (iovm_length iovma) GART_PAGE_SHIFT).

Definition gart_map (iovma : tegra_iovmm_area) : G Z :=
  let* r := map_loop iovma (area_pages iovma) 0 (iovm_start iovma) in
  match r with
  | None =>
      (if CONFIG_ICS then gret tt else wmb) ;;;
      gret 0
  | Some (i, gart_page) =>
      spin_lock ;;;
      map_undo iovma i gart_page ;;;
      (if CONFIG_ICS then FLUSH_GART_REGS else gret tt) ;;;
      spin_unlock ;;;
      (if CONFIG_ICS then gret tt else wmb) ;;;
      gret (- ENOMEM)
  end.

(** The loop of [gart_unmap]. *)
Fixpoint unmap_loop (iovma : tegra_iovmm_area) (n : nat) (i : nat)
    (gart_page : Z) : G unit :=
  match n with
  | O => gret tt
  | S n' =>
      (match ops iovma with
       | Some o => if release o then gemit (Release (page_offset i))
                   else gret tt
       | None => gret tt
       end) ;;;
      (if CONFIG_ICS then gart_set_pte gart_page 0
       else writel gart_page GART_ENTRY_ADDR ;;;
            writel 0 GART_ENTRY_DATA ;;;
            wmb) ;;;
      unmap_loop iovma n' (S i) (next_page gart_page)
  end.

Definition gart_unmap (iovma : tegra_iovmm_area) (decommit : bool) : G unit :=
  spin_lock ;;;
  unmap_loop iovma (area_pages iovma) 0 (iovm_start iovma) ;;;
  (if CONFIG_ICS then FLUSH_GART_REGS else gret tt) ;;;
  spin_unlock ;;;
  if CONFIG_ICS then gret tt else wmb.

Definition gart_map_pfn (iovma : tegra_iovmm_area) (offs : Z) (pfn : Z)
  : G unit :=
  G_BUG_ON (negb (pfn_valid pfn)) ;;;
  spin_lock ;;;
  (if CONFIG_ICS then
     gart_set_pte offs (GART_PTE pfn) ;;;
     FLUSH_GART_REGS
   else
     writel offs GART_ENTRY_ADDR ;;;
     writel (GART_PTE pfn) GART_ENTRY_DATA ;;;
     wmb) ;;;
  spin_unlock ;;;
  if CONFIG_ICS then gret tt else wmb.

(** [gart_remove]; [gart] is the driver data of the platform device. *)
Definition gart_remove : G Z :=
  let* d := platform_get_drvdata in
  if negb d then gret 0
  else
    let* g := load_gart in
    (if enable g then writel 0 GART_CONFIG else gret tt) ;;;
    let* g := load_gart in
    store_gart (set_enable false g) ;;;
    platform_set_drvdata false ;;;
    gemit IovmmUnregister ;;;
    let* g := load_gart in
    (match savedata g with
     | Some _ => gemit Vfree
     | None => gret tt
     end) ;;;
    (if regs g =? 0 then gret tt else gemit (Iounmap (regs g))) ;;;
    kfree_gart ;;;
    gret 0.

(** The label [fail] of [gart_probe]; [have_gart] tells whether the local
    [gart] is set.  Under [CONFIG_ICS] the label is only reached with
    [gart] set. *)
Definition probe_fail (have_gart : bool) (gart_regs e : Z) : G Z :=
  (if gart_regs =? 0 then gret tt else gemit (Iounmap gart_regs)) ;;;
  (if have_gart then
     let* g := load_gart in
     (match savedata g with
      | Some _ => gemit Vfree
      | None => gret tt
      end) ;;;
     kfree_gart
   else gret tt) ;;;
  gret e.

(** [res->end - res->start + 1] on 32-bit resources *)
Definition resource_size (r : Z * Z) : Z := wrap_ulong (snd r - fst r + 1).

(** [gart_probe].  The messages of [pr_err] and the constant members of
    [gart->iovmm] (name, operations, page size) are not part of the
    state. *)
Definition gart_probe (pdev : option platform_device) (k : probe_services)
  : G Z :=
  match pdev with
  | None => gret (- ENODEV)
  | Some pd =>
      if negb (PAGE_SHIFT =? GART_PAGE_SHIFT) then gret (- ENXIO)
      else
        match res pd, res_remap pd with
        | Some r, Some rr =>
            gemit (Kzalloc (kzalloc_ok k)) ;;;
            if negb (kzalloc_ok k) then
              if CONFIG_ICS then gret (- ENOMEM)
              else probe_fail false 0 (- ENOMEM)
            else
              store_gart zeroed ;;;
              let gart_regs := ioremap_result k in
              gemit (Ioremap (negb CONFIG_ICS) (fst r) (resource_size r)
                       gart_regs) ;;;
              if gart_regs =? 0 then probe_fail true gart_regs (- ENXIO)
              else
                (* spin_lock_init (&gart->pte_lock) *)
                let* g := load_gart in
                store_gart (set_pte_lock false g) ;;;
                platform_set_drvdata true ;;;
                gemit (IovmmRegister (register_result k)) ;;;
                if negb (register_result k =? 0)
                then probe_fail true gart_regs (register_result k)
                else
                  gemit (IovmmDomainInit (wrap_ulong (fst rr))
                           (wrap_ulong (wrap_ulong (snd rr) + 1))
                           (domain_init_result k)) ;;;
                  if negb (domain_init_result k =? 0)
                  then probe_fail true gart_regs (domain_init_result k)
                  else
                    let count := Z.shiftr (resource_size rr) GART_PAGE_SHIFT in
                    let* g := load_gart in
                    store_gart
                      {| regs := gart_regs;
                         savedata := savedata g;
                         page_count := count;
                         iovmm_base := wrap_ulong (fst rr);
                         pte_lock := pte_lock g; enable := enable g |} ;;;
                    gemit (Vmalloc (wrap_ulong (4 * count))) ;;;
                    let* g := load_gart in
                    store_gart (set_savedata (vmalloc_result k) g) ;;;
                    match vmalloc_result k with
                    | None => probe_fail true gart_regs (- ENOMEM)
                    | Some _ =>
                        (if CONFIG_ICS then gret tt else spin_lock) ;;;
                        do_gart_setup None ;;;
                        let* g := load_gart in
                        store_gart (set_enable true g) ;;;
                        (if CONFIG_ICS then gret tt else spin_unlock) ;;;
                        gret 0
                    end
        | _, _ => gret (- ENXIO)
        end
  end.

(** ** What runs report *)

(** The pages of an area: [n] addresses from [start] on. *)
Fixpoint pages (start : Z) (n : nat) : list Z :=
  match n with
  | O => []
  | S n' => start :: pages (next_page start) n'
  end.

(** The pages walked backwards by the undo loop of [gart_map]. *)
Fixpoint pages_back (from : Z) (n : nat) : list Z :=
  match n with
  | O => []
  | S n' => prev_page from :: pages_back (prev_page from) n'
  end.

(** The table after the writes [l] (address, value), in this order. *)
Definition install (l : list (Z * Z)) (t : gmap Z Z) : gmap Z Z :=
  foldl (fun t p => <[p.1 := p.2]> t) t l.

(** The offsets handed to [release], in order. *)
Fixpoint released (tr : list gart_call) : list Z :=
  match tr with
  | [] => []
  | Release offs :: tr' => offs :: released tr'
  | _ :: tr' => released tr'
  end.

(** The pages made resident: offset and page frame, in order. *)
Fixpoint made_resident (tr : list gart_call) : list (Z * Z) :=
  match tr with
  | [] => []
  | LockMakeresident offs pfn :: tr' => (offs, pfn) :: made_resident tr'
  | _ :: tr' => made_resident tr'
  end.

(** The step from one machine to a later one: the device structure, the
    driver data and the configuration register are as before, the table
    received the writes [l], and the calls [evs] were made. *)
Definition wrote (l : list (Z * Z)) (evs : list gart_call)
    (s s' : machine) : Prop :=
  gart s' = gart s /\ config s' = config s /\
  entries s' = install l (entries s) /\
  calls s' = calls s ++ evs /\
  drvdata s' = drvdata s.

(** The address of page [j] of an area that does not wrap around. *)
Definition page_addr (start : Z) (j : nat) : Z :=
  start + Z.shiftl 1 GART_PAGE_SHIFT * Z.of_nat j.

(** The hardware lost its state (power was removed): the registers and
    the table hold anything. *)
Definition power_lost (c a : Z) (t : gmap Z Z) (s : machine) : machine :=
  {| gart := gart s; drvdata := drvdata s; config := c; entry_addr := a;
     entries := t; calls := calls s |}.

(** Whether the area has a [release] callback. *)
Definition has_release (iovma : tegra_iovmm_area) : bool :=
  match ops iovma with
  | Some o => release o
  | None => false
  end.

(** The events of the block that writes one entry inside a loop that
    clears or restores entries. *)
Definition pte_events (a v : Z) : list gart_call :=
  [Writel a GART_ENTRY_ADDR; Writel v GART_ENTRY_DATA]
  ++ (if CONFIG_ICS then [] else [Wmb]).

(** The events of the block that writes one entry in [gart_map] and
    [gart_map_pfn]; [c] is what [GART_CONFIG] reads. *)
Definition map_block_events (a v c : Z) : list gart_call :=
  [Writel a GART_ENTRY_ADDR; Writel v GART_ENTRY_DATA]
  ++ (if CONFIG_ICS then [Readl GART_CONFIG c] else [Wmb]).

(** The calls that acquire or give back what the device lives on, in
    order. *)
Fixpoint lifecycle (tr : list gart_call) : list gart_call :=
  match tr with
  | [] => []
  | e :: tr' =>
      match e with
      | Kzalloc _ | Ioremap _ _ _ _ | Iounmap _ | SetDrvdata _
      | IovmmRegister _
      | IovmmDomainInit _ _ _ | IovmmUnregister | Vmalloc _ | Vfree
      | Kfree => e :: lifecycle tr'
      | _ => lifecycle tr'
      end
  end.

(** The device structure that a completed [gart_probe] leaves. *)
Definition probed (k : probe_services) (rr : Z * Z) : gart_device :=
  {| regs := ioremap_result k;
     savedata := vmalloc_result k;
     page_count := Z.shiftr (resource_size rr) GART_PAGE_SHIFT;
     iovmm_base := wrap_ulong (fst rr);
     pte_lock := false; enable := true |}.

(** The calls of [gart_probe] up to the allocation of the save area. *)
Definition probe_calls (r rr : Z * Z) (k : probe_services)
  : list gart_call :=
  [Kzalloc (kzalloc_ok k);
   Ioremap (negb CONFIG_ICS) (fst r) (resource_size r) (ioremap_result k);
   SetDrvdata true;
   IovmmRegister (register_result k);
   IovmmDomainInit (wrap_ulong (fst rr))
     (wrap_ulong (wrap_ulong (snd rr) + 1)) (domain_init_result k);
   Vmalloc (wrap_ulong
              (4 * Z.shiftr (resource_size rr) GART_PAGE_SHIFT))].

(** The machine [s] after a stretch of the driver's life that does not
    touch the table: the device structure, the driver data and the
    configuration register are given, the calls [evs] were made. *)
Definition later (g : option gart_device) (dd : bool) (c : Z)
    (evs : list gart_call) (s : machine) : machine :=
  {| gart := g; drvdata := dd; config := c;
     entry_addr := entry_addr s; entries := entries s;
     calls := calls s ++ evs |}.

(** The machine after [gart_probe] gave up: the device structure is freed,
    the hardware was not touched. *)
Definition gave_up (dd : bool) (evs : list gart_call) (s : machine)
  : machine :=
  later None dd (config s) evs s.

(** ** Reasoning about runs *)

Lemma gbind_run {A B} (c : G A) (k : A -> G B) (s s' : machine) (a : A) :
  c s = (Ret a, s') -> gbind c k s = k a s'.
Proof. unfold gbind; intros ->; reflexivity. Qed.

Lemma gbind_stop {A B} (c : G A) (k : A -> G B) (s s' : machine) (e : stop) :
  c s = (Stop e, s') -> gbind c k s = (Stop e, s').
Proof. unfold gbind; intros ->; reflexivity. Qed.

Lemma load_gart_run (g : gart_device) (s : machine) :
  gart s = Some g -> load_gart s = (Ret g, s).
Proof. unfold load_gart; intros ->; reflexivity. Qed.

Lemma set_pte_lock_twice (a b : bool) (g : gart_device) :
  set_pte_lock a (set_pte_lock b g) = set_pte_lock a g.
Proof. reflexivity. Qed.

Lemma set_pte_lock_id (g : gart_device) : set_pte_lock (pte_lock g) g = g.
Proof. by destruct g. Qed.

Lemma install_app (l1 l2 : list (Z * Z)) (t : gmap Z Z) :
  install (l1 ++ l2) t = install l2 (install l1 t).
Proof. unfold install. by rewrite foldl_app. Qed.

Lemma install_notin (l : list (Z * Z)) (t : gmap Z Z) (a : Z) :
  a ∉ l.*1 -> install l t !! a = t !! a.
Proof.
  revert t. induction l as [|[b v] l IH]; intros t Hni; [done|].
  cbn [install foldl fst snd]. fold (install l (<[b := v]> t)).
  rewrite fmap_cons in Hni. apply not_elem_of_cons in Hni as [Hab Hni].
  rewrite IH by done. by rewrite lookup_insert_ne.
Qed.

Lemma install_last (l : list (Z * Z)) (t : gmap Z Z) (a v : Z) :
  install (l ++ [(a, v)]) t !! a = Some v.
Proof. rewrite install_app. cbn. apply lookup_insert_eq. Qed.

(** When every address is written once, each write is found. *)
Lemma install_lookup (l : list (Z * Z)) (t : gmap Z Z) (j : nat) (a v : Z) :
  NoDup l.*1 -> l !! j = Some (a, v) -> install l t !! a = Some v.
Proof.
  revert t j. induction l as [|[b u] l IH]; intros t j Hnd Hj; [done|].
  rewrite fmap_cons in Hnd. apply NoDup_cons in Hnd as [Hni Hnd].
  cbn [install foldl fst snd]. fold (install l (<[b := u]> t)).
  destruct j as [|j]; cbn in Hj.
  - injection Hj as -> ->. rewrite install_notin by done.
    apply lookup_insert_eq.
  - by apply (IH _ j).
Qed.

Lemma released_app (a b : list gart_call) :
  released (a ++ b) = released a ++ released b.
Proof.
  induction a as [|e a IH]; [done|]. destruct e; cbn; by rewrite ?IH.
Qed.

Lemma made_resident_app (a b : list gart_call) :
  made_resident (a ++ b) = made_resident a ++ made_resident b.
Proof.
  induction a as [|e a IH]; [done|]. destruct e; cbn; by rewrite ?IH.
Qed.

Lemma lifecycle_app (a b : list gart_call) :
  lifecycle (a ++ b) = lifecycle a ++ lifecycle b.
Proof.
  induction a as [|e a IH]; [done|]. destruct e; cbn; by rewrite ?IH.
Qed.

Lemma wrote_refl (s : machine) : wrote [] [] s s.
Proof. unfold wrote. by rewrite app_nil_r. Qed.

Lemma wrote_trans (l1 l2 : list (Z * Z)) (e1 e2 : list gart_call)
    (s s1 s2 : machine) :
  wrote l1 e1 s s1 -> wrote l2 e2 s1 s2 -> wrote (l1 ++ l2) (e1 ++ e2) s s2.
Proof.
  intros (Hg1 & Hc1 & Ht1 & Hl1 & Hd1) (Hg2 & Hc2 & Ht2 & Hl2 & Hd2).
  unfold wrote. rewrite Hg2, Hc2, Ht2, Hl2, Hd2, Hg1, Hc1, Ht1, Hl1, Hd1.
  by rewrite install_app, app_assoc.
Qed.

Lemma gemit_wrote (e : gart_call) (s : machine) :
  wrote [] [e] s (mlog [e] s).
Proof. by unfold wrote. Qed.

Lemma writel_run (v reg : Z) (g : gart_device) (s : machine) :
  gart s = Some g -> regs g <> 0 ->
  writel v reg s = (Ret tt, mlog [Writel v reg] (hw_write v reg s)).
Proof.
  intros Hg Hr. unfold writel.
  rewrite (gbind_run _ _ _ _ _ (load_gart_run _ _ Hg)).
  by destruct (Z.eqb_spec (regs g) 0).
Qed.

Lemma readl_run (reg : Z) (g : gart_device) (s : machine) :
  gart s = Some g -> regs g <> 0 ->
  readl reg s = (Ret (hw_read reg s), mlog [Readl reg (hw_read reg s)] s).
Proof.
  intros Hg Hr. unfold readl.
  rewrite (gbind_run _ _ _ _ _ (load_gart_run _ _ Hg)).
  by destruct (Z.eqb_spec (regs g) 0).
Qed.

(** One entry is written: both variants of the source. *)
Lemma gart_set_pte_run (a v : Z) (g : gart_device) (s : machine) :
  gart s = Some g -> regs g <> 0 ->
  exists s',
    gart_set_pte a v s = (Ret tt, s') /\
    wrote [(a, v)] [Writel a GART_ENTRY_ADDR; Writel v GART_ENTRY_DATA] s s'.
Proof.
  intros Hg Hr. unfold gart_set_pte.
  rewrite (gbind_run _ _ _ _ _ (writel_run _ _ _ _ Hg Hr)).
  erewrite writel_run by (exact Hg || exact Hr).
  eexists. split; [reflexivity|].
  unfold wrote. cbn. by rewrite <- app_assoc.
Qed.

Lemma FLUSH_GART_REGS_run (g : gart_device) (s : machine) :
  gart s = Some g -> regs g <> 0 ->
  exists s',
    FLUSH_GART_REGS s = (Ret tt, s') /\
    wrote [] [Readl GART_CONFIG (config s)] s s'.
Proof.
  intros Hg Hr. unfold FLUSH_GART_REGS.
  rewrite (gbind_run _ _ _ _ _ (readl_run _ _ _ Hg Hr)).
  eexists. split; [reflexivity|]. by unfold wrote.
Qed.

Lemma pte_block_run (a v : Z) (g : gart_device) (s : machine) :
  gart s = Some g -> regs g <> 0 ->
  exists s',
    (if CONFIG_ICS then gart_set_pte a v
     else writel a GART_ENTRY_ADDR ;;;
          writel v GART_ENTRY_DATA ;;;
          wmb) s = (Ret tt, s') /\
    wrote [(a, v)] (pte_events a v) s s'.
Proof.
  intros Hg Hr. unfold pte_events. destruct CONFIG_ICS.
  - rewrite app_nil_r. by apply (gart_set_pte_run a v g).
  - rewrite (gbind_run _ _ _ _ _ (writel_run _ _ _ _ Hg Hr)).
    erewrite gbind_run by (by apply (writel_run _ _ g)).
    eexists. split; [reflexivity|].
    unfold wrote. cbn. by rewrite <- !app_assoc.
Qed.

Lemma spin_lock_run (g : gart_device) (s : machine) :
  gart s = Some g -> pte_lock g = false ->
  spin_lock s = (Ret tt, mlog [SpinLock] (mput (set_pte_lock true g) s)).
Proof.
  intros Hg Hl. unfold spin_lock.
  rewrite (gbind_run _ _ _ _ _ (load_gart_run _ _ Hg)). by rewrite Hl.
Qed.

Lemma spin_unlock_run (g : gart_device) (s : machine) :
  gart s = Some g ->
  spin_unlock s = (Ret tt, mlog [SpinUnlock] (mput (set_pte_lock false g) s)).
Proof.
  intros Hg. unfold spin_unlock.
  by rewrite (gbind_run _ _ _ _ _ (load_gart_run _ _ Hg)).
Qed.

Lemma page_size : Z.shiftl 1 GART_PAGE_SHIFT = 4096.
Proof. reflexivity. Qed.

Lemma next_page_inside (reg : Z) :
  0 <= reg -> reg + 4096 < 2 ^ 32 -> next_page reg = reg + 4096.
Proof.
  intros H0 H1. unfold next_page, wrap_ulong. rewrite page_size.
  apply Z.mod_small. lia.
Qed.

Lemma pages_addr (n : nat) :
  forall start,
    0 <= start -> start + 4096 * Z.of_nat n <= 2 ^ 32 ->
    pages start n = map (page_addr start) (seq 0 n).
Proof.
  induction n as [|n IH]; intros start H0 H1; [done|].
  cbn [pages seq map]. f_equal.
  - unfold page_addr. lia.
  - destruct n as [|n']; [done|].
    rewrite next_page_inside by lia. rewrite IH by lia.
    rewrite <- seq_shift, map_map. apply map_ext. intros j.
    unfold page_addr. rewrite page_size. lia.
Qed.

Lemma page_addr_inj (start : Z) (i j : nat) :
  page_addr start i = page_addr start j -> i = j.
Proof. unfold page_addr. rewrite page_size. lia. Qed.

Lemma NoDup_page_addrs (start : Z) (n : nat) :
  NoDup (map (page_addr start) (seq 0 n)).
Proof.
  apply NoDup_fmap_2; [|apply NoDup_seq].
  intros i j. apply page_addr_inj.
Qed.

Lemma fst_zip_const (l : list Z) (v : Z) :
  (map (fun a => (a, v)) l).*1 = l.
Proof. induction l as [|a l IH]; [done|]. cbn. by rewrite IH. Qed.

Lemma install_const_keep (l : list Z) (v a : Z) (t : gmap Z Z) :
  t !! a = Some v -> install (map (fun a => (a, v)) l) t !! a = Some v.
Proof.
  revert t. induction l as [|b l IH]; intros t Ht; [done|].
  cbn [map install foldl fst snd].
  fold (install (map (fun a => (a, v)) l) (<[b := v]> t)).
  apply IH. destruct (decide (b = a)) as [->|Hne].
  - apply lookup_insert_eq.
  - by rewrite lookup_insert_ne.
Qed.

Lemma install_const_elem (l : list Z) (v a : Z) (t : gmap Z Z) :
  a ∈ l -> install (map (fun a => (a, v)) l) t !! a = Some v.
Proof.
  revert t. induction l as [|b l IH]; intros t Ha.
  - by apply not_elem_of_nil in Ha.
  - cbn [map install foldl fst snd].
    fold (install (map (fun a => (a, v)) l) (<[b := v]> t)).
    apply elem_of_cons in Ha as [->|Ha].
    + apply install_const_keep, lookup_insert_eq.
    + by apply IH.
Qed.

Lemma page_addr_lookup (start : Z) (n j : nat) :
  (j < n)%nat ->
  map (page_addr start) (seq 0 n) !! j = Some (page_addr start j).
Proof.
  intros Hj. by rewrite list_lookup_fmap, lookup_seq_lt.
Qed.

Lemma unmap_loop_run (iovma : tegra_iovmm_area) (g : gart_device) (n : nat) :
  forall (i : nat) (page : Z) (s : machine),
    gart s = Some g -> regs g <> 0 ->
    exists s' evs,
      unmap_loop iovma n i page s = (Ret tt, s') /\
      wrote (map (fun a => (a, 0)) (pages page n)) evs s s' /\
      released evs =
        (if has_release iovma then map page_offset (seq i n) else []) /\
      made_resident evs = [].
Proof.
  induction n as [|n IH]; intros i page s Hg Hr.
  - exists s, []. split; [done|]. split; [apply wrote_refl|].
    by destruct (has_release iovma).
  - cbn [unmap_loop pages map seq].
    set (rel := match ops iovma with
                | Some o => if release o then gemit (Release (page_offset i))
                            else gret tt
                | None => gret tt
                end).
    set (e0 := if has_release iovma then [Release (page_offset i)] else []).
    assert (H0 : rel s = (Ret tt, mlog e0 s) /\ wrote [] e0 s (mlog e0 s)).
    { unfold rel, e0, has_release. destruct (ops iovma) as [o|].
      - destruct (release o); [by split|].
        unfold gret, mlog. destruct s; cbn. rewrite app_nil_r.
        split; [done|]. unfold wrote; cbn. by rewrite app_nil_r.
      - unfold gret, mlog. destruct s; cbn. rewrite app_nil_r.
        split; [done|]. unfold wrote; cbn. by rewrite app_nil_r. }
    destruct H0 as [Hrel W0].
    rewrite (gbind_run _ _ _ _ _ Hrel).
    destruct (pte_block_run page 0 g (mlog e0 s) Hg Hr) as (s1 & Hblk & W1).
    rewrite (gbind_run _ _ _ _ _ Hblk).
    assert (Hg1 : gart s1 = Some g).
    { destruct W1 as (-> & _). exact Hg. }
    destruct (IH (S i) (next_page page) s1 Hg1 Hr) as (s2 & evs & Hrun & W2
                                                        & Hrels & Hmr).
    exists s2, (e0 ++ pte_events page 0 ++ evs).
    split; [exact Hrun|]. split.
    + pose proof (wrote_trans _ _ _ _ _ _ _ W0
                    (wrote_trans _ _ _ _ _ _ _ W1 W2)) as W.
      exact W.
    + rewrite !released_app, !made_resident_app, Hrels, Hmr.
      unfold e0, pte_events.
      destruct (has_release iovma), CONFIG_ICS; by cbn.
Qed.

Lemma map_block_run (a v : Z) (g : gart_device) (s : machine) :
  gart s = Some g -> regs g <> 0 ->
  exists s',
    (if CONFIG_ICS then
       gart_set_pte a v ;;;
       FLUSH_GART_REGS
     else
       writel a GART_ENTRY_ADDR ;;;
       writel v GART_ENTRY_DATA ;;;
       wmb) s = (Ret tt, s') /\
    wrote [(a, v)] (map_block_events a v (config s)) s s'.
Proof.
  intros Hg Hr. unfold map_block_events. destruct CONFIG_ICS.
  - destruct (gart_set_pte_run a v g s Hg Hr) as (s1 & Hrun & W1).
    rewrite (gbind_run _ _ _ _ _ Hrun).
    assert (Hg1 : gart s1 = Some g) by (by destruct W1 as (-> & _)).
    destruct (FLUSH_GART_REGS_run g s1 Hg1 Hr) as (s2 & Hfl & W2).
    exists s2. split; [exact Hfl|].
    replace (config s) with (config s1) by (by destruct W1 as (_ & -> & _)).
    exact (wrote_trans _ _ _ _ _ _ _ W1 W2).
  - rewrite (gbind_run _ _ _ _ _ (writel_run _ _ _ _ Hg Hr)).
    erewrite gbind_run by (by apply (writel_run _ _ g)).
    eexists. split; [reflexivity|].
    unfold wrote. cbn. by rewrite <- !app_assoc.
Qed.

Lemma locked_entry_run {B} (k : G B) (a v : Z) (g : gart_device)
    (s : machine) :
  gart s = Some g -> regs g <> 0 -> pte_lock g = false ->
  exists s',
    gbind spin_lock (fun _ =>
      gbind (if CONFIG_ICS then
               gart_set_pte a v ;;;
               FLUSH_GART_REGS
             else
               writel a GART_ENTRY_ADDR ;;;
               writel v GART_ENTRY_DATA ;;;
               wmb) (fun _ =>
        gbind spin_unlock (fun _ => k))) s = k s' /\
    wrote [(a, v)]
      ([SpinLock] ++ map_block_events a v (config s) ++ [SpinUnlock]) s s'.
Proof.
  intros Hg Hr Hl.
  rewrite (gbind_run _ _ _ _ _ (spin_lock_run _ _ Hg Hl)).
  set (gl := set_pte_lock true g).
  set (s1 := mlog [SpinLock] (mput gl s)).
  assert (Hg1 : gart s1 = Some gl) by reflexivity.
  destruct (map_block_run a v gl s1 Hg1 Hr) as (s2 & Hblk & W2).
  rewrite (gbind_run _ _ _ _ _ Hblk).
  assert (Hg2 : gart s2 = Some gl) by (by destruct W2 as (-> & _)).
  rewrite (gbind_run _ _ _ _ _ (spin_unlock_run _ _ Hg2)).
  eexists. split; [reflexivity|].
  destruct W2 as (_ & Hc2 & He2 & Hl2 & Hd2).
  unfold wrote. cbn [gart config entries calls drvdata mlog mput].
  rewrite Hc2, He2, Hl2, Hd2.
  cbn [gart config entries calls drvdata mlog mput s1].
  split.
  { rewrite Hg. f_equal. unfold gl.
    rewrite set_pte_lock_twice, <- Hl. apply set_pte_lock_id. }
  split; [done|]. split; [done|]. split; [by rewrite <- !app_assoc|done].
Qed.

Lemma call_lock_makeresident_run (iovma : tegra_iovmm_area)
    (o : tegra_iovmm_area_ops) (f : list gart_call -> Z -> Z) (offs : Z)
    (s : machine) :
  ops iovma = Some o -> lock_makeresident o = Some f ->
  call_lock_makeresident iovma offs s =
  (Ret (f (calls s) offs),
   mlog [LockMakeresident offs (f (calls s) offs)] s).
Proof. intros Ho Hf. unfold call_lock_makeresident. by rewrite Ho, Hf. Qed.

Lemma pages_snoc (k : nat) :
  forall start,
    pages start (S k) = pages start k ++ [Nat.iter k next_page start].
Proof.
  induction k as [|k IH]; intros start; [done|].
  change (pages start (S (S k))) with (start :: pages (next_page start) (S k)).
  rewrite IH. cbn [pages app]. do 3 f_equal.
  by rewrite Nat.iter_succ_r.
Qed.

(** [map_loop] over pages that are all found resident. *)
Lemma map_loop_ok (iovma : tegra_iovmm_area) (o : tegra_iovmm_area_ops)
    (f : list gart_call -> Z -> Z) (g : gart_device) (n : nat) :
  ops iovma = Some o -> lock_makeresident o = Some f ->
  regs g <> 0 -> pte_lock g = false ->
  forall (i : nat) (page : Z) (s : machine),
    gart s = Some g ->
    (forall tr j, (i <= j < i + n)%nat ->
       pfn_valid (f tr (page_offset j)) = true) ->
    exists s' evs pfns,
      map_loop iovma n i page s = (Ret None, s') /\
      wrote (zip (pages page n) (map GART_PTE pfns)) evs s s' /\
      length pfns = n /\
      Forall (fun p => pfn_valid p = true) pfns /\
      made_resident evs = zip (map page_offset (seq i n)) pfns /\
      released evs = [].
Proof.
  intros Ho Hf Hr Hl.
  induction n as [|n IH]; intros i page s Hg Hok.
  - exists s, [], []. split; [done|]. split; [apply wrote_refl|]. done.
  - cbn [map_loop].
    rewrite (gbind_run _ _ _ _ _
               (call_lock_makeresident_run _ _ _ _ s Ho Hf)).
    rewrite (Hok (calls s) i) by lia. cbn [negb].
    set (pfn := f (calls s) (page_offset i)).
    set (s1 := mlog [LockMakeresident (page_offset i) pfn] s).
    assert (Hg1 : gart s1 = Some g) by exact Hg.
    destruct (locked_entry_run
                (map_loop iovma n (S i) (next_page page))
                page (GART_PTE pfn) g s1 Hg1 Hr Hl) as (s2 & Hstep & W2).
    rewrite Hstep.
    assert (Hg2 : gart s2 = Some g) by (by destruct W2 as (-> & _)).
    destruct (IH (S i) (next_page page) s2 Hg2)
      as (s3 & evs & pfns & Hrun & W3 & Hlen & Hval & Hmr & Hrel).
    { intros tr j Hj. apply Hok. lia. }
    exists s3,
      ([LockMakeresident (page_offset i) pfn]
       ++ ([SpinLock] ++ map_block_events page (GART_PTE pfn) (config s1)
           ++ [SpinUnlock]) ++ evs),
      (pfn :: pfns).
    split; [exact Hrun|]. split.
    { pose proof (gemit_wrote (LockMakeresident (page_offset i) pfn) s) as W1.
      exact (wrote_trans _ _ _ _ _ _ _ W1
               (wrote_trans _ _ _ _ _ _ _ W2 W3)). }
    split; [cbn; by rewrite Hlen|].
    split; [constructor; [apply (Hok (calls s) i); lia|exact Hval]|].
    rewrite !released_app, !made_resident_app, Hmr, Hrel.
    unfold map_block_events. destruct CONFIG_ICS; by cbn.
Qed.

(** [map_loop] when the page at index [i + k] is the first that is not
    resident. *)
Lemma map_loop_fail (iovma : tegra_iovmm_area) (o : tegra_iovmm_area_ops)
    (f : list gart_call -> Z -> Z) (g : gart_device) (k : nat) :
  ops iovma = Some o -> lock_makeresident o = Some f ->
  regs g <> 0 -> pte_lock g = false ->
  forall (n i : nat) (page : Z) (s : machine),
    gart s = Some g -> (k < n)%nat ->
    (forall tr j, (i <= j < i + k)%nat ->
       pfn_valid (f tr (page_offset j)) = true) ->
    (forall tr, pfn_valid (f tr (page_offset (i + k))) = false) ->
    exists s' evs pfns bad,
      map_loop iovma n i page s
      = (Ret (Some ((i + k)%nat, Nat.iter k next_page page)), s') /\
      wrote (zip (pages page k) (map GART_PTE pfns)) evs s s' /\
      length pfns = k /\
      made_resident evs =
        zip (map page_offset (seq i k)) pfns ++ [(page_offset (i + k), bad)] /\
      pfn_valid bad = false /\
      released evs = [].
Proof.
  intros Ho Hf Hr Hl.
  induction k as [|k IH]; intros n i page s Hg Hkn Hok Hbad.
  - destruct n as [|n]; [lia|]. cbn [map_loop].
    rewrite (gbind_run _ _ _ _ _
               (call_lock_makeresident_run _ _ _ _ s Ho Hf)).
    rewrite Nat.add_0_r in *. rewrite (Hbad (calls s)). cbn [negb].
    eexists _, [LockMakeresident (page_offset i) _], [], _.
    split; [reflexivity|]. split; [apply gemit_wrote|].
    split; [done|]. split; [reflexivity|]. split; [apply Hbad|done].
  - destruct n as [|n]; [lia|]. cbn [map_loop].
    rewrite (gbind_run _ _ _ _ _
               (call_lock_makeresident_run _ _ _ _ s Ho Hf)).
    rewrite (Hok (calls s) i) by lia. cbn [negb].
    set (pfn := f (calls s) (page_offset i)).
    set (s1 := mlog [LockMakeresident (page_offset i) pfn] s).
    assert (Hg1 : gart s1 = Some g) by exact Hg.
    destruct (locked_entry_run
                (map_loop iovma n (S i) (next_page page))
                page (GART_PTE pfn) g s1 Hg1 Hr Hl) as (s2 & Hstep & W2).
    rewrite Hstep.
    assert (Hg2 : gart s2 = Some g) by (by destruct W2 as (-> & _)).
    destruct (IH n (S i) (next_page page) s2 Hg2)
      as (s3 & evs & pfns & bad & Hrun & W3 & Hlen & Hmr & Hinv & Hrel).
    { lia. }
    { intros tr j Hj. apply Hok. lia. }
    { intros tr. replace (S i + k)%nat with (i + S k)%nat by lia. apply Hbad. }
    exists s3,
      ([LockMakeresident (page_offset i) pfn]
       ++ ([SpinLock] ++ map_block_events page (GART_PTE pfn) (config s1)
           ++ [SpinUnlock]) ++ evs),
      (pfn :: pfns), bad.
    split.
    { rewrite Hrun. rewrite Nat.iter_succ_r.
      by replace (S i + k)%nat with (i + S k)%nat by lia. }
    split.
    { pose proof (gemit_wrote (LockMakeresident (page_offset i) pfn) s) as W1.
      exact (wrote_trans _ _ _ _ _ _ _ W1
               (wrote_trans _ _ _ _ _ _ _ W2 W3)). }
    split; [cbn; by rewrite Hlen|].
    split.
    { rewrite !made_resident_app, Hmr.
      replace (S i + k)%nat with (i + S k)%nat by lia.
      unfold map_block_events. destruct CONFIG_ICS; by cbn. }
    split; [exact Hinv|].
    rewrite !released_app, Hrel.
    unfold map_block_events. destruct CONFIG_ICS; by cbn.
Qed.

(** The undo loop of [gart_map], with a [release] callback. *)
Lemma map_undo_run (iovma : tegra_iovmm_area) (g : gart_device) (i : nat) :
  has_release iovma = true ->
  forall (page : Z) (s : machine),
    gart s = Some g -> regs g <> 0 ->
    exists s' evs,
      map_undo iovma i page s = (Ret tt, s') /\
      wrote (map (fun a => (a, 0)) (pages_back page i)) evs s s' /\
      released evs = map page_offset (reverse (seq 0 i)) /\
      made_resident evs = [].
Proof.
  intros Hrel.
  induction i as [|i IH]; intros page s Hg Hr.
  - exists s, []. split; [done|]. split; [apply wrote_refl|]. done.
  - cbn [map_undo pages_back map].
    assert (H0 : call_release iovma (page_offset i) s =
                 (Ret tt, mlog [Release (page_offset i)] s)).
    { unfold call_release. unfold has_release in Hrel.
      destruct (ops iovma) as [o|]; [|done]. by rewrite Hrel. }
    rewrite (gbind_run _ _ _ _ _ H0).
    destruct (pte_block_run (prev_page page) 0 g
                (mlog [Release (page_offset i)] s) Hg Hr)
      as (s1 & Hblk & W1).
    rewrite (gbind_run _ _ _ _ _ Hblk).
    assert (Hg1 : gart s1 = Some g) by (by destruct W1 as (-> & _)).
    destruct (IH (prev_page page) s1 Hg1 Hr) as (s2 & evs & Hrun & W2
                                                 & Hrels & Hmr).
    exists s2, ([Release (page_offset i)] ++ pte_events (prev_page page) 0
                ++ evs).
    split; [exact Hrun|]. split.
    { exact (wrote_trans _ _ _ _ _ _ _ (gemit_wrote _ s)
               (wrote_trans _ _ _ _ _ _ _ W1 W2)). }
    rewrite !released_app, !made_resident_app, Hrels, Hmr.
    rewrite seq_S, reverse_app. cbn [reverse Nat.add].
    unfold pte_events. destruct CONFIG_ICS; by cbn.
Qed.

Lemma next_page_range (x : Z) : 0 <= next_page x < 2 ^ 32.
Proof. unfold next_page, wrap_ulong. apply Z.mod_pos_bound. lia. Qed.

Lemma prev_next_page (x : Z) :
  0 <= x < 2 ^ 32 -> prev_page (next_page x) = x.
Proof.
  intros Hx. unfold prev_page, next_page, wrap_ulong. rewrite page_size.
  rewrite Zminus_mod_idemp_l.
  replace (x + 4096 - 4096) with x by lia. by apply Z.mod_small.
Qed.

Lemma iter_next_page_range (k : nat) (x : Z) :
  0 <= x < 2 ^ 32 -> 0 <= Nat.iter k next_page x < 2 ^ 32.
Proof.
  intros Hx. destruct k as [|k]; [done|].
  rewrite Nat.iter_succ. apply next_page_range.
Qed.

Lemma pages_back_iter (k : nat) (start : Z) :
  0 <= start < 2 ^ 32 ->
  pages_back (Nat.iter k next_page start) k = reverse (pages start k).
Proof.
  intros Hs. induction k as [|k IH]; [done|].
  rewrite pages_snoc, reverse_app, Nat.iter_succ. cbn [pages_back].
  rewrite prev_next_page by (by apply iter_next_page_range).
  by rewrite IH.
Qed.

Lemma trailing_wmb_run (s : machine) :
  exists s',
    (if CONFIG_ICS then gret tt else wmb) s = (Ret tt, s') /\
    wrote [] (if CONFIG_ICS then [] else [Wmb]) s s'.
Proof.
  destruct CONFIG_ICS.
  - exists s. split; [done|]. apply wrote_refl.
  - eexists. split; [reflexivity|]. apply gemit_wrote.
Qed.

Lemma trailing_flush_run (g : gart_device) (s : machine) :
  gart s = Some g -> regs g <> 0 ->
  exists s',
    (if CONFIG_ICS then FLUSH_GART_REGS else gret tt) s = (Ret tt, s') /\
    wrote [] (if CONFIG_ICS then [Readl GART_CONFIG (config s)] else []) s s'.
Proof.
  intros Hg Hr. destruct CONFIG_ICS.
  - by apply (FLUSH_GART_REGS_run g).
  - exists s. split; [done|]. apply wrote_refl.
Qed.

Lemma entry_install (l : list (Z * Z)) (s s' : machine) (j : nat) (a v : Z) :
  entries s' = install l (entries s) ->
  NoDup l.*1 -> l !! j = Some (a, v) -> entry s' a = v.
Proof.
  intros He Hnd Hj. unfold entry. by rewrite He, (install_lookup l _ j a v).
Qed.

Lemma gart_unmap_run (iovma : tegra_iovmm_area) (decommit : bool)
    (g : gart_device) (s : machine) :
  gart s = Some g -> regs g <> 0 -> pte_lock g = false ->
  exists s' evs,
    gart_unmap iovma decommit s = (Ret tt, s') /\
    wrote (map (fun a => (a, 0))
             (pages (iovm_start iovma) (area_pages iovma))) evs s s' /\
    released evs =
      (if has_release iovma
       then map page_offset (seq 0 (area_pages iovma)) else []) /\
    made_resident evs = [].
Proof.
  intros Hg Hr Hl. unfold gart_unmap.
  rewrite (gbind_run _ _ _ _ _ (spin_lock_run _ _ Hg Hl)).
  set (gl := set_pte_lock true g).
  set (s1 := mlog [SpinLock] (mput gl s)).
  assert (Hg1 : gart s1 = Some gl) by reflexivity.
  destruct (unmap_loop_run iovma gl (area_pages iovma) 0 (iovm_start iovma)
              s1 Hg1 Hr) as (s2 & evs & Hrun & W2 & Hrel & Hmr).
  rewrite (gbind_run _ _ _ _ _ Hrun).
  assert (Hg2 : gart s2 = Some gl) by (by destruct W2 as (-> & _)).
  destruct (trailing_flush_run gl s2 Hg2 Hr) as (s3 & Hfl & W3).
  rewrite (gbind_run _ _ _ _ _ Hfl).
  assert (Hg3 : gart s3 = Some gl) by (by destruct W3 as (-> & _)).
  rewrite (gbind_run _ _ _ _ _ (spin_unlock_run _ _ Hg3)).
  set (s4 := mlog [SpinUnlock] (mput (set_pte_lock false gl) s3)).
  destruct (trailing_wmb_run s4) as (s5 & Hwmb & W5).
  rewrite Hwmb.
  pose proof (wrote_trans _ _ _ _ _ _ _ W2 W3) as (_ & Hc3 & He3 & Hl3 & Hd3).
  destruct W5 as (Hg5 & Hc5 & He5 & Hl5 & Hd5).
  rewrite app_nil_r in He3. cbn [install foldl] in He5.
  exists s5, ([SpinLock]
              ++ (evs ++ (if CONFIG_ICS
                          then [Readl GART_CONFIG (config s2)] else []))
              ++ [SpinUnlock] ++ (if CONFIG_ICS then [] else [Wmb])).
  split; [reflexivity|].
  split.
  { unfold wrote. split.
    { rewrite Hg5, Hg. cbn. f_equal. unfold gl.
      rewrite set_pte_lock_twice, <- Hl. apply set_pte_lock_id. }
    split; [rewrite Hc5; cbn; by rewrite Hc3|].
    split; [rewrite He5; cbn [entries s4 mlog mput]; by rewrite He3|].
    split; [|rewrite Hd5; cbn; by rewrite Hd3].
    rewrite Hl5. cbn [calls s4 mlog mput]. rewrite Hl3.
    cbn [calls s1 mlog mput]. by rewrite <- !app_assoc. }
  rewrite !released_app, !made_resident_app, Hrel, Hmr.
  destruct CONFIG_ICS; cbn; rewrite ?app_nil_r; by split.
Qed.

(** X21: [gart_unmap] clears the entry of every page of the area and of no
    other page, under the lock, and hands every page to [release] if the
    area has that callback; [decommit] plays no part. *)
Theorem gart_unmap_clears (iovma : tegra_iovmm_area) (decommit : bool)
    (g : gart_device) (s : machine) :
  gart s = Some g -> regs g <> 0 -> pte_lock g = false ->
  0 <= iovm_start iovma ->
  iovm_start iovma + 4096 * Z.of_nat (area_pages iovma) <= 2 ^ 32 ->
  exists s' evs,
    gart_unmap iovma decommit s = (Ret tt, s') /\
    gart s' = Some g /\ config s' = config s /\
    calls s' = calls s ++ evs /\
    (forall j, (j < area_pages iovma)%nat ->
       entry s' (page_addr (iovm_start iovma) j) = 0) /\
    (forall a,
       a ∉ map (page_addr (iovm_start iovma)) (seq 0 (area_pages iovma)) ->
       entries s' !! a = entries s !! a) /\
    released evs =
      (if has_release iovma
       then map page_offset (seq 0 (area_pages iovma)) else []) /\
    made_resident evs = [].
Proof.
  intros Hg Hr Hl H0 H1.
  destruct (gart_unmap_run iovma decommit g s Hg Hr Hl)
    as (s' & evs & Hrun & (Hg' & Hc' & He' & Hl' & _) & Hrel & Hmr).
  rewrite pages_addr in He' by done.
  exists s', evs. split; [exact Hrun|].
  split; [by rewrite Hg'|]. split; [exact Hc'|]. split; [exact Hl'|].
  split.
  { intros j Hj. unfold entry. rewrite He'.
    rewrite install_const_elem; [done|].
    apply list_elem_of_lookup. exists j. by apply page_addr_lookup. }
  split.
  { intros a Ha. rewrite He'. apply install_notin. by rewrite fst_zip_const. }
  by split.
Qed.

Lemma gart_map_ok_run (iovma : tegra_iovmm_area)
    (o : tegra_iovmm_area_ops) (f : list gart_call -> Z -> Z)
    (g : gart_device) (s : machine) :
  gart s = Some g -> regs g <> 0 -> pte_lock g = false ->
  ops iovma = Some o -> lock_makeresident o = Some f ->
  (forall tr j, (j < area_pages iovma)%nat ->
     pfn_valid (f tr (page_offset j)) = true) ->
  exists s' evs pfns,
    gart_map iovma s = (Ret 0, s') /\
    wrote (zip (pages (iovm_start iovma) (area_pages iovma))
             (map GART_PTE pfns)) evs s s' /\
    length pfns = area_pages iovma /\
    Forall (fun p => pfn_valid p = true) pfns /\
    made_resident evs =
      zip (map page_offset (seq 0 (area_pages iovma))) pfns /\
    released evs = [].
Proof.
  intros Hg Hr Hl Ho Hf Hok. unfold gart_map.
  destruct (map_loop_ok iovma o f g (area_pages iovma) Ho Hf Hr Hl 0
              (iovm_start iovma) s Hg)
    as (s1 & evs & pfns & Hrun & W1 & Hlen & Hval & Hmr & Hrel).
  { intros tr j Hj. apply Hok. lia. }
  rewrite (gbind_run _ _ _ _ _ Hrun).
  destruct (trailing_wmb_run s1) as (s2 & Hwmb & W2).
  rewrite (gbind_run _ _ _ _ _ Hwmb).
  pose proof (wrote_trans _ _ _ _ _ _ _ W1 W2) as W.
  rewrite app_nil_r in W.
  exists s2, (evs ++ (if CONFIG_ICS then [] else [Wmb])), pfns.
  split; [reflexivity|]. split; [exact W|].
  split; [exact Hlen|]. split; [exact Hval|].
  split.
  { rewrite made_resident_app, Hmr. destruct CONFIG_ICS; by rewrite app_nil_r. }
  rewrite released_app, Hrel. by destruct CONFIG_ICS.
Qed.

(** X22: [gart_map] on an area whose pages are all found resident: every page
    is made resident once, in order, none is released; the entry of page
    [j] translates to the frame that [lock_makeresident] gave for it; no
    other entry changes; the lock is free again. *)
Theorem gart_map_installs (iovma : tegra_iovmm_area)
    (o : tegra_iovmm_area_ops) (f : list gart_call -> Z -> Z)
    (g : gart_device) (s : machine) :
  gart s = Some g -> regs g <> 0 -> pte_lock g = false ->
  ops iovma = Some o -> lock_makeresident o = Some f ->
  (forall tr j, (j < area_pages iovma)%nat ->
     pfn_valid (f tr (page_offset j)) = true) ->
  0 <= iovm_start iovma ->
  iovm_start iovma + 4096 * Z.of_nat (area_pages iovma) <= 2 ^ 32 ->
  exists s' evs pfns,
    gart_map iovma s = (Ret 0, s') /\
    gart s' = Some g /\ config s' = config s /\
    calls s' = calls s ++ evs /\
    length pfns = area_pages iovma /\
    made_resident evs =
      zip (map page_offset (seq 0 (area_pages iovma))) pfns /\
    released evs = [] /\
    (forall j pfn, pfns !! j = Some pfn ->
       pfn_valid pfn = true /\
       entry s' (page_addr (iovm_start iovma) j) = GART_PTE pfn) /\
    (forall a,
       a ∉ map (page_addr (iovm_start iovma)) (seq 0 (area_pages iovma)) ->
       entries s' !! a = entries s !! a).
Proof.
  intros Hg Hr Hl Ho Hf Hok H0 H1.
  destruct (gart_map_ok_run iovma o f g s Hg Hr Hl Ho Hf Hok)
    as (s2 & evs & pfns & Hrun & (Hg2 & Hc2 & He2 & Hl2 & _) & Hlen & Hval
        & Hmr & Hrel).
  rewrite pages_addr in He2 by done.
  exists s2, evs, pfns.
  split; [exact Hrun|].
  split; [by rewrite Hg2|]. split; [exact Hc2|]. split; [exact Hl2|].
  split; [exact Hlen|]. split; [exact Hmr|]. split; [exact Hrel|].
  split.
  - intros j pfn Hj.
    split; [by apply (Forall_lookup_1 _ _ _ _ Hval Hj)|].
    apply (entry_install _ s s2 j _ _ He2).
    + rewrite fst_zip; [apply NoDup_page_addrs|].
      rewrite !length_map, length_seq. lia.
    + apply lookup_zip_Some. split.
      * apply page_addr_lookup. apply lookup_lt_Some in Hj. lia.
      * by rewrite list_lookup_fmap, Hj.
  - intros a Ha. rewrite He2. apply install_notin.
    rewrite fst_zip; [done|]. rewrite !length_map, length_seq. lia.
Qed.

(** X23: [gart_map] when page [k] is the first that is not resident: the call
    returns [-ENOMEM]; the [k] pages made resident before are released, last
    first, and the page that failed is not; the entries of these [k] pages
    are cleared (whatever they held before the call), no other entry
    changes, and the lock is free again.  The undo calls [release] without
    the test that [gart_unmap] makes: on an area without that callback it
    goes through the null pointer, with the lock held. *)
Theorem gart_map_rollback (iovma : tegra_iovmm_area)
    (o : tegra_iovmm_area_ops) (f : list gart_call -> Z -> Z)
    (g : gart_device) (s : machine) (k : nat) :
  gart s = Some g -> regs g <> 0 -> pte_lock g = false ->
  ops iovma = Some o -> lock_makeresident o = Some f ->
  (k < area_pages iovma)%nat ->
  (forall tr j, (j < k)%nat -> pfn_valid (f tr (page_offset j)) = true) ->
  (forall tr, pfn_valid (f tr (page_offset k)) = false) ->
  0 <= iovm_start iovma ->
  iovm_start iovma + 4096 * Z.of_nat (area_pages iovma) <= 2 ^ 32 ->
  (release o = true ->
   exists s' evs pfns bad,
     gart_map iovma s = (Ret (- ENOMEM), s') /\
     gart s' = Some g /\ config s' = config s /\
     calls s' = calls s ++ evs /\
     length pfns = k /\
     made_resident evs =
       zip (map page_offset (seq 0 k)) pfns ++ [(page_offset k, bad)] /\
     pfn_valid bad = false /\
     released evs = map page_offset (reverse (seq 0 k)) /\
     (forall j, (j < k)%nat ->
        entry s' (page_addr (iovm_start iovma) j) = 0) /\
     (forall a,
        a ∉ map (page_addr (iovm_start iovma)) (seq 0 k) ->
        entries s' !! a = entries s !! a))
  /\
  (release o = false -> (0 < k)%nat ->
   exists s',
     gart_map iovma s = (Stop Fault, s') /\
     gart s' = Some (set_pte_lock true g) /\
     released (calls s') = released (calls s)).
Proof.
  intros Hg Hr Hl Ho Hf Hk Hok Hbad H0 H1. unfold gart_map.
  destruct (map_loop_fail iovma o f g k Ho Hf Hr Hl (area_pages iovma) 0
              (iovm_start iovma) s Hg Hk)
    as (s1 & evs & pfns & bad & Hrun & W1 & Hlen & Hmr & Hinv & Hrel).
  { intros tr j Hj. apply Hok. lia. }
  { exact Hbad. }
  rewrite (gbind_run _ _ _ _ _ Hrun). cbn [Nat.add].
  assert (Hg1 : gart s1 = Some g) by (by destruct W1 as (-> & _)).
  rewrite (gbind_run _ _ _ _ _ (spin_lock_run _ _ Hg1 Hl)).
  set (gl := set_pte_lock true g).
  set (s2 := mlog [SpinLock] (mput gl s1)).
  assert (Hg2 : gart s2 = Some gl) by reflexivity.
  split.
  - intros Hhas.
    assert (Hrelease : has_release iovma = true).
    { unfold has_release. by rewrite Ho. }
    destruct (map_undo_run iovma gl k Hrelease
                (Nat.iter k next_page (iovm_start iovma)) s2 Hg2 Hr)
      as (s3 & evs3 & Hundo & W3 & Hrel3 & Hmr3).
    rewrite (gbind_run _ _ _ _ _ Hundo).
    assert (Hg3 : gart s3 = Some gl) by (by destruct W3 as (-> & _)).
    destruct (trailing_flush_run gl s3 Hg3 Hr) as (s4 & Hfl & W4).
    rewrite (gbind_run _ _ _ _ _ Hfl).
    assert (Hg4 : gart s4 = Some gl) by (by destruct W4 as (-> & _)).
    rewrite (gbind_run _ _ _ _ _ (spin_unlock_run _ _ Hg4)).
    set (s5 := mlog [SpinUnlock] (mput (set_pte_lock false gl) s4)).
    destruct (trailing_wmb_run s5) as (s6 & Hwmb & W6).
    rewrite (gbind_run _ _ _ _ _ Hwmb).
    destruct W1 as (_ & Hc1 & He1 & Hl1 & _).
    destruct (wrote_trans _ _ _ _ _ _ _ W3 W4) as (_ & Hc4 & He4 & Hl4 & _).
    destruct W6 as (Hg6 & Hc6 & He6 & Hl6 & _).
    rewrite app_nil_r in He4. cbn [install foldl] in He6.
    assert (Hstart : 0 <= iovm_start iovma < 2 ^ 32) by lia.
    rewrite pages_back_iter in He4 by done.
    rewrite pages_addr in He4, He1 by lia.
    exists s6,
      (evs ++ [SpinLock]
       ++ (evs3 ++ (if CONFIG_ICS
                    then [Readl GART_CONFIG (config s3)] else []))
       ++ [SpinUnlock] ++ (if CONFIG_ICS then [] else [Wmb])),
      pfns, bad.
    split; [reflexivity|].
    split.
    { rewrite Hg6. cbn. f_equal. unfold gl.
      rewrite set_pte_lock_twice, <- Hl. apply set_pte_lock_id. }
    split; [rewrite Hc6; cbn; by rewrite Hc4; cbn|].
    split.
    { rewrite Hl6. cbn [calls s5 mlog mput]. rewrite Hl4.
      cbn [calls s2 mlog mput]. rewrite Hl1. by rewrite <- !app_assoc. }
    split; [exact Hlen|].
    split.
    { rewrite !made_resident_app, Hmr, Hmr3.
      destruct CONFIG_ICS; cbn; by rewrite ?app_nil_r. }
    split; [exact Hinv|].
    split.
    { rewrite !released_app, Hrel, Hrel3.
      destruct CONFIG_ICS; cbn; by rewrite ?app_nil_r. }
    assert (He : entries s6 =
                 install (map (fun a => (a, 0))
                            (reverse (map (page_addr (iovm_start iovma))
                                        (seq 0 k))))
                   (install (zip (map (page_addr (iovm_start iovma))
                                    (seq 0 k))
                               (map GART_PTE pfns))
                      (entries s))).
    { rewrite He6. cbn [entries s5 mlog mput]. rewrite He4.
      cbn [entries s2 mlog mput]. by rewrite He1. }
    split.
    + intros j Hj. unfold entry. rewrite He.
      rewrite install_const_elem; [done|].
      apply elem_of_reverse, list_elem_of_lookup. exists j.
      by apply page_addr_lookup.
    + intros a Ha. rewrite He.
      rewrite install_notin.
      * apply install_notin. rewrite fst_zip; [done|].
        rewrite !length_map, length_seq. lia.
      * rewrite fst_zip_const. by rewrite elem_of_reverse.
  - intros Hno Hpos. destruct k as [|k]; [lia|].
    cbn [map_undo].
    assert (Hcall : call_release iovma (page_offset k) s2 = (Stop Fault, s2)).
    { unfold call_release. by rewrite Ho, Hno. }
    rewrite (gbind_stop _ _ _ _ _ (gbind_stop _ _ _ _ _ Hcall)).
    exists s2. split; [reflexivity|]. split; [reflexivity|].
    destruct W1 as (_ & _ & _ & Hl1 & _).
    cbn [calls s2 mlog mput]. rewrite Hl1, !released_app, Hrel.
    cbn. by rewrite !app_nil_r.
Qed.

(** X24: [gart_map_pfn] refuses an invalid frame before it touches the lock or
    the hardware; otherwise it makes the entry at [offs] translate to the
    frame, changes no other entry, and leaves the lock free. *)
Theorem gart_map_pfn_installs (iovma : tegra_iovmm_area) (offs pfn : Z)
    (g : gart_device) (s : machine) :
  gart s = Some g -> regs g <> 0 -> pte_lock g = false ->
  (pfn_valid pfn = false ->
   gart_map_pfn iovma offs pfn s = (Stop Bug, s))
  /\
  (pfn_valid pfn = true ->
   exists s',
     gart_map_pfn iovma offs pfn s = (Ret tt, s') /\
     gart s' = Some g /\ config s' = config s /\
     entry s' offs = GART_PTE pfn /\
     (forall a, a <> offs -> entries s' !! a = entries s !! a) /\
     calls s' =
       calls s ++ [SpinLock]
       ++ map_block_events offs (GART_PTE pfn) (config s)
       ++ [SpinUnlock] ++ (if CONFIG_ICS then [] else [Wmb])).
Proof.
  intros Hg Hr Hl. unfold gart_map_pfn. split; intros Hv; rewrite Hv.
  - reflexivity.
  - cbn [negb G_BUG_ON].
    assert (Hret : gret tt s = (Ret tt, s)) by reflexivity.
    rewrite (gbind_run _ _ _ _ _ Hret).
    destruct (locked_entry_run (if CONFIG_ICS then gret tt else wmb)
                offs (GART_PTE pfn) g s Hg Hr Hl) as (s1 & Hstep & W1).
    rewrite Hstep.
    destruct (trailing_wmb_run s1) as (s2 & Hwmb & W2).
    rewrite Hwmb.
    destruct (wrote_trans _ _ _ _ _ _ _ W1 W2) as (Hg2 & Hc2 & He2 & Hl2 & _).
    exists s2. split; [reflexivity|].
    split; [by rewrite Hg2|]. split; [exact Hc2|].
    cbn [app install foldl fst snd] in He2.
    split; [unfold entry; by rewrite He2, lookup_insert_eq|].
    split; [intros a Ha; by rewrite He2, lookup_insert_ne|].
    rewrite Hl2. by rewrite <- !app_assoc.
Qed.

(** The save area after the loop of [gart_suspend] ran over [n] entries
    from index [i] on. *)
Lemma suspend_loop_run (g : gart_device) (n : nat) :
  regs g <> 0 ->
  forall (i : nat) (reg : Z) (sd : list Z) (s : machine),
    gart s = Some (set_savedata (Some sd) g) ->
    (i + n <= length sd)%nat ->
    exists s' evs,
      suspend_loop n i reg s = (Ret tt, s') /\
      gart s' =
        Some (set_savedata
                (Some (take i sd ++ map (entry s) (pages reg n)
                       ++ drop (i + n) sd)) g) /\
      config s' = config s /\ entries s' = entries s /\
      calls s' = calls s ++ evs /\
      released evs = [] /\ made_resident evs = [].
Proof.
  intros Hr. induction n as [|n IH]; intros i reg sd s Hg Hlen.
  - exists s, []. cbn [suspend_loop pages map app].
    rewrite Nat.add_0_r, take_drop, app_nil_r. by rewrite Hg.
  - cbn [suspend_loop].
    assert (Hr' : regs (set_savedata (Some sd) g) <> 0) by exact Hr.
    rewrite (gbind_run _ _ _ _ _ (writel_run _ _ _ _ Hg Hr')).
    set (s1 := mlog [Writel reg GART_ENTRY_ADDR]
                 (hw_write reg GART_ENTRY_ADDR s)).
    assert (Hg1 : gart s1 = Some (set_savedata (Some sd) g)) by exact Hg.
    rewrite (gbind_run _ _ _ _ _ (readl_run _ _ _ Hg1 Hr')).
    assert (Hv : hw_read GART_ENTRY_DATA s1 = entry s reg) by reflexivity.
    rewrite Hv.
    set (s2 := mlog [Readl GART_ENTRY_DATA (entry s reg)] s1).
    assert (Hg2 : gart s2 = Some (set_savedata (Some sd) g)) by exact Hg.
    rewrite (gbind_run _ _ _ _ _ (load_gart_run _ _ Hg2)).
    cbn [savedata set_savedata].
    destruct (lookup_lt_is_Some_2 sd i) as [x Hx]; [lia|].
    set (sd1 := <[i := entry s reg]> sd).
    set (s3 := mput (set_savedata (Some sd1) g) s2).
    assert (Hst : (let* sd' := gwrite_index sd i (entry s reg) in
                   store_gart (set_savedata (Some sd')
                                 (set_savedata (Some sd) g))) s2
                  = (Ret tt, s3)).
    { unfold gwrite_index. by rewrite Hx. }
    rewrite (gbind_run _ _ _ _ _ Hst).
    assert (Hdmb : exists s4,
               (if CONFIG_ICS then gret tt else dmb) s3 = (Ret tt, s4) /\
               wrote [] (if CONFIG_ICS then [] else [Dmb]) s3 s4).
    { destruct CONFIG_ICS.
      - exists s3. split; [done|]. apply wrote_refl.
      - eexists. split; [reflexivity|]. apply gemit_wrote. }
    destruct Hdmb as (s4 & Hdmb & W4).
    rewrite (gbind_run _ _ _ _ _ Hdmb).
    destruct W4 as (Hg4 & Hc4 & He4 & Hl4 & _). cbn [install foldl] in He4.
    assert (Hg4' : gart s4 = Some (set_savedata (Some sd1) g))
      by (by rewrite Hg4).
    destruct (IH (S i) (next_page reg) sd1 s4 Hg4')
      as (s5 & evs & Hrun & Hg5 & Hc5 & He5 & Hl5 & Hrel & Hmr).
    { unfold sd1. rewrite length_insert. lia. }
    exists s5,
      ([Writel reg GART_ENTRY_ADDR; Readl GART_ENTRY_DATA (entry s reg)]
       ++ (if CONFIG_ICS then [] else [Dmb]) ++ evs).
    split; [exact Hrun|].
    assert (Hent : forall a, entry s4 a = entry s a).
    { intros a. unfold entry. by rewrite He4. }
    split.
    { rewrite Hg5. do 3 f_equal. cbn [pages map].
      rewrite (map_ext _ _ Hent).
      unfold sd1.
      rewrite (take_S_r _ _ (entry s reg)) by apply list_lookup_insert_eq, (lookup_lt_Some _ _ _ Hx).
      rewrite take_insert_ge by lia.
      rewrite drop_insert_lt by lia.
      rewrite <- app_assoc. cbn [app].
      by replace (S i + n)%nat with (i + S n)%nat by lia. }
    split; [by rewrite Hc5, Hc4|].
    split; [by rewrite He5, He4|].
    split.
    { rewrite Hl5, Hl4. cbn [calls s3 s2 s1 mput mlog hw_write].
      by rewrite <- !app_assoc. }
    rewrite !released_app, !made_resident_app, Hrel, Hmr.
    destruct CONFIG_ICS; by cbn.
Qed.

(** The loop of [do_gart_setup] writes the save area back, or zeros. *)
Lemma setup_loop_run (g : gart_device) (data : option (list Z)) (n : nat) :
  regs g <> 0 ->
  forall (i : nat) (reg : Z) (s : machine),
    gart s = Some g ->
    match data with
    | Some d => (i + n <= length d)%nat
    | None => True
    end ->
    exists s' evs,
      setup_loop data n i reg s = (Ret tt, s') /\
      wrote (zip (pages reg n)
               (match data with
                | Some d => take n (drop i d)
                | None => replicate n 0
                end)) evs s s' /\
      released evs = [] /\ made_resident evs = [] /\ lifecycle evs = [].
Proof.
  intros Hr. induction n as [|n IH]; intros i reg s Hg Hlen.
  - exists s, []. split; [done|]. split; [|done].
    destruct data; apply wrote_refl.
  - cbn [setup_loop].
    set (v := match data with
              | Some d => default 0 (d !! i)
              | None => 0
              end).
    assert (Hv : match data with
                 | Some d => gindex d i
                 | None => gret 0
                 end s = (Ret v, s)).
    { unfold v. destruct data as [d|]; [|done].
      destruct (lookup_lt_is_Some_2 d i) as [x Hx]; [lia|].
      unfold gindex. by rewrite Hx. }
    rewrite (gbind_run _ _ _ _ _ Hv).
    destruct (pte_block_run reg v g s Hg Hr) as (s1 & Hblk & W1).
    rewrite (gbind_run _ _ _ _ _ Hblk).
    assert (Hg1 : gart s1 = Some g) by (by destruct W1 as (-> & _)).
    destruct (IH (S i) (next_page reg) s1 Hg1) as (s2 & evs & Hrun & W2
                                                   & Hrel & Hmr & Hlc).
    { destruct data; [lia|done]. }
    exists s2, (pte_events reg v ++ evs).
    split; [exact Hrun|]. split.
    { pose proof (wrote_trans _ _ _ _ _ _ _ W1 W2) as W.
      replace (zip (pages reg (S n))
                 match data with
                 | Some d => take (S n) (drop i d)
                 | None => replicate (S n) 0
                 end)
        with ([(reg, v)] ++
              zip (pages (next_page reg) n)
                match data with
                | Some d => take n (drop (S i) d)
                | None => replicate n 0
                end); [exact W|].
      unfold v. destruct data as [d|]; [|done].
      destruct (lookup_lt_is_Some_2 d i) as [x Hx]; [lia|].
      rewrite (drop_S _ _ _ Hx), Hx. reflexivity. }
    rewrite !released_app, !made_resident_app, !lifecycle_app, Hrel, Hmr, Hlc.
    unfold pte_events. destruct CONFIG_ICS; by cbn.
Qed.

Lemma do_gart_setup_run (g : gart_device) (data : option (list Z))
    (s : machine) :
  gart s = Some g -> regs g <> 0 ->
  match data with
  | Some d => (Z.to_nat (page_count g) <= length d)%nat
  | None => True
  end ->
  exists s' evs,
    do_gart_setup data s = (Ret tt, s') /\
    gart s' = Some g /\ config s' = 1 /\
    entries s' =
      install (zip (pages (iovmm_base g) (Z.to_nat (page_count g)))
                 (match data with
                  | Some d => take (Z.to_nat (page_count g)) d
                  | None => replicate (Z.to_nat (page_count g)) 0
                  end)) (entries s) /\
    calls s' = calls s ++ evs /\
    released evs = [] /\ made_resident evs = [] /\
    drvdata s' = drvdata s /\ lifecycle evs = [].
Proof.
  intros Hg Hr Hlen. unfold do_gart_setup.
  rewrite (gbind_run _ _ _ _ _ (writel_run _ _ _ _ Hg Hr)).
  set (s1 := mlog [Writel 1 GART_CONFIG] (hw_write 1 GART_CONFIG s)).
  assert (Hg1 : gart s1 = Some g) by exact Hg.
  rewrite (gbind_run _ _ _ _ _ (load_gart_run _ _ Hg1)).
  destruct (setup_loop_run g data (Z.to_nat (page_count g)) Hr 0
              (iovmm_base g) s1 Hg1) as (s2 & evs & Hrun & W2 & Hrel & Hmr
                                         & Hlc).
  { destruct data; [lia|done]. }
  rewrite (gbind_run _ _ _ _ _ Hrun).
  assert (Hg2 : gart s2 = Some g) by (by destruct W2 as (-> & _)).
  assert (Hfin : exists s3,
             (if CONFIG_ICS then FLUSH_GART_REGS else wmb) s2 = (Ret tt, s3) /\
             wrote [] (if CONFIG_ICS
                       then [Readl GART_CONFIG (config s2)] else [Wmb])
               s2 s3).
  { destruct CONFIG_ICS.
    - by apply (FLUSH_GART_REGS_run g).
    - eexists. split; [reflexivity|]. apply gemit_wrote. }
  destruct Hfin as (s3 & Hfin & W3).
  destruct (wrote_trans _ _ _ _ _ _ _ W2 W3) as (Hg3 & Hc3 & He3 & Hl3 & Hd3).
  rewrite app_nil_r in He3.
  exists s3,
    ([Writel 1 GART_CONFIG]
     ++ evs ++ (if CONFIG_ICS
                then [Readl GART_CONFIG (config s2)] else [Wmb])).
  split; [exact Hfin|].
  split; [by rewrite Hg3|]. split; [by rewrite Hc3|].
  split; [rewrite He3; by destruct data|].
  split; [rewrite Hl3; cbn [calls s1 mlog hw_write]; by rewrite <- !app_assoc|].
  rewrite !released_app, !made_resident_app, !lifecycle_app, Hrel, Hmr, Hlc.
  split; [by destruct CONFIG_ICS|]. split; [by destruct CONFIG_ICS|].
  split; [by rewrite Hd3|]. by destruct CONFIG_ICS.
Qed.

(** X25: [gart_suspend] copies the entries of the aperture to the save area and
    changes nothing in the hardware table; after that, whatever the
    hardware holds when [gart_resume] is called (its state is lost while
    power is off), [gart_resume] switches the GART on and makes every entry
    of the aperture what it was at [gart_suspend]; entries outside the
    aperture are left as found. *)
Theorem gart_suspend_resume_restores (g : gart_device) (sd : list Z)
    (s : machine) :
  gart s = Some g -> regs g <> 0 -> pte_lock g = false ->
  enable g = true -> savedata g = Some sd ->
  length sd = Z.to_nat (page_count g) ->
  0 <= iovmm_base g ->
  iovmm_base g + 4096 * Z.of_nat (Z.to_nat (page_count g)) <= 2 ^ 32 ->
  exists s1 g1,
    gart_suspend s = (Ret 0, s1) /\
    gart s1 = Some g1 /\
    g1 = set_savedata
           (Some (map (fun j => entry s (page_addr (iovmm_base g) j))
                    (seq 0 (Z.to_nat (page_count g))))) g /\
    config s1 = config s /\ entries s1 = entries s /\
    forall (c a : Z) (t : gmap Z Z),
      exists s2,
        gart_resume (power_lost c a t s1) = (Ret tt, s2) /\
        gart s2 = Some g1 /\ config s2 = 1 /\
        (forall j, (j < Z.to_nat (page_count g))%nat ->
           entry s2 (page_addr (iovmm_base g) j)
           = entry s (page_addr (iovmm_base g) j)) /\
        (forall b,
           b ∉ map (page_addr (iovmm_base g))
                 (seq 0 (Z.to_nat (page_count g))) ->
           entries s2 !! b = t !! b).
Proof.
  intros Hg Hr Hl Hen Hsd Hlen H0 H1.
  set (n := Z.to_nat (page_count g)) in *.
  set (gl := set_pte_lock true g).
  assert (Hgl : gl = set_savedata (Some sd) gl).
  { unfold gl. destruct g; cbn in *. by subst. }
  (* suspend *)
  set (s0 := mlog [SpinLock] (mput gl s)).
  assert (Hg0 : gart s0 = Some (set_savedata (Some sd) gl))
    by (cbn; by rewrite <- Hgl).
  destruct (suspend_loop_run gl n Hr 0 (iovmm_base g) sd s0 Hg0)
    as (s1 & evs & Hrun & Hg1 & Hc1 & He1 & Hl1 & _); [lia|].
  cbn [take app Nat.add] in Hg1.
  rewrite (drop_ge sd n), app_nil_r in Hg1 by lia.
  rewrite pages_addr, map_map in Hg1 by (fold n; lia).
  set (saved := map (fun j => entry s (page_addr (iovmm_base g) j)) (seq 0 n)).
  assert (Hsaved : map (fun x => entry s0 (page_addr (iovmm_base g) x))
                     (seq 0 n) = saved) by reflexivity.
  rewrite Hsaved in Hg1.
  set (g1 := set_savedata (Some saved) g).
  assert (Hsusp : gart_suspend s =
                  (Ret 0,
                   mlog [SpinUnlock] (mput (set_pte_lock false
                                              (set_savedata (Some saved) gl))
                                        s1))).
  { unfold gart_suspend, gart_pointer. cbn [gbind]. rewrite Hg, Hen.
    cbn [negb].
    rewrite (gbind_run _ _ _ _ _ (spin_lock_run _ _ Hg Hl)).
    fold gl s0. fold n. rewrite (gbind_run _ _ _ _ _ Hrun).
    by rewrite (gbind_run _ _ _ _ _ (spin_unlock_run _ _ Hg1)). }
  assert (Hg1' : set_pte_lock false (set_savedata (Some saved) gl) = g1).
  { unfold g1, gl. destruct g; cbn in *. by subst. }
  rewrite Hg1' in Hsusp.
  eexists _, g1. split; [exact Hsusp|].
  split; [reflexivity|]. split; [reflexivity|].
  split; [exact Hc1|]. split; [exact He1|].
  (* resume *)
  intros c a t.
  set (s2 := power_lost c a t (mlog [SpinUnlock] (mput g1 s1))).
  assert (Hg2 : gart s2 = Some g1) by reflexivity.
  assert (Hl1' : pte_lock g1 = false) by exact Hl.
  assert (Hr1 : regs g1 <> 0) by exact Hr.
  unfold gart_resume, gart_pointer. cbn [gbind]. rewrite Hg2.
  assert (Hen1 : enable g1 = true) by exact Hen.
  rewrite Hen1. cbn [negb andb orb savedata g1 set_savedata].
  rewrite (gbind_run _ _ _ _ _ (spin_lock_run _ _ Hg2 Hl1')).
  set (g1l := set_pte_lock true g1).
  set (s3 := mlog [SpinLock] (mput g1l s2)).
  assert (Hg3 : gart s3 = Some g1l) by reflexivity.
  destruct (do_gart_setup_run g1l (Some saved) s3 Hg3 Hr1)
    as (s6 & evs6 & Hrun6 & Hg6 & Hc6 & He6 & _).
  { cbn [page_count g1l g1 set_pte_lock set_savedata]. fold n.
    unfold saved. rewrite length_map, length_seq. lia. }
  rewrite (gbind_run _ _ _ _ _ Hrun6).
  rewrite (spin_unlock_run _ _ Hg6).
  cbn [page_count iovmm_base g1l g1 set_pte_lock set_savedata] in He6.
  fold n in He6.
  rewrite pages_addr in He6 by (fold n; lia).
  rewrite firstn_all2 in He6
    by (unfold saved; rewrite length_map, length_seq; lia).
  eexists. split; [reflexivity|].
  cbn [gart config entries mlog mput].
  split.
  { f_equal. unfold g1l. rewrite set_pte_lock_twice, <- Hl1'.
    apply set_pte_lock_id. }
  split; [by rewrite Hc6|].
  split.
  - intros j Hj. unfold entry at 1. cbn [entries mlog mput]. rewrite He6.
    rewrite (install_lookup _ _ j (page_addr (iovmm_base g) j)
               (entry s (page_addr (iovmm_base g) j))); [done| |].
    + rewrite fst_zip; [apply NoDup_page_addrs|].
      unfold saved. rewrite !length_map. lia.
    + apply lookup_zip_Some. split; [by apply page_addr_lookup|].
      unfold saved. by rewrite list_lookup_fmap, lookup_seq_lt.
  - intros b Hb. cbn [entries mlog mput]. rewrite He6.
    rewrite install_notin; [done|].
    rewrite fst_zip; [done|]. unfold saved. rewrite !length_map. lia.
Qed.

(** X26: [gart_map] and then [gart_unmap] of the same area: every entry of the
    area is cleared again and no other entry has changed; every page that
    the map made resident is handed to [release] by the unmap, once and in
    the same order (if the area has that callback). *)
Theorem gart_map_then_unmap (iovma : tegra_iovmm_area)
    (o : tegra_iovmm_area_ops) (f : list gart_call -> Z -> Z)
    (g : gart_device) (s : machine) (decommit : bool) :
  gart s = Some g -> regs g <> 0 -> pte_lock g = false ->
  ops iovma = Some o -> lock_makeresident o = Some f ->
  (forall tr j, (j < area_pages iovma)%nat ->
     pfn_valid (f tr (page_offset j)) = true) ->
  0 <= iovm_start iovma ->
  iovm_start iovma + 4096 * Z.of_nat (area_pages iovma) <= 2 ^ 32 ->
  exists s' evs,
    (let* _ := gart_map iovma in gart_unmap iovma decommit) s
    = (Ret tt, s') /\
    gart s' = Some g /\ config s' = config s /\
    calls s' = calls s ++ evs /\
    (forall j, (j < area_pages iovma)%nat ->
       entry s' (page_addr (iovm_start iovma) j) = 0) /\
    (forall a,
       a ∉ map (page_addr (iovm_start iovma)) (seq 0 (area_pages iovma)) ->
       entries s' !! a = entries s !! a) /\
    (made_resident evs).*1 = map page_offset (seq 0 (area_pages iovma)) /\
    released evs = (if release o then (made_resident evs).*1 else []).
Proof.
  intros Hg Hr Hl Ho Hf Hok H0 H1.
  destruct (gart_map_ok_run iovma o f g s Hg Hr Hl Ho Hf Hok)
    as (s1 & evs1 & pfns & Hrun1 & W1 & Hlen & _ & Hmr1 & Hrel1).
  assert (Hg1 : gart s1 = Some g) by (by destruct W1 as (-> & _)).
  destruct (gart_unmap_run iovma decommit g s1 Hg1 Hr Hl)
    as (s2 & evs2 & Hrun2 & W2 & Hrel2 & Hmr2).
  destruct (wrote_trans _ _ _ _ _ _ _ W1 W2) as (Hg2 & Hc2 & He2 & Hl2 & _).
  rewrite install_app, pages_addr in He2 by done.
  exists s2, (evs1 ++ evs2).
  split; [by rewrite (gbind_run _ _ _ _ _ Hrun1)|].
  split; [by rewrite Hg2|]. split; [exact Hc2|]. split; [exact Hl2|].
  split.
  { intros j Hj. unfold entry. rewrite He2.
    rewrite install_const_elem; [done|].
    apply list_elem_of_lookup. exists j. by apply page_addr_lookup. }
  split.
  { intros a Ha. rewrite He2. rewrite install_notin.
    - apply install_notin. rewrite fst_zip; [done|].
      rewrite !length_map, length_seq. lia.
    - by rewrite fst_zip_const. }
  assert (Hfst : (made_resident (evs1 ++ evs2)).*1 =
                 map page_offset (seq 0 (area_pages iovma))).
  { rewrite made_resident_app, Hmr1, Hmr2, app_nil_r.
    apply fst_zip. rewrite !length_map, length_seq. lia. }
  split; [exact Hfst|].
  rewrite Hfst, released_app, Hrel1, Hrel2. cbn [app].
  unfold has_release. by rewrite Ho.
Qed.

(** [do_gart_setup] without data, as [gart_probe] calls it: the GART is
    switched on and every entry of the aperture is cleared; entries outside
    the aperture are not touched, and no page callback is made. *)
Theorem do_gart_setup_clears (g : gart_device) (s : machine) :
  gart s = Some g -> regs g <> 0 ->
  0 <= iovmm_base g ->
  iovmm_base g + 4096 * Z.of_nat (Z.to_nat (page_count g)) <= 2 ^ 32 ->
  exists s' evs,
    do_gart_setup None s = (Ret tt, s') /\
    gart s' = Some g /\ config s' = 1 /\
    calls s' = calls s ++ evs /\
    (forall j, (j < Z.to_nat (page_count g))%nat ->
       entry s' (page_addr (iovmm_base g) j) = 0) /\
    (forall b,
       b ∉ map (page_addr (iovmm_base g))
             (seq 0 (Z.to_nat (page_count g))) ->
       entries s' !! b = entries s !! b) /\
    released evs = [] /\ made_resident evs = [].
Proof.
  intros Hg Hr H0 H1.
  destruct (do_gart_setup_run g None s Hg Hr I)
    as (s' & evs & Hrun & Hg' & Hc' & He' & Hl' & Hrel & Hmr & _).
  rewrite pages_addr in He' by done.
  exists s', evs. split; [exact Hrun|].
  split; [exact Hg'|]. split; [exact Hc'|]. split; [exact Hl'|].
  split.
  { intros j Hj.
    apply (entry_install _ s s' j _ _ He').
    - rewrite fst_zip; [apply NoDup_page_addrs|].
      rewrite length_map, length_seq, length_replicate. lia.
    - apply lookup_zip_Some. split; [by apply page_addr_lookup|].
      by apply lookup_replicate_2. }
  split.
  { intros b Hb. rewrite He'. apply install_notin.
    rewrite fst_zip; [done|].
    rewrite length_map, length_seq, length_replicate. lia. }
  by split.
Qed.

Lemma lor_bit31 (x : Z) :
  0 <= x -> Z.lor (2 ^ 31) x mod 2 ^ 32 = 2 ^ 31 + x mod 2 ^ 31.
Proof.
  intros Hx.
  apply Z.bits_inj'. intros n Hn.
  destruct (Z.lt_ge_cases n 32) as [Hlt|Hge].
  - rewrite Z.mod_pow2_bits_low by lia.
    rewrite Z.lor_spec, Z.pow2_bits_eqb by lia.
    destruct (Z.eqb_spec 31 n) as [<-|Hne].
    + cbn [orb].
      assert (H := Z.mod_pos_bound x (2 ^ 31) ltac:(lia)).
      symmetry.
      rewrite <- (Z.mul_1_l (2 ^ 31)) at 1.
      rewrite Z.add_comm.
      rewrite Z.testbit_eqb by lia.
      rewrite Z.div_add by lia.
      rewrite Z.div_small by lia. reflexivity.
    + cbn [orb].
      assert (n < 31) by lia.
      symmetry.
      rewrite <- (Z.mod_pow2_bits_low _ 31) by lia.
      rewrite Z.add_mod by lia. rewrite Z.mod_same by lia.
      rewrite Z.add_0_l, !Z.mod_mod by lia.
      by rewrite Z.mod_pow2_bits_low by lia.
  - rewrite Z.mod_pow2_bits_high by lia.
    assert (H := Z.mod_pos_bound x (2 ^ 31) ltac:(lia)).
    symmetry. apply Z.bits_above_log2; [lia|].
    apply Z.log2_lt_pow2; [lia|].
    apply Z.lt_le_trans with (2 ^ 32); [lia|].
    apply Z.pow_le_mono_r; lia.
Qed.

(** X27: [GART_PTE]: bit 31 marks the entry valid, so that an entry made by
    [GART_PTE] is never the cleared entry 0.  The frame number shares bit
    31 with that mark: with 4 KiB pages only the low 19 bits of the frame
    number are kept, frames that differ by [2 ^ 19] get the same entry, and
    below [2 ^ 19] the frame is recovered from the entry. *)
Theorem GART_PTE_valid_bit (pfn : Z) :
  0 <= PAGE_SHIFT -> 0 <= pfn ->
  GART_PTE pfn = 2 ^ 31 + (pfn * 2 ^ PAGE_SHIFT) mod 2 ^ 31 /\
  Z.testbit (GART_PTE pfn) 31 = true /\
  GART_PTE pfn <> 0 /\
  (PAGE_SHIFT = 12 ->
   (GART_PTE pfn - 2 ^ 31) / 4096 = pfn mod 2 ^ 19 /\
   GART_PTE (pfn + 2 ^ 19) = GART_PTE pfn /\
   (pfn < 2 ^ 19 -> GART_PTE pfn = 2 ^ 31 + 4096 * pfn)).
Proof.
  intros Hs Hp.
  assert (Heq : forall p, 0 <= p ->
            GART_PTE p = 2 ^ 31 + (p * 2 ^ PAGE_SHIFT) mod 2 ^ 31).
  { intros p Hp0. unfold GART_PTE, wrap_ulong.
    change 0x80000000 with (2 ^ 31).
    rewrite Z.shiftl_mul_pow2 by done.
    apply lor_bit31. apply Z.mul_nonneg_nonneg; [done|].
    apply Z.pow_nonneg. lia. }
  assert (Hm := Z.mod_pos_bound (pfn * 2 ^ PAGE_SHIFT) (2 ^ 31) ltac:(lia)).
  split; [by apply Heq|].
  split.
  { rewrite Heq by done.
    rewrite <- (Z.mul_1_l (2 ^ 31)) at 1. rewrite Z.add_comm.
    rewrite Z.testbit_eqb by lia.
    rewrite Z.div_add by lia. by rewrite Z.div_small by lia. }
  split; [rewrite Heq by done; lia|].
  intros ->.
  assert (H12 : forall p, (p * 2 ^ 12) mod 2 ^ 31 = 4096 * (p mod 2 ^ 19)).
  { intros p. change (2 ^ 31) with (4096 * 2 ^ 19). change (2 ^ 12) with 4096.
    rewrite (Z.mul_comm p). apply Z.mul_mod_distr_l; lia. }
  split.
  { rewrite Heq, H12 by done.
    replace (2 ^ 31 + 4096 * (pfn mod 2 ^ 19) - 2 ^ 31)
      with ((pfn mod 2 ^ 19) * 4096) by lia.
    apply Z.div_mul. lia. }
  split.
  { rewrite !Heq, !H12 by lia. do 2 f_equal.
    rewrite <- (Z.mul_1_l (2 ^ 19)) at 1. apply Z.mod_add. lia. }
  intros Hlt. rewrite Heq, H12 by done. by rewrite Z.mod_small by lia.
Qed.

Lemma shiftr_pages (size : Z) :
  0 <= size ->
  0 <= Z.shiftr size GART_PAGE_SHIFT /\
  4096 * Z.of_nat (Z.to_nat (Z.shiftr size GART_PAGE_SHIFT)) <= size.
Proof.
  intros Hs. unfold GART_PAGE_SHIFT.
  rewrite Z.shiftr_div_pow2 by lia. change (2 ^ 12) with 4096.
  assert (H0 : 0 <= size / 4096) by (apply Z.div_pos; lia).
  split; [done|]. rewrite Z2Nat.id by done.
  apply Z.mul_div_le. lia.
Qed.

(** The end of a successful [gart_probe]: the table is set up, under the
    lock unless [CONFIG_ICS], and the device is marked enabled. *)
Lemma probe_tail_run (g : gart_device) (s : machine) :
  gart s = Some g -> regs g <> 0 -> pte_lock g = false ->
  exists s' evs,
    ((if CONFIG_ICS then gret tt else spin_lock) ;;;
     do_gart_setup None ;;;
     let* g := load_gart in
     store_gart (set_enable true g) ;;;
     (if CONFIG_ICS then gret tt else spin_unlock) ;;;
     gret 0) s = (Ret 0, s') /\
    gart s' = Some (set_enable true g) /\ config s' = 1 /\
    entries s' =
      install (zip (pages (iovmm_base g) (Z.to_nat (page_count g)))
                 (replicate (Z.to_nat (page_count g)) 0)) (entries s) /\
    calls s' = calls s ++ evs /\
    drvdata s' = drvdata s /\ lifecycle evs = [].
Proof.
  intros Hg Hr Hl. destruct CONFIG_ICS eqn:Hics.
  - assert (H0 : gret tt s = (Ret tt, s)) by reflexivity.
    rewrite (gbind_run _ _ _ _ _ H0).
    destruct (do_gart_setup_run g None s Hg Hr I)
      as (s1 & evs & Hrun & Hg1 & Hc1 & He1 & Hl1 & _ & _ & Hd1 & Hlc).
    rewrite (gbind_run _ _ _ _ _ Hrun).
    rewrite (gbind_run _ _ _ _ _ (load_gart_run _ _ Hg1)).
    exists (mput (set_enable true g) s1), evs.
    split; [reflexivity|]. cbn [gart config entries calls drvdata mput].
    by rewrite Hc1, He1, Hl1, Hd1.
  - rewrite (gbind_run _ _ _ _ _ (spin_lock_run _ _ Hg Hl)).
    set (gl := set_pte_lock true g).
    set (s0 := mlog [SpinLock] (mput gl s)).
    assert (Hg0 : gart s0 = Some gl) by reflexivity.
    destruct (do_gart_setup_run gl None s0 Hg0 Hr I)
      as (s1 & evs & Hrun & Hg1 & Hc1 & He1 & Hl1 & _ & _ & Hd1 & Hlc).
    rewrite (gbind_run _ _ _ _ _ Hrun).
    rewrite (gbind_run _ _ _ _ _ (load_gart_run _ _ Hg1)).
    unfold store_gart at 1. cbn [gbind].
    erewrite gbind_run by (by apply spin_unlock_run).
    exists (mlog [SpinUnlock]
              (mput (set_pte_lock false (set_enable true gl))
                 (mput (set_enable true gl) s1))),
      ([SpinLock] ++ evs ++ [SpinUnlock]).
    split; [reflexivity|]. cbn [gart config entries calls drvdata mput mlog].
    rewrite Hc1, He1, Hl1, Hd1. cbn [calls entries drvdata s0 mlog mput].
    split.
    { f_equal. unfold gl. destruct g; cbn in *. by subst. }
    split; [done|]. split; [done|].
    split; [by rewrite <- !app_assoc|]. split; [done|].
    by rewrite !lifecycle_app, Hlc.
Qed.

Lemma later_start (s : machine) :
  s = later (gart s) (drvdata s) (config s) [] s.
Proof. destruct s. unfold later. cbn. by rewrite app_nil_r. Qed.

Lemma gemit_later (e : gart_call) (g : option gart_device) (dd : bool)
    (c : Z) (evs : list gart_call) (s : machine) :
  gemit e (later g dd c evs s) = (Ret tt, later g dd c (evs ++ [e]) s).
Proof. unfold gemit, mlog, later. cbn. by rewrite <- app_assoc. Qed.

Lemma store_gart_later (g' : gart_device) (g : option gart_device)
    (dd : bool) (c : Z) (evs : list gart_call) (s : machine) :
  store_gart g' (later g dd c evs s) = (Ret tt, later (Some g') dd c evs s).
Proof. reflexivity. Qed.

Lemma load_gart_later (g : gart_device) (dd : bool) (c : Z)
    (evs : list gart_call) (s : machine) :
  load_gart (later (Some g) dd c evs s) = (Ret g, later (Some g) dd c evs s).
Proof. reflexivity. Qed.

Lemma platform_set_drvdata_later (b : bool) (g : option gart_device)
    (dd : bool) (c : Z) (evs : list gart_call) (s : machine) :
  platform_set_drvdata b (later g dd c evs s)
  = (Ret tt, later g b c (evs ++ [SetDrvdata b]) s).
Proof.
  unfold platform_set_drvdata, later. cbn. by rewrite <- app_assoc.
Qed.

Lemma kfree_gart_later (g : option gart_device) (dd : bool) (c : Z)
    (evs : list gart_call) (s : machine) :
  kfree_gart (later g dd c evs s) = (Ret tt, later None dd c (evs ++ [Kfree]) s).
Proof. unfold kfree_gart, later. cbn. by rewrite <- app_assoc. Qed.

Lemma writel_config_later (v : Z) (g : gart_device) (dd : bool) (c : Z)
    (evs : list gart_call) (s : machine) :
  regs g <> 0 ->
  writel v GART_CONFIG (later (Some g) dd c evs s)
  = (Ret tt, later (Some g) dd v (evs ++ [Writel v GART_CONFIG]) s).
Proof.
  intros Hr.
  rewrite (writel_run v GART_CONFIG g (later (Some g) dd c evs s) eq_refl Hr).
  unfold mlog, hw_write, later. cbn. by rewrite <- app_assoc.
Qed.

(** The label [fail] with the device structure allocated and no save
    area. *)
Lemma probe_fail_later (gart_regs e : Z) (g : gart_device) (dd : bool)
    (c : Z) (evs : list gart_call) (s : machine) :
  savedata g = None ->
  probe_fail true gart_regs e (later (Some g) dd c evs s) =
  (Ret e,
   later None dd c
     (evs ++ (if gart_regs =? 0 then [] else [Iounmap gart_regs]) ++ [Kfree])
     s).
Proof.
  intros Hsd. unfold probe_fail.
  assert (H1 : (if gart_regs =? 0 then gret tt
                else gemit (Iounmap gart_regs)) (later (Some g) dd c evs s) =
               (Ret tt,
                later (Some g) dd c
                  (evs ++ (if gart_regs =? 0 then []
                           else [Iounmap gart_regs])) s)).
  { destruct (gart_regs =? 0).
    - by rewrite app_nil_r.
    - apply gemit_later. }
  rewrite (gbind_run _ _ _ _ _ H1). cbv iota.
  set (evs1 := evs ++ (if gart_regs =? 0 then [] else [Iounmap gart_regs])).
  assert (H2 : (let* g := load_gart in
                (match savedata g with
                 | Some _ => gemit Vfree
                 | None => gret tt
                 end) ;;;
                kfree_gart) (later (Some g) dd c evs1 s) =
               (Ret tt, later None dd c (evs1 ++ [Kfree]) s)).
  { rewrite (gbind_run _ _ _ _ _ (load_gart_later _ _ _ _ _)).
    rewrite Hsd. unfold gret at 1. cbn [gbind].
    apply kfree_gart_later. }
  rewrite (gbind_run _ _ _ _ _ H2).
  unfold evs1. by rewrite <- app_assoc.
Qed.

(** [gart_probe] up to the allocation of the device structure and the
    remapping of the registers. *)
Lemma gart_probe_start (pd : platform_device) (k : probe_services)
    (r rr : Z * Z) (s : machine) :
  PAGE_SHIFT = GART_PAGE_SHIFT ->
  res pd = Some r -> res_remap pd = Some rr ->
  kzalloc_ok k = true ->
  gart_probe (Some pd) k s =
  (let gart_regs := ioremap_result k in
   if gart_regs =? 0 then probe_fail true gart_regs (- ENXIO)
   else
     let* g := load_gart in
     store_gart (set_pte_lock false g) ;;;
     platform_set_drvdata true ;;;
     gemit (IovmmRegister (register_result k)) ;;;
     if negb (register_result k =? 0)
     then probe_fail true gart_regs (register_result k)
     else
       gemit (IovmmDomainInit (wrap_ulong (fst rr))
                (wrap_ulong (wrap_ulong (snd rr) + 1))
                (domain_init_result k)) ;;;
       if negb (domain_init_result k =? 0)
       then probe_fail true gart_regs (domain_init_result k)
       else
         let count := Z.shiftr (resource_size rr) GART_PAGE_SHIFT in
         let* g := load_gart in
         store_gart
           {| regs := gart_regs;
              savedata := savedata g;
              page_count := count;
              iovmm_base := wrap_ulong (fst rr);
              pte_lock := pte_lock g; enable := enable g |} ;;;
         gemit (Vmalloc (wrap_ulong (4 * count))) ;;;
         let* g := load_gart in
         store_gart (set_savedata (vmalloc_result k) g) ;;;
         match vmalloc_result k with
         | None => probe_fail true gart_regs (- ENOMEM)
         | Some _ =>
             (if CONFIG_ICS then gret tt else spin_lock) ;;;
             do_gart_setup None ;;;
             let* g := load_gart in
             store_gart (set_enable true g) ;;;
             (if CONFIG_ICS then gret tt else spin_unlock) ;;;
             gret 0
         end)
    (later (Some zeroed) (drvdata s) (config s)
       [Kzalloc true;
        Ioremap (negb CONFIG_ICS) (fst r) (resource_size r)
          (ioremap_result k)] s).
Proof.
  intros Hps Hres Hrr Hkz. unfold gart_probe.
  rewrite Hps, Z.eqb_refl, Hres, Hrr. cbn [negb].
  rewrite (later_start s) at 1.
  rewrite (gbind_run _ _ _ _ _ (gemit_later _ _ _ _ _ _)).
  rewrite Hkz. cbn [negb app].
  rewrite (gbind_run _ _ _ _ _ (store_gart_later _ _ _ _ _ _)).
  rewrite (gbind_run _ _ _ _ _ (gemit_later _ _ _ _ _ _)).
  reflexivity.
Qed.

Lemma gart_probe_prefix (pd : platform_device) (k : probe_services)
    (r rr : Z * Z) (s : machine) :
  PAGE_SHIFT = GART_PAGE_SHIFT ->
  res pd = Some r -> res_remap pd = Some rr ->
  kzalloc_ok k = true -> ioremap_result k <> 0 ->
  register_result k = 0 -> domain_init_result k = 0 ->
  gart_probe (Some pd) k s =
  match vmalloc_result k with
  | None => probe_fail true (ioremap_result k) (- ENOMEM)
  | Some _ =>
      (if CONFIG_ICS then gret tt else spin_lock) ;;;
      do_gart_setup None ;;;
      let* g := load_gart in
      store_gart (set_enable true g) ;;;
      (if CONFIG_ICS then gret tt else spin_unlock) ;;;
      gret 0
  end
    (later (Some (set_enable false (probed k rr))) true (config s)
       (probe_calls r rr k) s).
Proof.
  intros Hps Hres Hrr Hkz Hio Hreg Hdom.
  rewrite (gart_probe_start pd k r rr s Hps Hres Hrr Hkz).
  apply Z.eqb_neq in Hio. cbv zeta. rewrite Hio.
  rewrite (gbind_run _ _ _ _ _ (load_gart_later _ _ _ _ _)).
  rewrite (gbind_run _ _ _ _ _ (store_gart_later _ _ _ _ _ _)).
  rewrite (gbind_run _ _ _ _ _ (platform_set_drvdata_later _ _ _ _ _ _)).
  rewrite (gbind_run _ _ _ _ _ (gemit_later _ _ _ _ _ _)).
  rewrite Hreg. cbn [Z.eqb negb].
  rewrite (gbind_run _ _ _ _ _ (gemit_later _ _ _ _ _ _)).
  rewrite Hdom. cbn [Z.eqb negb].
  rewrite (gbind_run _ _ _ _ _ (load_gart_later _ _ _ _ _)).
  rewrite (gbind_run _ _ _ _ _ (store_gart_later _ _ _ _ _ _)).
  rewrite (gbind_run _ _ _ _ _ (gemit_later _ _ _ _ _ _)).
  rewrite (gbind_run _ _ _ _ _ (load_gart_later _ _ _ _ _)).
  rewrite (gbind_run _ _ _ _ _ (store_gart_later _ _ _ _ _ _)).
  unfold probe_calls. rewrite Hkz, Hreg, Hdom. reflexivity.
Qed.

Lemma wrap_ulong_id (z : Z) : 0 <= z < 2 ^ 32 -> wrap_ulong z = z.
Proof. intros H. unfold wrap_ulong. by apply Z.mod_small. Qed.

Lemma wrap_ulong_le (z : Z) : 0 <= z -> 0 <= wrap_ulong z <= z.
Proof.
  intros H. unfold wrap_ulong. split.
  - apply Z.mod_pos_bound. lia.
  - apply Z.mod_le; lia.
Qed.

(** X28: a [gart_probe] that meets no failure returns 0 and leaves the
    device structure filled in from the resources (register base, start of
    the aperture, number of pages of the aperture, save area), enabled, with
    the lock free, and known as the driver data of the platform device.  The
    GART is switched on and every entry of the aperture is cleared; entries
    outside the aperture are left alone.  What was acquired, in order: the
    device structure, the register mapping, the registration with the
    I/O VMM, its domain, the save area; nothing is given back. *)
Theorem gart_probe_enables (pd : platform_device) (k : probe_services)
    (r rr : Z * Z) (sd : list Z) (s : machine) :
  PAGE_SHIFT = GART_PAGE_SHIFT ->
  res pd = Some r -> res_remap pd = Some rr ->
  kzalloc_ok k = true -> ioremap_result k <> 0 ->
  register_result k = 0 -> domain_init_result k = 0 ->
  vmalloc_result k = Some sd ->
  0 <= fst rr -> fst rr <= snd rr -> snd rr < 2 ^ 32 ->
  exists s' evs,
    gart_probe (Some pd) k s = (Ret 0, s') /\
    gart s' = Some (probed k rr) /\ drvdata s' = true /\
    iovmm_base (probed k rr) = fst rr /\
    config s' = 1 /\
    (forall j, (j < Z.to_nat (page_count (probed k rr)))%nat ->
       entry s' (page_addr (fst rr) j) = 0) /\
    (forall b,
       b ∉ map (page_addr (fst rr))
             (seq 0 (Z.to_nat (page_count (probed k rr)))) ->
       entries s' !! b = entries s !! b) /\
    calls s' = calls s ++ evs /\
    lifecycle evs = probe_calls r rr k.
Proof.
  intros Hps Hres Hrr Hkz Hio Hreg Hdom Hvm H0 H1 H2.
  rewrite (gart_probe_prefix pd k r rr s Hps Hres Hrr Hkz Hio Hreg Hdom), Hvm.
  set (g0 := set_enable false (probed k rr)).
  set (s0 := later (Some g0) true (config s) (probe_calls r rr k) s).
  destruct (probe_tail_run g0 s0 eq_refl Hio eq_refl)
    as (s1 & evs & Hrun & Hg1 & Hc1 & He1 & Hl1 & Hd1 & Hlc).
  assert (Hbase : iovmm_base (probed k rr) = fst rr).
  { cbn. apply wrap_ulong_id. lia. }
  assert (Hsize : 0 <= resource_size rr <= snd rr - fst rr + 1).
  { unfold resource_size. apply wrap_ulong_le. lia. }
  destruct (shiftr_pages (resource_size rr)) as [Hn0 Hn1]; [lia|].
  assert (Hpages : pages (fst rr) (Z.to_nat (page_count (probed k rr))) =
                   map (page_addr (fst rr))
                     (seq 0 (Z.to_nat (page_count (probed k rr))))).
  { apply pages_addr; [done|]. cbn [page_count probed]. lia. }
  cbn [iovmm_base page_count g0 set_enable] in He1.
  rewrite Hbase, Hpages in He1.
  exists s1, (probe_calls r rr k ++ evs).
  split; [exact Hrun|].
  split.
  { by rewrite Hg1. }
  split; [by rewrite Hd1|]. split; [exact Hbase|]. split; [exact Hc1|].
  split.
  { intros j Hj.
    apply (entry_install _ s0 s1 j _ _ He1).
    - rewrite fst_zip; [apply NoDup_page_addrs|].
      rewrite length_map, length_seq, length_replicate. lia.
    - apply lookup_zip_Some. split; [by apply page_addr_lookup|].
      by apply lookup_replicate_2. }
  split.
  { intros b Hb. rewrite He1. unfold s0. cbn [entries later].
    apply install_notin.
    rewrite fst_zip; [done|].
    rewrite length_map, length_seq, length_replicate. lia. }
  split; [rewrite Hl1; unfold s0; cbn [calls later];
          by rewrite <- app_assoc|].
  rewrite lifecycle_app, Hlc, app_nil_r. unfold probe_calls.
  reflexivity.
Qed.

(** X29: a [gart_probe] that meets a failure returns the error, never
    touches the hardware, and gives back the register mapping (if it had
    one) and the device structure.  Without memory for the structure it
    returns [-ENOMEM] and nothing else happened.  Once the structure had
    been made the driver data, it stays the driver data although it is
    freed; once the device was registered with the I/O VMM, a later failure
    (domain, save area) does not unregister it. *)
Theorem gart_probe_failure (pd : platform_device) (k : probe_services)
    (r rr : Z * Z) (s : machine) :
  PAGE_SHIFT = GART_PAGE_SHIFT ->
  res pd = Some r -> res_remap pd = Some rr ->
  let io := Ioremap (negb CONFIG_ICS) (fst r) (resource_size r)
              (ioremap_result k) in
  (kzalloc_ok k = false ->
   gart_probe (Some pd) k s = (Ret (- ENOMEM), mlog [Kzalloc false] s))
  /\
  (kzalloc_ok k = true -> ioremap_result k = 0 ->
   gart_probe (Some pd) k s =
   (Ret (- ENXIO), gave_up (drvdata s) [Kzalloc true; io; Kfree] s))
  /\
  (kzalloc_ok k = true -> ioremap_result k <> 0 ->
   register_result k <> 0 ->
   gart_probe (Some pd) k s =
   (Ret (register_result k),
    gave_up true
      [Kzalloc true; io; SetDrvdata true;
       IovmmRegister (register_result k);
       Iounmap (ioremap_result k); Kfree] s))
  /\
  (kzalloc_ok k = true -> ioremap_result k <> 0 ->
   register_result k = 0 -> domain_init_result k <> 0 ->
   gart_probe (Some pd) k s =
   (Ret (domain_init_result k),
    gave_up true
      [Kzalloc true; io; SetDrvdata true; IovmmRegister 0;
       IovmmDomainInit (wrap_ulong (fst rr))
         (wrap_ulong (wrap_ulong (snd rr) + 1)) (domain_init_result k);
       Iounmap (ioremap_result k); Kfree] s))
  /\
  (kzalloc_ok k = true -> ioremap_result k <> 0 ->
   register_result k = 0 -> domain_init_result k = 0 ->
   vmalloc_result k = None ->
   gart_probe (Some pd) k s =
   (Ret (- ENOMEM),
    gave_up true
      (probe_calls r rr k ++ [Iounmap (ioremap_result k); Kfree]) s)).
Proof.
  intros Hps Hres Hrr io.
  split; [|split; [|split; [|split]]].
  - intros Hkz. unfold gart_probe.
    rewrite Hps, Z.eqb_refl, Hres, Hrr. cbn [negb].
    unfold gemit at 1. cbn [gbind]. rewrite Hkz. cbn [negb].
    by destruct CONFIG_ICS.
  - intros Hkz Hio.
    rewrite (gart_probe_start pd k r rr s Hps Hres Hrr Hkz).
    cbv zeta. rewrite Hio. cbn [Z.eqb].
    rewrite (probe_fail_later _ _ zeroed) by reflexivity.
    unfold io. by rewrite Hio.
  - intros Hkz Hio Hreg.
    rewrite (gart_probe_start pd k r rr s Hps Hres Hrr Hkz).
    apply Z.eqb_neq in Hio, Hreg. cbv zeta. rewrite Hio.
    rewrite (gbind_run _ _ _ _ _ (load_gart_later _ _ _ _ _)).
    rewrite (gbind_run _ _ _ _ _ (store_gart_later _ _ _ _ _ _)).
    rewrite (gbind_run _ _ _ _ _ (platform_set_drvdata_later _ _ _ _ _ _)).
    rewrite (gbind_run _ _ _ _ _ (gemit_later _ _ _ _ _ _)).
    rewrite Hreg. cbn [negb].
    rewrite (probe_fail_later _ _ (set_pte_lock false zeroed)) by reflexivity.
    by rewrite Hio.
  - intros Hkz Hio Hreg Hdom.
    rewrite (gart_probe_start pd k r rr s Hps Hres Hrr Hkz).
    apply Z.eqb_neq in Hio, Hdom. cbv zeta. rewrite Hio.
    rewrite (gbind_run _ _ _ _ _ (load_gart_later _ _ _ _ _)).
    rewrite (gbind_run _ _ _ _ _ (store_gart_later _ _ _ _ _ _)).
    rewrite (gbind_run _ _ _ _ _ (platform_set_drvdata_later _ _ _ _ _ _)).
    rewrite (gbind_run _ _ _ _ _ (gemit_later _ _ _ _ _ _)).
    rewrite Hreg. cbn [Z.eqb negb].
    rewrite (gbind_run _ _ _ _ _ (gemit_later _ _ _ _ _ _)).
    rewrite Hdom. cbn [negb].
    rewrite (probe_fail_later _ _ (set_pte_lock false zeroed)) by reflexivity.
    by rewrite Hio.
  - intros Hkz Hio Hreg Hdom Hvm.
    rewrite (gart_probe_prefix pd k r rr s Hps Hres Hrr Hkz Hio Hreg Hdom),
      Hvm.
    apply Z.eqb_neq in Hio.
    rewrite (probe_fail_later _ _ (set_enable false (probed k rr)))
      by exact Hvm.
    by rewrite Hio.
Qed.

(** [gart_remove] on a device that is the driver data. *)
Lemma gart_remove_run (g : gart_device) (c : Z) (evs : list gart_call)
    (s : machine) :
  regs g <> 0 ->
  gart_remove (later (Some g) true c evs s) =
  (Ret 0,
   later None false (if enable g then 0 else c)
     (evs
      ++ (if enable g then [Writel 0 GART_CONFIG] else [])
      ++ [SetDrvdata false; IovmmUnregister]
      ++ (match savedata g with
          | Some _ => [Vfree]
          | None => []
          end)
      ++ [Iounmap (regs g); Kfree]) s).
Proof.
  intros Hr. unfold gart_remove, platform_get_drvdata.
  cbn [gbind drvdata later negb].
  fold (later (Some g) true c evs s).
  rewrite (gbind_run _ _ _ _ _ (load_gart_later _ _ _ _ _)).
  apply Z.eqb_neq in Hr as Hr'.
  assert (H1 : (if enable g then writel 0 GART_CONFIG else gret tt)
                 (later (Some g) true c evs s) =
               (Ret tt,
                later (Some g) true (if enable g then 0 else c)
                  (evs ++ (if enable g then [Writel 0 GART_CONFIG] else []))
                  s)).
  { destruct (enable g).
    - by apply writel_config_later.
    - by rewrite app_nil_r. }
  rewrite (gbind_run _ _ _ _ _ H1).
  rewrite (gbind_run _ _ _ _ _ (load_gart_later _ _ _ _ _)).
  rewrite (gbind_run _ _ _ _ _ (store_gart_later _ _ _ _ _ _)).
  rewrite (gbind_run _ _ _ _ _ (platform_set_drvdata_later _ _ _ _ _ _)).
  rewrite (gbind_run _ _ _ _ _ (gemit_later _ _ _ _ _ _)).
  rewrite (gbind_run _ _ _ _ _ (load_gart_later _ _ _ _ _)).
  cbn [savedata regs set_enable]. rewrite Hr'.
  assert (H2 : match savedata g with
               | Some _ => gemit Vfree
               | None => gret tt
               end
                 (later (Some (set_enable false g)) false
                    (if enable g then 0 else c)
                    (((evs ++ (if enable g then [Writel 0 GART_CONFIG]
                               else [])) ++ [SetDrvdata false])
                     ++ [IovmmUnregister]) s) =
               (Ret tt,
                later (Some (set_enable false g)) false
                  (if enable g then 0 else c)
                  ((((evs ++ (if enable g then [Writel 0 GART_CONFIG]
                              else [])) ++ [SetDrvdata false])
                    ++ [IovmmUnregister])
                   ++ match savedata g with
                      | Some _ => [Vfree]
                      | None => []
                      end) s)).
  { destruct (savedata g).
    - apply gemit_later.
    - by rewrite app_nil_r. }
  rewrite (gbind_run _ _ _ _ _ H2).
  rewrite (gbind_run _ _ _ _ _ (gemit_later _ _ _ _ _ _)).
  rewrite (gbind_run _ _ _ _ _ (kfree_gart_later _ _ _ _ _)).
  unfold gret. do 2 f_equal. by rewrite <- !app_assoc.
Qed.

(** X30: [gart_probe] and then [gart_remove]: the GART is switched off, and
    everything the probe acquired is given back, once: the driver data is
    reset, the device unregistered, the save area and the register mapping
    released, the device structure freed.  The table keeps what the probe
    left in it. *)
Theorem gart_probe_then_remove (pd : platform_device) (k : probe_services)
    (r rr : Z * Z) (sd : list Z) (s : machine) :
  PAGE_SHIFT = GART_PAGE_SHIFT ->
  res pd = Some r -> res_remap pd = Some rr ->
  kzalloc_ok k = true -> ioremap_result k <> 0 ->
  register_result k = 0 -> domain_init_result k = 0 ->
  vmalloc_result k = Some sd ->
  exists s1 s2 evs,
    gart_probe (Some pd) k s = (Ret 0, s1) /\
    gart_remove s1 = (Ret 0, s2) /\
    gart s2 = None /\ drvdata s2 = false /\ config s2 = 0 /\
    entries s2 = entries s1 /\
    calls s2 = calls s ++ evs /\
    lifecycle evs =
      probe_calls r rr k
      ++ [SetDrvdata false; IovmmUnregister; Vfree;
          Iounmap (ioremap_result k); Kfree].
Proof.
  intros Hps Hres Hrr Hkz Hio Hreg Hdom Hvm.
  rewrite (gart_probe_prefix pd k r rr s Hps Hres Hrr Hkz Hio Hreg Hdom), Hvm.
  set (g0 := set_enable false (probed k rr)).
  set (s0 := later (Some g0) true (config s) (probe_calls r rr k) s).
  destruct (probe_tail_run g0 s0 eq_refl Hio eq_refl)
    as (s1 & evs & Hrun & Hg1 & Hc1 & He1 & Hl1 & Hd1 & Hlc).
  assert (Hr1 : regs (set_enable true g0) <> 0) by exact Hio.
  assert (Hs1 : s1 = later (Some (set_enable true g0)) true 1 [] s1).
  { rewrite (later_start s1) at 1. by rewrite Hg1, Hd1, Hc1. }
  pose proof (gart_remove_run (set_enable true g0) 1 [] s1 Hr1) as Hrem.
  rewrite <- Hs1 in Hrem.
  exists s1. eexists.
  exists (probe_calls r rr k ++ evs
          ++ [Writel 0 GART_CONFIG]
          ++ [SetDrvdata false; IovmmUnregister] ++ [Vfree]
          ++ [Iounmap (ioremap_result k); Kfree]).
  split; [exact Hrun|]. split; [exact Hrem|].
  cbn [gart drvdata config entries calls later enable set_enable savedata
       regs g0 probed app].
  rewrite Hvm.
  split; [done|]. split; [done|]. split; [done|]. split; [done|].
  split.
  { rewrite Hl1. unfold s0. cbn [calls later]. by rewrite <- !app_assoc. }
  rewrite !lifecycle_app, Hlc. unfold probe_calls. reflexivity.
Qed.

End Driver.

(** ** A concrete machine

    A GART with an aperture of four pages at [0x58000000], two of them
    mapped; an area of two pages in the middle of the aperture.  Pages are
    4 KiB; a page frame number is valid when it is not 0. *)

Definition ex_pfn_valid (pfn : Z) : bool := 0 <? pfn.

Definition ex_gart : gart_device :=
  {| regs := 0x70019000; savedata := Some [0; 0; 0; 0]; page_count := 4;
     iovmm_base := 0x58000000; pte_lock := false; enable := true |}.

Definition ex_machine : machine :=
  {| gart := Some ex_gart; drvdata := true; config := 1; entry_addr := 0;
     entries := {[ 0x58000000 := 0x80123000; 0x58001000 := 0x80456000 ]};
     calls := [] |}.

(** the memory manager finds every page: page [i] is in frame [0x100 + i] *)
Definition ex_resident (tr : list gart_call) (offs : Z) : Z :=
  0x100 + offs / 4096.

(** the memory manager does not find the second page *)
Definition ex_second_missing (tr : list gart_call) (offs : Z) : Z :=
  if offs =? 4096 then 0 else 0x100 + offs / 4096.

Definition ex_ops (f : list gart_call -> Z -> Z) : tegra_iovmm_area_ops :=
  {| lock_makeresident := Some f; release := true |}.

Definition ex_area (f : list gart_call -> Z -> Z) : tegra_iovmm_area :=
  {| iovm_start := 0x58001000; iovm_length := 0x2000;
     ops := Some (ex_ops f) |}.

Lemma ex_resident_valid (tr : list gart_call) (j : nat) :
  (j < 2)%nat -> ex_pfn_valid (ex_resident tr (page_offset 12 j)) = true.
Proof. intros Hj. destruct j as [|[|j]]; [reflexivity|reflexivity|lia]. Defined.

Lemma gart_unmap_clears_witness :
  let iovma := ex_area ex_resident in
  exists s' evs,
    gart_unmap false 12 iovma true ex_machine = (Ret tt, s') /\
    gart s' = Some ex_gart /\ config s' = config ex_machine /\
    calls s' = calls ex_machine ++ evs /\
    (forall j, (j < area_pages iovma)%nat ->
       entry s' (page_addr (iovm_start iovma) j) = 0) /\
    (forall a,
       a ∉ map (page_addr (iovm_start iovma)) (seq 0 (area_pages iovma)) ->
       entries s' !! a = entries ex_machine !! a) /\
    released evs =
      (if has_release iovma
       then map (page_offset 12) (seq 0 (area_pages iovma)) else []) /\
    made_resident evs = [].
Proof.
  intros iovma.
  apply (gart_unmap_clears false 12 iovma true ex_gart ex_machine).
  - reflexivity.
  - discriminate.
  - reflexivity.
  - by vm_compute.
  - by vm_compute.
Defined.

Lemma gart_map_installs_witness :
  let iovma := ex_area ex_resident in
  exists s' evs pfns,
    gart_map false 12 ex_pfn_valid iovma ex_machine = (Ret 0, s') /\
    gart s' = Some ex_gart /\ config s' = config ex_machine /\
    calls s' = calls ex_machine ++ evs /\
    length pfns = area_pages iovma /\
    made_resident evs =
      zip (map (page_offset 12) (seq 0 (area_pages iovma))) pfns /\
    released evs = [] /\
    (forall j pfn, pfns !! j = Some pfn ->
       ex_pfn_valid pfn = true /\
       entry s' (page_addr (iovm_start iovma) j) = GART_PTE 12 pfn) /\
    (forall a,
       a ∉ map (page_addr (iovm_start iovma)) (seq 0 (area_pages iovma)) ->
       entries s' !! a = entries ex_machine !! a).
Proof.
  intros iovma.
  apply (gart_map_installs false 12 ex_pfn_valid iovma (ex_ops ex_resident)
           ex_resident ex_gart ex_machine).
  - reflexivity.
  - discriminate.
  - reflexivity.
  - reflexivity.
  - reflexivity.
  - intros tr j Hj. by apply ex_resident_valid.
  - by vm_compute.
  - by vm_compute.
Defined.

Lemma gart_map_rollback_witness :
  let iovma := ex_area ex_second_missing in
  exists s' evs pfns bad,
    gart_map false 12 ex_pfn_valid iovma ex_machine = (Ret (- ENOMEM), s') /\
    gart s' = Some ex_gart /\ config s' = config ex_machine /\
    calls s' = calls ex_machine ++ evs /\
    length pfns = 1%nat /\
    made_resident evs =
      zip (map (page_offset 12) (seq 0 1)) pfns ++ [(page_offset 12 1, bad)] /\
    ex_pfn_valid bad = false /\
    released evs = map (page_offset 12) (reverse (seq 0 1)) /\
    (forall j, (j < 1)%nat ->
       entry s' (page_addr (iovm_start iovma) j) = 0) /\
    (forall a,
       a ∉ map (page_addr (iovm_start iovma)) (seq 0 1) ->
       entries s' !! a = entries ex_machine !! a).
Proof.
  intros iovma.
  destruct (gart_map_rollback false 12 ex_pfn_valid iovma
              (ex_ops ex_second_missing) ex_second_missing ex_gart
              ex_machine 1) as [Hundo _].
  - reflexivity.
  - discriminate.
  - reflexivity.
  - reflexivity.
  - reflexivity.
  - vm_compute. lia.
  - intros tr j Hj. destruct j as [|j]; [reflexivity|lia].
  - reflexivity.
  - by vm_compute.
  - by vm_compute.
  - apply Hundo. reflexivity.
Defined.

Lemma gart_map_pfn_installs_witness :
  let iovma := ex_area ex_resident in
  exists s',
    gart_map_pfn false 12 ex_pfn_valid iovma 0x58002000 0x222 ex_machine
    = (Ret tt, s') /\
    gart s' = Some ex_gart /\ config s' = config ex_machine /\
    entry s' 0x58002000 = GART_PTE 12 0x222 /\
    (forall a, a <> 0x58002000 ->
       entries s' !! a = entries ex_machine !! a) /\
    calls s' =
      calls ex_machine ++ [SpinLock]
      ++ map_block_events false 0x58002000 (GART_PTE 12 0x222)
           (config ex_machine)
      ++ [SpinUnlock] ++ [Wmb].
Proof.
  intros iovma.
  destruct (gart_map_pfn_installs false 12 ex_pfn_valid iovma 0x58002000
              0x222 ex_gart ex_machine) as [_ Hok].
  - reflexivity.
  - discriminate.
  - reflexivity.
  - apply Hok. reflexivity.
Defined.

Lemma gart_suspend_resume_restores_witness :
  exists s1 g1,
    gart_suspend false ex_machine = (Ret 0, s1) /\
    gart s1 = Some g1 /\
    g1 = set_savedata
           (Some (map (fun j => entry ex_machine
                                  (page_addr (iovmm_base ex_gart) j))
                    (seq 0 (Z.to_nat (page_count ex_gart))))) ex_gart /\
    config s1 = config ex_machine /\ entries s1 = entries ex_machine /\
    forall (c a : Z) (t : gmap Z Z),
      exists s2,
        gart_resume false (power_lost c a t s1) = (Ret tt, s2) /\
        gart s2 = Some g1 /\ config s2 = 1 /\
        (forall j, (j < Z.to_nat (page_count ex_gart))%nat ->
           entry s2 (page_addr (iovmm_base ex_gart) j)
           = entry ex_machine (page_addr (iovmm_base ex_gart) j)) /\
        (forall b,
           b ∉ map (page_addr (iovmm_base ex_gart))
                 (seq 0 (Z.to_nat (page_count ex_gart))) ->
           entries s2 !! b = t !! b).
Proof.
  apply (gart_suspend_resume_restores false ex_gart [0; 0; 0; 0] ex_machine).
  - reflexivity.
  - discriminate.
  - reflexivity.
  - reflexivity.
  - reflexivity.
  - reflexivity.
  - by vm_compute.
  - by vm_compute.
Defined.

Lemma gart_map_then_unmap_witness :
  let iovma := ex_area ex_resident in
  exists s' evs,
    (let* _ := gart_map false 12 ex_pfn_valid iovma in
     gart_unmap false 12 iovma true) ex_machine
    = (Ret tt, s') /\
    gart s' = Some ex_gart /\ config s' = config ex_machine /\
    calls s' = calls ex_machine ++ evs /\
    (forall j, (j < area_pages iovma)%nat ->
       entry s' (page_addr (iovm_start iovma) j) = 0) /\
    (forall a,
       a ∉ map (page_addr (iovm_start iovma)) (seq 0 (area_pages iovma)) ->
       entries s' !! a = entries ex_machine !! a) /\
    (made_resident evs).*1 =
      map (page_offset 12) (seq 0 (area_pages iovma)) /\
    released evs =
      (if release (ex_ops ex_resident) then (made_resident evs).*1 else []).
Proof.
  intros iovma.
  apply (gart_map_then_unmap false 12 ex_pfn_valid iovma (ex_ops ex_resident)
           ex_resident ex_gart ex_machine true).
  - reflexivity.
  - discriminate.
  - reflexivity.
  - reflexivity.
  - reflexivity.
  - intros tr j Hj. by apply ex_resident_valid.
  - by vm_compute.
  - by vm_compute.
Defined.

Lemma do_gart_setup_clears_witness :
  exists s' evs,
    do_gart_setup false None ex_machine = (Ret tt, s') /\
    gart s' = Some ex_gart /\ config s' = 1 /\
    calls s' = calls ex_machine ++ evs /\
    (forall j, (j < Z.to_nat (page_count ex_gart))%nat ->
       entry s' (page_addr (iovmm_base ex_gart) j) = 0) /\
    (forall b,
       b ∉ map (page_addr (iovmm_base ex_gart))
             (seq 0 (Z.to_nat (page_count ex_gart))) ->
       entries s' !! b = entries ex_machine !! b) /\
    released evs = [] /\ made_resident evs = [].
Proof.
  apply (do_gart_setup_clears false ex_gart ex_machine).
  - reflexivity.
  - discriminate.
  - by vm_compute.
  - by vm_compute.
Defined.

Lemma GART_PTE_valid_bit_witness :
  GART_PTE 12 0x123 = 2 ^ 31 + (0x123 * 2 ^ 12) mod 2 ^ 31 /\
  Z.testbit (GART_PTE 12 0x123) 31 = true /\
  GART_PTE 12 0x123 <> 0 /\
  (GART_PTE 12 0x123 - 2 ^ 31) / 4096 = 0x123 mod 2 ^ 19 /\
  GART_PTE 12 (0x123 + 2 ^ 19) = GART_PTE 12 0x123 /\
  GART_PTE 12 0x123 = 2 ^ 31 + 4096 * 0x123.
Proof.
  destruct (GART_PTE_valid_bit 12 0x123) as (H1 & H2 & H3 & H4);
    [lia|lia|].
  destruct (H4 eq_refl) as (H5 & H6 & H7).
  exact (conj H1 (conj H2 (conj H3 (conj H5 (conj H6 (H7 eq_refl)))))).
Defined.

(** the platform device: the registers of the memory controller, and an
    aperture of four pages *)
Definition ex_pdev : platform_device :=
  {| res := Some (0x7000f000, 0x7000f3ff);
     res_remap := Some (0x58000000, 0x58003fff) |}.

(** the kernel finds everything; or the I/O VMM refuses the device *)
Definition ex_services (e : Z) : probe_services :=
  {| kzalloc_ok := true; ioremap_result := 0x70019000;
     register_result := e; domain_init_result := 0;
     vmalloc_result := Some [7; 7; 7; 7] |}.

(** the machine before the driver is bound *)
Definition ex_unbound : machine :=
  {| gart := None; drvdata := false; config := 0; entry_addr := 0;
     entries := {[ 0x58000000 := 0x80123000; 0x60000000 := 5 ]};
     calls := [] |}.

Lemma gart_probe_enables_witness :
  let k := ex_services 0 in
  let r := (0x7000f000, 0x7000f3ff) in
  let rr := (0x58000000, 0x58003fff) in
  exists s' evs,
    gart_probe false 12 (Some ex_pdev) k ex_unbound = (Ret 0, s') /\
    gart s' = Some (probed k rr) /\ drvdata s' = true /\
    iovmm_base (probed k rr) = fst rr /\
    config s' = 1 /\
    (forall j, (j < Z.to_nat (page_count (probed k rr)))%nat ->
       entry s' (page_addr (fst rr) j) = 0) /\
    (forall b,
       b ∉ map (page_addr (fst rr))
             (seq 0 (Z.to_nat (page_count (probed k rr)))) ->
       entries s' !! b = entries ex_unbound !! b) /\
    calls s' = calls ex_unbound ++ evs /\
    lifecycle evs = probe_calls false r rr k.
Proof.
  intros k r rr.
  apply (gart_probe_enables false 12 ex_pdev k r rr [7; 7; 7; 7] ex_unbound).
  - reflexivity.
  - reflexivity.
  - reflexivity.
  - reflexivity.
  - discriminate.
  - reflexivity.
  - reflexivity.
  - reflexivity.
  - by vm_compute.
  - by vm_compute.
  - by vm_compute.
Defined.

Lemma gart_probe_failure_witness :
  let k := ex_services (-16) in
  gart_probe false 12 (Some ex_pdev) k ex_unbound =
  (Ret (-16),
   gave_up true
     [Kzalloc true;
      Ioremap true 0x7000f000 (resource_size (0x7000f000, 0x7000f3ff))
        0x70019000;
      SetDrvdata true; IovmmRegister (-16);
      Iounmap 0x70019000; Kfree] ex_unbound).
Proof.
  intros k.
  destruct (gart_probe_failure false 12 ex_pdev k
              (0x7000f000, 0x7000f3ff) (0x58000000, 0x58003fff) ex_unbound)
    as (_ & _ & Hreg & _).
  - reflexivity.
  - reflexivity.
  - reflexivity.
  - apply Hreg; [reflexivity|discriminate|discriminate].
Defined.

Lemma gart_probe_then_remove_witness :
  let k := ex_services 0 in
  let r := (0x7000f000, 0x7000f3ff) in
  let rr := (0x58000000, 0x58003fff) in
  exists s1 s2 evs,
    gart_probe false 12 (Some ex_pdev) k ex_unbound = (Ret 0, s1) /\
    gart_remove s1 = (Ret 0, s2) /\
    gart s2 = None /\ drvdata s2 = false /\ config s2 = 0 /\
    entries s2 = entries s1 /\
    calls s2 = calls ex_unbound ++ evs /\
    lifecycle evs =
      probe_calls false r rr k
      ++ [SetDrvdata false; IovmmUnregister; Vfree;
          Iounmap (ioremap_result k); Kfree].
Proof.
  intros k r rr.
  apply (gart_probe_then_remove false 12 ex_pdev k r rr [7; 7; 7; 7]
           ex_unbound).
  - reflexivity.
  - reflexivity.
  - reflexivity.
  - reflexivity.
  - discriminate.
  - reflexivity.
  - reflexivity.
  - reflexivity.
Defined.

(** The scenario run on the machine: the area is mapped, the GART is
    suspended, loses its state and is resumed, and the area is unmapped. *)
Definition ex_session : G unit :=
  let* _ := gart_map false 12 ex_pfn_valid (ex_area ex_resident) in
  let* _ := gart_suspend false in
  (fun s => (Ret tt, power_lost 0 0 ∅ s)) ;;;
  gart_resume false ;;;
  gart_unmap false 12 (ex_area ex_resident) false.

Lemma ex_session_run :
  let r := ex_session ex_machine in
  fst r = Ret tt /\
  map (entry (snd r)) [0x58000000; 0x58001000; 0x58002000; 0x58003000]
  = [0x80123000; 0; 0; 0] /\
  config (snd r) = 1 /\
  made_resident (calls (snd r)) = [(0, 0x100); (4096, 0x101)] /\
  released (calls (snd r)) = [0; 4096].
Proof. by vm_compute. Qed.

(** The driver is bound, an area is mapped, and the driver is removed. *)
Definition ex_lifetime : G Z :=
  let* _ := gart_probe false 12 (Some ex_pdev) (ex_services 0) in
  let* _ := gart_map false 12 ex_pfn_valid (ex_area ex_resident) in
  gart_remove.

Lemma ex_lifetime_run :
  let r := ex_lifetime ex_unbound in
  fst r = Ret 0 /\
  gart (snd r) = None /\ drvdata (snd r) = false /\ config (snd r) = 0 /\
  map (entry (snd r))
    [0x58000000; 0x58001000; 0x58002000; 0x58003000; 0x60000000]
  = [0; 0x80100000; 0x80101000; 0; 5] /\
  lifecycle (calls (snd r)) =
    [Kzalloc true; Ioremap true 0x7000f000 0x400 0x70019000;
     SetDrvdata true; IovmmRegister 0;
     IovmmDomainInit 0x58000000 0x58004000 0; Vmalloc 16;
     SetDrvdata false; IovmmUnregister; Vfree; Iounmap 0x70019000; Kfree].
Proof. by vm_compute. Qed.

End Gart.
